(** * bancos-reader: the statement parsers of [src/parsers]

    A shallow embedding of [src/parsers/bbva.py] (the positional extractor of
    the debit/checking layout) and of [src/parsers/bbva_tc.py] (the
    line-pattern extractor of the credit-card layout), with the properties
    the specification states about them.

    Conventions of the embedding:
    - a Python [str] is a [string]; its characters are the code points below
      256 (Latin-1), the range in which the statement texts and every
      character the parsers name (Ñ, Ó, Á, Í, Ú, U+00A0) live;
    - a Python [float] is a [pyfloat], a binary64 number: NaN, an infinity,
      or a sign and a magnitude that is a rational; what is read from a
      text and what is computed is rounded to the nearest binary64 number,
      ties to even, and is an infinity beyond the largest one;
    - the coordinates of a word, finite floats in pdfplumber, are given by
      their values, rationals [Q]; their sums and differences are computed
      in binary64;
    - [None] is [None], a [dict] whose iteration order matters is an
      association list in insertion order, [list.sort]/[sorted] are a stable
      sort;
    - pandas' date parser is not code of this repository: the development is
      parametric in it (Section variable [pd_to_datetime]).

    The choice of the parser in [src/core/detector_banco.py] and
    [safe_sql_table_name] of [src/ui/ui.py] are embedded as well; there
    [\b] and [\w] are those of Python's [re] on [str], on the code points
    below 256. *)

From Stdlib Require Import List String Ascii Bool Arith ZArith NArith QArith Qabs Qround Qpower Lia Lqa.
From Stdlib Require Import DecimalString.
From Stdlib Require Import Sorting.Sorted Sorting.Permutation.
Import ListNotations.

Local Open Scope string_scope.
Local Open Scope list_scope.

(* ================================================================= *)
(** ** Python's [str] methods used by the parsers *)

Module Py.

Definition code (c : ascii) : N := N_of_ascii c.

Definition in_range (lo hi : N) (c : ascii) : bool :=
  ((lo <=? code c) && (code c <=? hi))%N.

Definition isdigit (c : ascii) : bool := in_range 48 57 c.

(** [str.isspace] on the code points below 256. *)
Definition isspace (c : ascii) : bool :=
  in_range 9 13 c || in_range 28 32 c || (code c =? 133)%N || (code c =? 160)%N.

(** [str.upper], one character: a-z, and the Latin-1 letters à-þ (÷ apart);
    ß becomes SS.  The upper-case forms of µ and ÿ lie above 255 and are not
    represented: both are left as they are. *)
Definition upper_char (c : ascii) : string :=
  if in_range 97 122 c then String (ascii_of_N (code c - 32)) ""
  else if (code c =? 223)%N then "SS"
  else if in_range 224 254 c && negb (code c =? 247)%N
       then String (ascii_of_N (code c - 32)) ""
  else String c "".

Fixpoint upper (s : string) : string :=
  match s with
  | EmptyString => EmptyString
  | String c s' => upper_char c ++ upper s'
  end.

Fixpoint lstrip (s : string) : string :=
  match s with
  | EmptyString => EmptyString
  | String c s' => if isspace c then lstrip s' else s
  end.

Fixpoint rstrip (s : string) : string :=
  match s with
  | EmptyString => EmptyString
  | String c s' =>
      match rstrip s' with
      | EmptyString => if isspace c then EmptyString else String c EmptyString
      | r => String c r
      end
  end.

Definition strip (s : string) : string := rstrip (lstrip s).

(** [s.replace(old, new)] for a one-character [old] (every call of the
    parsers). *)
Fixpoint replace (old : ascii) (new : string) (s : string) : string :=
  match s with
  | EmptyString => EmptyString
  | String c s' =>
      if Ascii.eqb c old then new ++ replace old new s'
      else String c (replace old new s')
  end.

Definition startswith (s p : string) : bool := String.prefix p s.

(** [sub in s] *)
Fixpoint contains (sub s : string) : bool :=
  String.prefix sub s ||
  match s with
  | EmptyString => false
  | String _ s' => contains sub s'
  end.

(** [s.count(c)] for a one-character argument. *)
Fixpoint count (c : ascii) (s : string) : nat :=
  match s with
  | EmptyString => 0
  | String x s' => (if Ascii.eqb x c then 1 else 0) + count c s'
  end.

Definition is_empty (s : string) : bool :=
  match s with EmptyString => true | _ => false end.

(** [s.split()]: the maximal runs of non-blank characters. *)
Fixpoint split_aux (cur : string) (s : string) : list string :=
  match s with
  | EmptyString => if is_empty cur then [] else [cur]
  | String c s' =>
      if isspace c
      then (if is_empty cur then split_aux "" s' else cur :: split_aux "" s')
      else split_aux (cur ++ String c "") s'
  end.

Definition split (s : string) : list string := split_aux "" s.

(** [sep.join(l)] *)
Fixpoint join (sep : string) (l : list string) : string :=
  match l with
  | [] => ""
  | [x] => x
  | x :: l' => x ++ sep ++ join sep l'
  end.

(** Line boundaries of [str.splitlines] below 256:
    \n, \v, \f, \r, \x1c, \x1d, \x1e and \x85; \r\n counts once. *)
Definition is_linebreak (c : ascii) : bool :=
  in_range 10 13 c || in_range 28 30 c || (code c =? 133)%N.

Fixpoint splitlines_aux (after_cr : bool) (cur : string) (s : string)
  : list string :=
  match s with
  | EmptyString => if is_empty cur then [] else [cur]
  | String c s' =>
      if after_cr && (code c =? 10)%N then splitlines_aux false cur s'
      else if is_linebreak c
           then cur :: splitlines_aux (code c =? 13)%N "" s'
           else splitlines_aux false (cur ++ String c "") s'
  end.

Definition splitlines (s : string) : list string := splitlines_aux false "" s.

(** *** [float] *)

Inductive pyfloat : Type :=
| PyNaN
| PyInf (neg : bool)
| PyFin (neg : bool) (mag : Q).   (* (-1)^neg * mag, with 0 <= mag *)

(** [x < 0] *)
Definition lt0 (x : pyfloat) : bool :=
  match x with
  | PyNaN => false
  | PyInf neg => neg
  | PyFin neg mag => neg && negb (Qle_bool mag 0)
  end.

(** [abs(x)] *)
Definition abs (x : pyfloat) : pyfloat :=
  match x with
  | PyNaN => PyNaN
  | PyInf _ => PyInf false
  | PyFin _ mag => PyFin false mag
  end.

(** The sign bit. *)
Definition signbit (x : pyfloat) : bool :=
  match x with
  | PyNaN => false
  | PyInf neg => neg
  | PyFin neg _ => neg
  end.

(** **** Rounding to binary64 *)

Definition pow2 (e : Z) : Q := (2 ^ e)%Q.

(** The nearest integer, the even one of two that are as near. *)
Definition rne (q : Q) : Z :=
  let k := Qfloor q in
  match (q - inject_Z k ?= 1 # 2)%Q with
  | Lt => k
  | Gt => (k + 1)%Z
  | Eq => if Z.even k then k else (k + 1)%Z
  end.

(** The exponent of the leading bit of [q], for [0 < q]:
    [2^e <= q < 2^(e+1)]. *)
Definition ilog2 (q : Q) : Z :=
  let e0 := (Z.log2 (Qnum q) - Z.log2 (Zpos (Qden q)))%Z in
  if Qle_bool (pow2 e0) q then e0 else (e0 - 1)%Z.

(** The multiple of [2^u] nearest to [q]. *)
Definition en_malla (u : Z) (q : Q) : Q :=
  (inject_Z (rne (q / pow2 u)) * pow2 u)%Q.

(** The number nearest to [q], for [0 < q], among those of 53 significant
    bits with an exponent not below that of the subnormal numbers. *)
Definition redondear (q : Q) : Q :=
  Qred (en_malla (Z.max (ilog2 q - 52) (-1074)) q).

(** The float nearest to the magnitude [q] with the sign [neg]: an infinity
    when the rounded magnitude reaches [2^1024]. *)
Definition de_magnitud (neg : bool) (q : Q) : pyfloat :=
  if Qle_bool q 0 then PyFin neg 0
  else let r := redondear q in
       if Qle_bool (pow2 1024) r then PyInf neg else PyFin neg r.

(** The float nearest to [q]. *)
Definition de_Q (q : Q) : pyfloat :=
  de_magnitud (negb (Qle_bool 0 q)) (Qabs q).

(** The float whose value is [q], for a number that is a float already. *)
Definition fin (q : Q) : pyfloat := PyFin (negb (Qle_bool 0 q)) (Qabs q).

(** The value of a finite float. *)
Definition valor (neg : bool) (mag : Q) : Q := if neg then (- mag)%Q else mag.

(** A number that is a float: zero, or a magnitude that rounding leaves as
    it is, below [2^1024]. *)
Definition es_doble (q : Q) : bool :=
  Qeq_bool q 0
  || (Qeq_bool (redondear (Qabs q)) (Qabs q)
      && negb (Qle_bool (pow2 1024) (Qabs q))).

Definition es_nan (x : pyfloat) : bool :=
  match x with PyNaN => true | _ => false end.

(** [-x] *)
Definition opuesto (x : pyfloat) : pyfloat :=
  match x with
  | PyNaN => PyNaN
  | PyInf neg => PyInf (negb neg)
  | PyFin neg mag => PyFin (negb neg) mag
  end.

(** [x + y]: the sum is rounded; a sum that is zero is [-0.0] only when
    both terms are. *)
Definition suma (x y : pyfloat) : pyfloat :=
  match x, y with
  | PyNaN, _ | _, PyNaN => PyNaN
  | PyInf a, PyInf b => if Bool.eqb a b then PyInf a else PyNaN
  | PyInf a, PyFin _ _ => PyInf a
  | PyFin _ _, PyInf b => PyInf b
  | PyFin a m, PyFin b n =>
      let v := (valor a m + valor b n)%Q in
      if Qeq_bool v 0 then PyFin (a && b) 0 else de_Q v
  end.

(** [x - y] *)
Definition resta (x y : pyfloat) : pyfloat := suma x (opuesto y).

(** [x / 2] *)
Definition mitad (x : pyfloat) : pyfloat :=
  match x with
  | PyFin neg mag => de_magnitud neg (mag / 2)%Q
  | _ => x
  end.

(** [x < y] and [x <= y]: false with a NaN on either side. *)
Definition ltb (x y : pyfloat) : bool :=
  match x, y with
  | PyNaN, _ | _, PyNaN => false
  | PyInf a, PyInf b => a && negb b
  | PyInf a, PyFin _ _ => a
  | PyFin _ _, PyInf b => negb b
  | PyFin a m, PyFin b n => negb (Qle_bool (valor b n) (valor a m))
  end.

Definition leb (x y : pyfloat) : bool :=
  match x, y with
  | PyNaN, _ | _, PyNaN => false
  | PyInf a, PyInf b => a || negb b
  | PyInf a, PyFin _ _ => a
  | PyFin _ _, PyInf b => negb b
  | PyFin a m, PyFin b n => Qle_bool (valor a m) (valor b n)
  end.

Definition digit_val (c : ascii) : N := (code c - 48)%N.

Definition digits_to_N (ds : list ascii) : N :=
  fold_left (fun acc d => (acc * 10 + digit_val d)%N) ds 0%N.

(** digitpart ::= digit (["_"] digit)*  — an underscore is read only between
    two digits.  Returns the digits and what follows them. *)
Fixpoint scan_digits (after_digit : bool) (s : list ascii)
  : list ascii * list ascii :=
  match s with
  | [] => ([], [])
  | c :: s' =>
      if isdigit c then
        let (ds, r) := scan_digits true s' in (c :: ds, r)
      else if after_digit && Ascii.eqb c "_" then
        match s' with
        | d :: _ => if isdigit d then scan_digits false s' else ([], s)
        | [] => ([], s)
        end
      else ([], s)
  end.

(** The decimal literal of [float(str)]: digits, an optional point and
    digits, an optional exponent; mantissa [m] and decimal exponent [e]. *)
Definition scan_number (s : list ascii) : option (N * Z) :=
  let (di, r1) := scan_digits false s in
  let (df, r2) := match r1 with
                  | "."%char :: r => scan_digits false r
                  | _ => ([], r1)
                  end in
  if (List.length di + List.length df =? 0)%nat then None else
  let m := digits_to_N (di ++ df) in
  let nf := Z.of_nat (List.length df) in
  match r2 with
  | [] => Some (m, (- nf)%Z)
  | x :: r3 =>
      if Ascii.eqb x "e" || Ascii.eqb x "E" then
        let (sg, r4) := match r3 with
                        | "-"%char :: r => (true, r)
                        | "+"%char :: r => (false, r)
                        | _ => (false, r3)
                        end in
        let (de, r5) := scan_digits false r4 in
        match de, r5 with
        | _ :: _, [] =>
            let ex := Z.of_N (digits_to_N de) in
            Some (m, ((if sg then - ex else ex) - nf)%Z)
        | _, _ => None
        end
      else None
  end.

(** m * 10^e as a reduced fraction. *)
Definition decimal_value (m : N) (e : Z) : Q :=
  Qred (if (0 <=? e)%Z
        then Qmake (Z.of_N m * 10 ^ e) 1
        else Qmake (Z.of_N m) (Z.to_pos (10 ^ (- e)))).

(** The optional sign in front of the literal. *)
Definition split_sign (cs : list ascii) : bool * list ascii :=
  match cs with
  | c :: r =>
      if Ascii.eqb c "-" then (true, r)
      else if Ascii.eqb c "+" then (false, r)
      else (false, cs)
  | [] => (false, cs)
  end.

(** What follows the sign: inf, infinity or nan in any case, or a decimal
    literal, which is rounded. *)
Definition float_body (neg : bool) (body : list ascii) : option pyfloat :=
  let low := upper (string_of_list_ascii body) in
  if String.eqb low "INF" || String.eqb low "INFINITY" then Some (PyInf neg)
  else if String.eqb low "NAN" then Some PyNaN
  else match scan_number body with
       | Some (m, e) => Some (de_magnitud neg (decimal_value m e))
       | None => None
       end.

(** [float(s)]; [None] is ValueError. *)
Definition float (s : string) : option pyfloat :=
  let (neg, body) := split_sign (list_ascii_of_string (strip s)) in
  float_body neg body.

End Py.

(* ================================================================= *)
(** ** Python's [re] on the patterns the parsers compile

    Every quantifier of the parsers' patterns is applied to a character
    class, so a repetition carries its class.  Matching is the backtracking
    search of [re]: a greedy repetition tries the longest run first, a lazy
    one the shortest, and the first complete match wins. *)

Module Re.

Inductive regex : Type :=
| Bol                                   (* ^ *)
| Eol                                   (* $ *)
| Chr (c : ascii)                       (* a literal character *)
| Rep (cls : ascii -> bool) (lo : nat) (hi : option nat) (lazy : bool)
                                        (* cls{lo,hi}, cls{lo,hi}? *)
| Seq (r1 r2 : regex)
| Grp (name : string) (r : regex).      (* (?P<name>r) or a numbered group *)

Definition groups := list (string * string).

Definition orelse {A} (x y : option A) : option A :=
  match x with Some _ => x | None => y end.

Definition may_take (hi : option nat) : bool :=
  match hi with None => true | Some h => negb (h =? 0)%nat end.

Section Matcher.
Context {R : Type}.

(** [done] is the text consumed so far, last character first. *)
Fixpoint rep (cls : ascii -> bool) (lazy : bool) (lo : nat) (hi : option nat)
  (done s : list ascii) (k : list ascii -> list ascii -> option R)
  {struct s} : option R :=
  let more :=
    match s with
    | [] => None
    | a :: s' =>
        if cls a && may_take hi
        then rep cls lazy (pred lo) (option_map pred hi) (a :: done) s' k
        else None
    end in
  if (lo =? 0)%nat
  then (if lazy then orelse (k done s) more else orelse more (k done s))
  else more.

End Matcher.

Definition captured (done0 done1 : list ascii) : string :=
  string_of_list_ascii (rev (firstn (List.length done1 - List.length done0) done1)).

Fixpoint run (r : regex) (done s : list ascii) (g : groups)
  (k : list ascii -> list ascii -> groups -> option groups) : option groups :=
  match r with
  | Bol => match done with [] => k done s g | _ => None end
  | Eol => match s with
           | [] => k done s g
           | [c] => if (Py.code c =? 10)%N then k done s g else None
           | _ => None
           end
  | Chr c => match s with
             | a :: s' => if Ascii.eqb a c then k (a :: done) s' g else None
             | [] => None
             end
  | Rep cls lo hi lazy => rep cls lazy lo hi done s (fun d' s' => k d' s' g)
  | Seq r1 r2 => run r1 done s g (fun d' s' g' => run r2 d' s' g' k)
  | Grp name r1 =>
      run r1 done s g (fun d' s' g' => k d' s' ((name, captured done d') :: g'))
  end.

(** [pattern.match(s)] *)
Definition re_match (r : regex) (s : string) : option groups :=
  run r [] (list_ascii_of_string s) [] (fun _ _ g => Some g).

(** [pattern.fullmatch(s)] *)
Definition fullmatch (r : regex) (s : string) : option groups :=
  run r [] (list_ascii_of_string s) []
      (fun _ s' g => match s' with [] => Some g | _ => None end).

(** [pattern.search(s)]: the first position at which a match starts. *)
Fixpoint search_from (r : regex) (done s : list ascii) : option groups :=
  match run r done s [] (fun _ _ g => Some g) with
  | Some g => Some g
  | None => match s with
            | [] => None
            | a :: s' => search_from r (a :: done) s'
            end
  end.

Definition search (r : regex) (s : string) : option groups :=
  search_from r [] (list_ascii_of_string s).

(** [m.group(name)] *)
Fixpoint group (name : string) (g : groups) : string :=
  match g with
  | [] => ""
  | (n, v) :: g' => if String.eqb n name then v else group name g'
  end.

Fixpoint seq (rs : list regex) : regex :=
  match rs with
  | [] => Rep (fun _ => false) 0 (Some 0%nat) false
  | [r] => r
  | r :: rs' => Seq r (seq rs')
  end.

Fixpoint lit (s : string) : list regex :=
  match s with
  | EmptyString => []
  | String c s' => Chr c :: lit s'
  end.

(** Character classes of the patterns. *)
Definition d : ascii -> bool := Py.isdigit.                 (* \d *)
Definition sp : ascii -> bool := Py.isspace.                (* \s *)
Definition AZ : ascii -> bool := Py.in_range 65 90.         (* [A-Z] *)
Definition dot (c : ascii) : bool := negb (Py.code c =? 10)%N.   (* . *)

Definition exactly (cls : ascii -> bool) (n : nat) : regex :=
  Rep cls n (Some n) false.
Definition plus (cls : ascii -> bool) : regex := Rep cls 1 None false.
Definition star (cls : ascii -> bool) : regex := Rep cls 0 None false.

End Re.

(* ================================================================= *)
(** ** Stable sorting: [list.sort(key=...)], [sorted] and [sort_values] *)

Section Orden.
Context {A : Type} (leb : A -> A -> bool).

(** [insertar x l] puts [x] in front of the first element it is not greater
    than: an element keeps its place before the equal ones that followed it. *)
Fixpoint insertar (x : A) (l : list A) : list A :=
  match l with
  | [] => [x]
  | y :: l' => if leb x y then x :: l else y :: insertar x l'
  end.

Fixpoint ordenar (l : list A) : list A :=
  match l with
  | [] => []
  | x :: l' => insertar x (ordenar l')
  end.

End Orden.

Definition Qlt_bool (a b : Q) : bool := negb (Qle_bool b a).

(** [(a1, b1) <= (a2, b2)] on tuples of numbers, that is
    [not ((a2, b2) < (a1, b1))]. *)
Definition par_leb (p q : Q * Q) : bool :=
  negb (Qlt_bool (fst q) (fst p)
        || (Qeq_bool (fst q) (fst p) && Qlt_bool (snd q) (snd p))).

(* ================================================================= *)
(** ** The transaction record (the dict both parsers append) *)

Record Movimiento : Type := mkMov {
  fecha_operacion : string;
  fecha_liquidacion : string;
  codigo : string;
  descripcion : string;
  cargos : option Py.pyfloat;
  abonos : option Py.pyfloat;
  saldo_operacion : option Py.pyfloat;
  saldo_liquidacion : option Py.pyfloat;
  detalle : string;
  cuenta : string;
  moneda : string;
  origen_pdf : string;
  pagina : nat
}.

Definition con_detalle (m : Movimiento) (d : string) : Movimiento :=
  mkMov (fecha_operacion m) (fecha_liquidacion m) (codigo m) (descripcion m)
        (cargos m) (abonos m) (saldo_operacion m) (saldo_liquidacion m)
        d (cuenta m) (moneda m) (origen_pdf m) (pagina m).

(** What a parser knows of its document besides the pages:
    [cuenta_por_defecto or ruta_pdf.stem], [moneda_por_defecto] and
    [ruta_pdf.name]. *)
Record Documento : Type := mkDoc {
  doc_cuenta : string;
  doc_moneda : string;
  doc_nombre : string
}.

(** [l[i] = f(l[i])] *)
Fixpoint modificar {A} (i : nat) (f : A -> A) (l : list A) : list A :=
  match l, i with
  | [], _ => []
  | x :: l', O => f x :: l'
  | x :: l', S j => x :: modificar j f l'
  end.

(** A [dict] in insertion order: [d[k] = v] keeps the place of a key that is
    already there. *)
Fixpoint dict_set {V} (k : string) (v : V) (d : list (string * V))
  : list (string * V) :=
  match d with
  | [] => [(k, v)]
  | (k', v') :: d' =>
      if String.eqb k' k then (k, v) :: d' else (k', v') :: dict_set k v d'
  end.

Fixpoint dict_get {V} (k : string) (d : list (string * V)) : option V :=
  match d with
  | [] => None
  | (k', v') :: d' => if String.eqb k' k then Some v' else dict_get k d'
  end.

(** [x in l] for strings *)
Definition str_in (x : string) (l : list string) : bool :=
  existsb (String.eqb x) l.

(* ================================================================= *)
(** ** [src/parsers/bbva.py]: the positional extractor *)

Module BBVA.
Import Re.

(** A word of [page.extract_words()]. *)
Record Word : Type := mkWord {
  text : string;
  x0 : Q;
  x1 : Q;
  top : Q
}.

(** A page: [page.extract_text() or ""] and [page.extract_words()]. *)
Record Pagina : Type := mkPagina {
  texto : string;
  words : list Word
}.

(** [PATRON_FECHA = \d{2}/[A-Z]{3}] *)
Definition PATRON_FECHA : regex :=
  seq [exactly d 2; Chr "/"; exactly AZ 3].

(** [PATRON_MONTO = ^[\d,]+\.\d{2}$] *)
Definition digito_o_coma (c : ascii) : bool := d c || Ascii.eqb c ",".

Definition PATRON_MONTO : regex :=
  seq [Bol; plus digito_o_coma; Chr "."; exactly d 2; Eol].

(** [_limpiar_monto] on a string ([None] is answered with [None] and is
    never passed by [parse_movimientos]). *)
Definition _limpiar_monto (valor : string) : option Py.pyfloat :=
  let txt := Py.strip valor in
  if String.eqb txt "" || String.eqb txt "-" then None else
  let txt := Py.replace " " "" (Py.replace "$" "" txt) in
  let txt :=
    if Py.contains "," txt && Py.contains "." txt
    then Py.replace "," "" txt
    else if Py.contains "," txt && negb (Py.contains "." txt)
         then Py.replace "," "." (Py.replace "." "" txt)
         else txt in
  if (Py.count "-" txt =? 1)%nat && Py.startswith txt "-"
  then Py.float (Py.replace "-" "" txt)
  else Py.float txt.

Definition _mes_str_a_num (mes : string) : string :=
  let mes := Py.upper mes in
  match dict_get mes
          [("ENE", "01"); ("FEB", "02"); ("MAR", "03"); ("ABR", "04");
           ("MAY", "05"); ("JUN", "06"); ("JUL", "07"); ("AGO", "08");
           ("SEP", "09"); ("OCT", "10"); ("NOV", "11"); ("DIC", "12")] with
  | Some n => n
  | None => "01"
  end.

(** [^(\d{2})/([A-Z]{3})$] *)
Definition rx_ddmes : regex :=
  seq [Bol; Grp "1" (exactly d 2); Chr "/"; Grp "2" (exactly AZ 3); Eol].

Definition _parse_fecha (fecha_ddmes : string) (anio : option string) : string :=
  let anio := match anio with
              | Some a => if Py.is_empty a then "2025" else a
              | None => "2025"
              end in
  let fecha_ddmes := Py.upper (Py.strip fecha_ddmes) in
  match re_match rx_ddmes fecha_ddmes with
  | None => fecha_ddmes
  | Some m =>
      let dia := group "1" m in
      let mes := _mes_str_a_num (group "2" m) in
      anio ++ "-" ++ mes ++ "-" ++ dia
  end.

(** [DEL\s+\d{2}/\d{2}/(\d{4})\s+AL\s+\d{2}/\d{2}/\d{4}] *)
Definition rx_periodo : regex :=
  seq (lit "DEL" ++
       [plus sp; exactly d 2; Chr "/"; exactly d 2; Chr "/";
        Grp "1" (exactly d 4); plus sp] ++
       lit "AL" ++
       [plus sp; exactly d 2; Chr "/"; exactly d 2; Chr "/"; exactly d 4]).

Definition _obtener_anio_desde_portada (texto : string) : option string :=
  match search rx_periodo texto with
  | Some m => Some (group "1" m)
  | None => None
  end.

(** *** [_detectar_columnas_montos] *)

Definition tol_fila_defecto : Q := 3.

Definition norm (txt : string) : string :=
  let t := Py.strip (Py.upper txt) in
  Py.replace "218" "U" (Py.replace "205" "I"
    (Py.replace "193" "A" (Py.replace "211" "O" t))).

Definition objetivos : list string :=
  ["CARGOS"; "ABONOS"; "OPERACION"; "LIQUIDACION"].

(** A relevant word with its label: [{**w, "_k": t}]. *)
Record Hit : Type := mkHit { hw : Word; _k : string }.

(** [(w["x0"] + w["x1"]) / 2] *)
Definition centro (w : Word) : Py.pyfloat :=
  Py.mitad (Py.suma (Py.fin (x0 w)) (Py.fin (x1 w))).

(** [abs(a - b)] for two vertical offsets *)
Definition distancia_top (a b : Q) : Py.pyfloat :=
  Py.abs (Py.resta (Py.fin a) (Py.fin b)).

Definition clave_palabra (w : Word) : Q * Q := (top w, x0 w).

Definition filtrar_hits (ws : list Word) : list Hit :=
  flat_map (fun w => let t := norm (text w) in
                     if str_in t objetivos then [mkHit w t] else []) ws.

(** A group is created with its first word, [g[0]], and only grows. *)
Definition Grupo : Type := (Hit * list Hit)%type.

Definition miembros (g : Grupo) : list Hit := fst g :: snd g.

(** One turn of the loop over [hits]: the first group whose first word is
    within [tol_fila] takes the word, else the word opens a group. *)
Fixpoint colocar (tol_fila : Q) (w : Hit) (grupos : list Grupo) : list Grupo :=
  match grupos with
  | [] => [(w, [])]
  | g :: gs =>
      if Py.leb (distancia_top (top (hw w)) (top (hw (fst g))))
                (Py.fin tol_fila)
      then (fst g, snd g ++ [w]) :: gs
      else g :: colocar tol_fila w gs
  end.

Definition agrupar_hits (tol_fila : Q) (hits : list Hit) : list Grupo :=
  fold_left (fun grupos w => colocar tol_fila w grupos) hits [].

(** [objetivos <= keys] *)
Definition completo (g : Grupo) : bool :=
  forallb (fun o => str_in o (map _k (miembros g))) objetivos.

Definition centros (g : Grupo) : list (string * Py.pyfloat) :=
  fold_left (fun cs w => dict_set (_k w) (centro (hw w)) cs) (miembros g) [].

Definition candidatos_de (grupos : list Grupo)
  : list (Q * list (string * Py.pyfloat)) :=
  map (fun g => (top (hw (fst g)), centros g)) (filter completo grupos).

(** Steps 1 and 2: the relevant words, sorted by [(top, x0)] and grouped. *)
Definition grupos_de (ws : list Word) (tol_fila : Q) : list Grupo :=
  agrupar_hits tol_fila
    (ordenar (fun a b => par_leb (clave_palabra (hw a)) (clave_palabra (hw b)))
             (filtrar_hits ws)).

(** [candidatos.sort(key=lambda x: x[0])] *)
Definition candidato_leb (a b : Q * list (string * Py.pyfloat)) : bool :=
  negb (Qlt_bool (fst b) (fst a)).

Definition _detectar_columnas_montos (ws : list Word) (tol_fila : Q)
  : option (list (string * Py.pyfloat)) :=
  match filtrar_hits ws with
  | [] => None
  | _ =>
      let candidatos := candidatos_de (grupos_de ws tol_fila) in
      match ordenar candidato_leb candidatos with
      | [] => None
      | c :: _ => Some (snd c)
      end
  end.

(** *** [_agrupar_filas] *)

Definition tol_defecto : Q := 2.

Fixpoint agrupar_bucle (tol : Q) (ws : list Word) (rows : list (list Word))
  (current : list Word) (current_top : option Q) : list (list Word) :=
  match ws with
  | [] => match current with [] => rows | _ => rows ++ [current] end
  | w :: ws' =>
      match current_top with
      | None => agrupar_bucle tol ws' rows (current ++ [w]) (Some (top w))
      | Some ct =>
          if Py.ltb (Py.fin tol) (distancia_top (top w) ct)
          then agrupar_bucle tol ws' (rows ++ [current]) [w] (Some (top w))
          else agrupar_bucle tol ws' rows (current ++ [w]) (Some ct)
      end
  end.

Definition _agrupar_filas (ws : list Word) (tol : Q) : list (list Word) :=
  agrupar_bucle tol
    (ordenar (fun a b => par_leb (clave_palabra a) (clave_palabra b)) ws)
    [] [] None.

(** *** [_columna_por_x]: [min(col_centers.items(), key=...)[0]], the first
    of the nearest columns.  [None] stands for the ValueError of an empty
    dict, which [parse_movimientos] never passes. *)
Fixpoint min_por {A} (key : A -> Py.pyfloat) (best : A) (l : list A) : A :=
  match l with
  | [] => best
  | x :: l' => min_por key (if Py.ltb (key x) (key best) then x else best) l'
  end.

(** [abs(x - c)] *)
Definition distancia (x c : Py.pyfloat) : Py.pyfloat := Py.abs (Py.resta x c).

Definition _columna_por_x (x : Py.pyfloat)
  (col_centers : list (string * Py.pyfloat)) : option string :=
  match col_centers with
  | [] => None
  | kv :: resto =>
      Some (fst (min_por (fun kv => distancia x (snd kv)) kv resto))
  end.

(** *** [parse_movimientos] *)

Definition coincide (r : regex) (s : string) : bool :=
  match fullmatch r s with Some _ => true | None => false end.

(** [[i for i, t in enumerate(textos) if PATRON_FECHA.fullmatch(t)]] *)
Fixpoint indices_fecha (i : nat) (textos : list string) : list nat :=
  match textos with
  | [] => []
  | t :: resto =>
      if coincide PATRON_FECHA t then i :: indices_fecha (S i) resto
      else indices_fecha (S i) resto
  end.

Definition idx_fechas (fila : list Word) : list nat :=
  indices_fecha 0 (map text fila).

Definition descripcion_de (fila : list Word) (x_cargos : Py.pyfloat)
  (fecha_op_raw fecha_liq_raw codigo : string) : string :=
  Py.strip (Py.join " "
    (flat_map (fun w =>
       if Py.leb x_cargos (centro w) then []
       else if str_in (text w) [fecha_op_raw; fecha_liq_raw; codigo] then []
       else [text w]) fila)).

(** [cargos, abonos, saldo_oper, saldo_liq] while the row's words are read. *)
Record Montos : Type := mkMontos {
  m_cargos : option Py.pyfloat;
  m_abonos : option Py.pyfloat;
  m_saldo_oper : option Py.pyfloat;
  m_saldo_liq : option Py.pyfloat
}.

Definition asignar_monto (col_centers : list (string * Py.pyfloat)) (ms : Montos)
  (w : Word) : Montos :=
  if coincide PATRON_MONTO (text w) then
    let val := _limpiar_monto (text w) in
    match _columna_por_x (centro w) col_centers with
    | Some col =>
        if String.eqb col "CARGOS"
        then mkMontos val (m_abonos ms) (m_saldo_oper ms) (m_saldo_liq ms)
        else if String.eqb col "ABONOS"
        then mkMontos (m_cargos ms) val (m_saldo_oper ms) (m_saldo_liq ms)
        else if String.eqb col "OPERACION"
        then mkMontos (m_cargos ms) (m_abonos ms) val (m_saldo_liq ms)
        else if String.eqb col "LIQUIDACION"
        then mkMontos (m_cargos ms) (m_abonos ms) (m_saldo_oper ms) val
        else ms
    | None => ms
    end
  else ms.

Definition montos_de (col_centers : list (string * Py.pyfloat)) (fila : list Word)
  : Montos :=
  fold_left (asignar_monto col_centers) fila (mkMontos None None None None).

(** The record of a row with its two dates at [i1] and [i2].
    [col_centers["CARGOS"]] is there whenever the resolver answered
    (lemma [detectar_tiene_columnas]); 0 stands for the KeyError. *)
Definition movimiento_de_fila (doc : Documento) (anio : option string)
  (num_pagina : nat) (col_centers : list (string * Py.pyfloat)) (fila : list Word)
  (i1 i2 : nat) : Movimiento :=
  let textos := map text fila in
  let fecha_op_raw := nth i1 textos "" in
  let fecha_liq_raw := nth i2 textos "" in
  let fecha_op := _parse_fecha fecha_op_raw anio in
  let fecha_liq := _parse_fecha fecha_liq_raw anio in
  let codigo := if (i2 + 1 <? List.length textos)%nat
                then nth (i2 + 1) textos "" else "" in
  let x_cargos := match dict_get "CARGOS" col_centers with
                  | Some x => x
                  | None => Py.PyFin false 0
                  end in
  let descripcion := descripcion_de fila x_cargos fecha_op_raw fecha_liq_raw codigo in
  let ms := montos_de col_centers fila in
  mkMov fecha_op fecha_liq codigo descripcion
        (m_cargos ms) (m_abonos ms) (m_saldo_oper ms) (m_saldo_liq ms)
        "" (doc_cuenta doc) (doc_moneda doc) (doc_nombre doc) num_pagina.

Definition texto_de_fila (fila : list Word) : string :=
  Py.strip (Py.join " " (map text fila)).

Definition es_total (texto_fila : string) : bool :=
  let texto_fila_upper := Py.upper texto_fila in
  Py.contains "TOTAL DE MOVIMIENTOS" texto_fila_upper
  || Py.contains "TOTAL MOVIMIENTOS" texto_fila_upper.

Definition agregar_detalle (extra : string) (m : Movimiento) : Movimiento :=
  let anterior := detalle m in
  con_detalle m (if Py.is_empty anterior then extra
                 else anterior ++ " | " ++ extra).

(** One turn of the loop over the rows of a page, on the document's list
    [movimientos] and the page's [idx_ultimo_mov]; [None] is [break]. *)
Definition procesar_fila (doc : Documento) (anio : option string)
  (num_pagina : nat) (col_centers : list (string * Py.pyfloat)) (fila : list Word)
  (movimientos : list Movimiento) (idx_ultimo_mov : option nat)
  : option (list Movimiento * option nat) :=
  let texto_fila := texto_de_fila fila in
  if Py.is_empty texto_fila then Some (movimientos, idx_ultimo_mov)
  else if es_total texto_fila then None
  else
    match idx_fechas fila with
    | i1 :: i2 :: _ =>
        let movimientos :=
          movimientos ++ [movimiento_de_fila doc anio num_pagina col_centers
                                             fila i1 i2] in
        Some (movimientos, Some (List.length movimientos - 1)%nat)
    | _ =>
        match idx_ultimo_mov with
        | Some i =>
            if negb (Py.is_empty texto_fila)
               && negb (Py.startswith texto_fila "FECHA SALDO")
            then Some (modificar i (agregar_detalle texto_fila) movimientos,
                       idx_ultimo_mov)
            else Some (movimientos, idx_ultimo_mov)
        | None => Some (movimientos, idx_ultimo_mov)
        end
    end.

Fixpoint procesar_filas (doc : Documento) (anio : option string)
  (num_pagina : nat) (col_centers : list (string * Py.pyfloat))
  (filas : list (list Word)) (movimientos : list Movimiento)
  (idx_ultimo_mov : option nat) : list Movimiento :=
  match filas with
  | [] => movimientos
  | fila :: resto =>
      match procesar_fila doc anio num_pagina col_centers fila
                          movimientos idx_ultimo_mov with
      | None => movimientos
      | Some (movimientos', idx') =>
          procesar_filas doc anio num_pagina col_centers resto movimientos' idx'
      end
  end.

(** The body of the loop over the pages: the cover test, the column
    resolver, then the rows with [idx_ultimo_mov = None]. *)
Definition procesar_pagina (doc : Documento) (anio : option string)
  (num_pagina : nat) (page : Pagina) (movimientos : list Movimiento)
  : list Movimiento :=
  let txt := Py.upper (texto page) in
  if (num_pagina =? 1)%nat
     && (negb (Py.contains "CARGOS" txt) || negb (Py.contains "ABONOS" txt))
  then movimientos
  else
    match _detectar_columnas_montos (words page) tol_fila_defecto with
    | None => movimientos
    | Some [] => movimientos
    | Some col_centers =>
        procesar_filas doc anio num_pagina col_centers
                       (_agrupar_filas (words page) tol_defecto)
                       movimientos None
    end.

Fixpoint procesar_paginas (doc : Documento) (anio : option string)
  (num_pagina : nat) (pages : list Pagina) (movimientos : list Movimiento)
  : list Movimiento :=
  match pages with
  | [] => movimientos
  | page :: resto =>
      procesar_paginas doc anio (S num_pagina) resto
                       (procesar_pagina doc anio num_pagina page movimientos)
  end.

(** [parse_movimientos]: the rows of the returned frame, in order.  [None] is
    the IndexError of [pdf.pages[0]] on a document without pages. *)
Definition parse_movimientos (doc : Documento) (pages : list Pagina)
  : option (list Movimiento) :=
  match pages with
  | [] => None
  | portada :: _ =>
      let anio := _obtener_anio_desde_portada (texto portada) in
      Some (procesar_paginas doc anio 1 pages [])
  end.

End BBVA.

(* ================================================================= *)
(** ** [src/parsers/bbva_tc.py]: the line-pattern extractor *)

Module BBVATC.
Import Re.

(** A pandas [Timestamp] at the precision the parser prints it with. *)
Record Timestamp : Type := mkTs { ts_anio : N; ts_mes : N; ts_dia : N }.

Definition ts_ltb (a b : Timestamp) : bool :=
  ((ts_anio a <? ts_anio b)
   || ((ts_anio a =? ts_anio b)
       && ((ts_mes a <? ts_mes b)
           || ((ts_mes a =? ts_mes b) && (ts_dia a <? ts_dia b)))))%N.

Definition ts_eqb (a b : Timestamp) : bool :=
  ((ts_anio a =? ts_anio b) && (ts_mes a =? ts_mes b)
   && (ts_dia a =? ts_dia b))%N.

(** A decimal number on at least [ancho] digits. *)
Fixpoint ceros (n : nat) : string :=
  match n with O => "" | S n' => String "0" (ceros n') end.

Definition rellenar (ancho : nat) (n : N) : string :=
  let s := NilZero.string_of_uint (N.to_uint n) in
  ceros (ancho - String.length s) ++ s.

(** [dt.strftime("%Y-%m-%d")]: the year as the C library prints [%Y],
    without padding (a year below 1000 prints on fewer than four digits);
    the month and the day on two digits. *)
Definition strftime_iso (dt : Timestamp) : string :=
  NilZero.string_of_uint (N.to_uint (ts_anio dt)) ++ "-"
  ++ rellenar 2 (ts_mes dt) ++ "-" ++ rellenar 2 (ts_dia dt).

(** [-?[\d,]+\.\d{2}] *)
Definition menos (c : ascii) : bool := Ascii.eqb c "-".
Definition digito_o_coma (c : ascii) : bool := d c || Ascii.eqb c ",".

Definition rx_monto : regex :=
  seq [Rep menos 0 (Some 1%nat) false; plus digito_o_coma; Chr "."; exactly d 2].

(** [\d{2}/\d{2}/\d{2,4}] *)
Definition rx_fecha : regex :=
  seq [exactly d 2; Chr "/"; exactly d 2; Chr "/"; Rep d 2 (Some 4%nat) false].

Definition PATRON_FECHA_TC : regex := seq [Bol; rx_fecha; Eol].
Definition PATRON_MONTO_TC : regex := seq [Bol; rx_monto; Eol].

(** [[A-ZÑ&]], [[0-9A-Z]], [[\*Xx\d]] *)
Definition cls_rfc1 (c : ascii) : bool :=
  AZ c || (Py.code c =? 209)%N || Ascii.eqb c "&".
Definition cls_rfc2 (c : ascii) : bool := d c || AZ c.
Definition cls_ref (c : ascii) : bool :=
  Ascii.eqb c "*" || Ascii.eqb c "X" || Ascii.eqb c "x" || d c.

Definition rx_con_rfc : regex :=
  seq [Bol;
       Grp "f1" rx_fecha; plus sp;
       Grp "f2" rx_fecha; plus sp;
       Grp "concepto" (Rep dot 1 None true); plus sp;
       Grp "rfc1" (exactly cls_rfc1 3); plus sp;
       Grp "rfc2" (Rep cls_rfc2 8 (Some 12%nat) false); plus sp;
       Grp "ref" (Rep cls_ref 4 None false); plus sp;
       Chr "$"; star sp; Grp "monto" rx_monto; star sp; Eol].

Definition rx_sin_rfc : regex :=
  seq [Bol;
       Grp "f1" rx_fecha; plus sp;
       Grp "f2" rx_fecha; plus sp;
       Grp "concepto" (Rep dot 1 None true); plus sp;
       Grp "ref" (Rep cls_ref 4 None false); plus sp;
       Chr "$"; star sp; Grp "monto" rx_monto; star sp; Eol].

Definition _limpiar_monto (txt : string) : option Py.pyfloat :=
  let s := Py.replace " " "" (Py.replace "$" "" (Py.strip txt)) in
  if Py.is_empty s then None else
  let s :=
    if Py.contains "," s && Py.contains "." s
    then Py.replace "," "" s
    else if Py.contains "," s && negb (Py.contains "." s)
         then Py.replace "," "." (Py.replace "." "" s)
         else s in
  Py.float s.

Definition _norm_line (line : string) : string :=
  let line := Py.replace "160" " " line in
  Py.join " " (Py.split (Py.strip line)).

Definition stop_markers : list string :=
  ["TABLA / GRAFICO DE ESTADO DE CUENTA";
   ("TABLA / GR" ++ String "193" "FICO DE ESTADO DE CUENTA")%string;
   "TABLA/GRAFICO DE ESTADO DE CUENTA";
   ("TABLA/GR" ++ String "193" "FICO DE ESTADO DE CUENTA")%string].

Definition skip_starts : list string :=
  ["ESTADO DE CUENTA"; "PAGINA"; "LINEA BBVA"; "AV. PASEO"; "BBVA MEXICO";
   "ESTIMADO TARJETAHABIENTE"; "IVA";
   String "034" "SI ESTAS ADHERIDO"; "SI ESTAS ADHERIDO"].

(** The groups read from a matched line, stripped as the parser does. *)
Record Campos : Type := mkCampos {
  f1 : string;
  f2 : string;
  concepto : string;
  rfc : string;
  ref : string;
  monto_txt : string
}.

(** The two patterns, in order: with and without the tax-id pair. *)
Definition coincidir (line : string) : option Campos :=
  match re_match rx_con_rfc line with
  | Some m =>
      Some (mkCampos (group "f1" m) (group "f2" m)
              (Py.strip (group "concepto" m))
              (Py.strip (Py.strip (group "rfc1" m) ++ " "
                         ++ Py.strip (group "rfc2" m)))
              (Py.strip (group "ref" m))
              (Py.strip (group "monto" m)))
  | None =>
      match re_match rx_sin_rfc line with
      | Some m2 =>
          Some (mkCampos (group "f1" m2) (group "f2" m2)
                  (Py.strip (group "concepto" m2))
                  ""
                  (Py.strip (group "ref" m2))
                  (Py.strip (group "monto" m2)))
      | None => None
      end
  end.

(** [x or y] for an optional string [x] *)
Definition py_or (x : option string) (y : string) : string :=
  match x with
  | Some s => if Py.is_empty s then y else s
  | None => y
  end.

Definition es_corte (up : string) : bool :=
  existsb (fun m => Py.contains m up) stop_markers.

Definition es_omitida (up : string) : bool :=
  existsb (Py.startswith up) skip_starts
  || (Py.contains "FECHA" up && Py.contains "AUTORIZACION" up
      && Py.contains "APLICACION" up)
  || (Py.contains "IMPORTE" up
      && (Py.contains "CARGOS" up || Py.contains "ABONOS" up)).

Definition detalle_de (c : Campos) : string :=
  let detalle_parts :=
    (if Py.is_empty (rfc c) then [] else [("RFC:" ++ rfc c)%string])
    ++ (if Py.is_empty (ref c) then [] else [("REF:" ++ ref c)%string]) in
  Py.strip (Py.join " " detalle_parts).

(** What one line does to the loop. *)
Inductive Resultado : Type :=
| Corte                      (* a stop marker: [stop_found = True; break] *)
| Ignorada                   (* [continue] *)
| Emitido (m : Movimiento).  (* [movimientos.append(...)] *)

(** A row of the returned frame: the record and its settlement date as the
    column holds it after [pd.to_datetime(..., errors="coerce")]. *)
Record Fila : Type := mkFila {
  fila_fecha_liquidacion : option Timestamp;
  fila_mov : Movimiento
}.

(** [(fecha_liquidacion, pagina)] of [a] before that of [b], NaT last. *)
Definition fila_ltb (a b : Fila) : bool :=
  match fila_fecha_liquidacion a, fila_fecha_liquidacion b with
  | Some x, Some y =>
      ts_ltb x y
      || (ts_eqb x y && (pagina (fila_mov a) <? pagina (fila_mov b))%nat)
  | Some _, None => true
  | None, Some _ => false
  | None, None => (pagina (fila_mov a) <? pagina (fila_mov b))%nat
  end.

Definition fila_leb (a b : Fila) : bool := negb (fila_ltb b a).

(** [df.sort_values(by=["fecha_liquidacion", "pagina"], na_position="last")
       .reset_index(drop=True)]: with several keys pandas sorts by the
    lexicographic order of the keys and keeps the order of equal rows. *)
Definition sort_values (df : list Fila) : list Fila := ordenar fila_leb df.

(** [[_norm_line(l) for l in text.splitlines()]] *)
Definition lineas (text : string) : list string :=
  map _norm_line (Py.splitlines text).

Section Parser.

(** [pd.to_datetime(s, errors="coerce", dayfirst=...)]; [None] is NaT. *)
Variable pd_to_datetime : bool -> string -> option Timestamp.

Definition _parse_fecha_tc (s : string) : option string :=
  let s := Py.strip s in
  if Py.is_empty s then None else
  match pd_to_datetime true s with
  | None => None
  | Some dt => Some (strftime_iso dt)
  end.

(** The record of a matched line whose amount is [monto]. *)
Definition movimiento_de (doc : Documento) (num_pagina : nat) (c : Campos)
  (monto : Py.pyfloat) : Movimiento :=
  let fecha_op := py_or (_parse_fecha_tc (f1 c)) (f1 c) in
  let fecha_liq := py_or (_parse_fecha_tc (f2 c)) (f2 c) in
  let cargos := if Py.lt0 monto then None else Some monto in
  let abonos := if Py.lt0 monto then Some (Py.abs monto) else None in
  mkMov fecha_op fecha_liq "" (concepto c) cargos abonos None None
        (detalle_de c) (doc_cuenta doc) (doc_moneda doc) (doc_nombre doc)
        num_pagina.

(** The body of the loop over the lines of a page. *)
Definition procesar_linea (doc : Documento) (num_pagina : nat) (line : string)
  : Resultado :=
  if Py.is_empty line then Ignorada else
  let up := Py.upper line in
  if es_corte up then Corte
  else if es_omitida up then Ignorada
  else
    match coincidir line with
    | None => Ignorada
    | Some c =>
        match _limpiar_monto (monto_txt c) with
        | None => Ignorada
        | Some monto => Emitido (movimiento_de doc num_pagina c monto)
        end
    end.

(** The loop over the lines: the list after it, and [stop_found]. *)
Fixpoint procesar_lineas (doc : Documento) (num_pagina : nat)
  (lines : list string) (movimientos : list Movimiento)
  : list Movimiento * bool :=
  match lines with
  | [] => (movimientos, false)
  | line :: resto =>
      match procesar_linea doc num_pagina line with
      | Corte => (movimientos, true)
      | Ignorada => procesar_lineas doc num_pagina resto movimientos
      | Emitido m => procesar_lineas doc num_pagina resto (movimientos ++ [m])
      end
  end.

(** The loop over the pages, each page given by its [lines]; a page after
    which [stop_found] holds is the last one read. *)
Fixpoint procesar_paginas (doc : Documento) (num_pagina : nat)
  (pages : list (list string)) (movimientos : list Movimiento)
  : list Movimiento :=
  match pages with
  | [] => movimientos
  | lines :: resto =>
      let (movimientos', stop_found) :=
        procesar_lineas doc num_pagina lines movimientos in
      if stop_found then movimientos'
      else procesar_paginas doc (S num_pagina) resto movimientos'
  end.

(** The list [movimientos] when the pages, each given by its text
    ([page.extract_text() or ""]), have been read. *)
Definition extraer (doc : Documento) (pages : list string) : list Movimiento :=
  procesar_paginas doc 1 (map lineas pages) [].

(** [df["fecha_liquidacion"] = pd.to_datetime(df["fecha_liquidacion"],
    errors="coerce")], element by element. *)
Definition a_fila (m : Movimiento) : Fila :=
  mkFila (pd_to_datetime false (fecha_liquidacion m)) m.

(** The frame made of [movimientos]: empty if there are none, else with the
    settlement dates converted, sorted and reindexed. *)
Definition tabla (movimientos : list Movimiento) : list Fila :=
  match movimientos with
  | [] => []
  | _ => sort_values (map a_fila movimientos)
  end.

(** [parse_movimientos]: the rows of the returned frame, in order. *)
Definition parse_movimientos (doc : Documento) (pages : list string)
  : list Fila :=
  tabla (extraer doc pages).

End Parser.

(** A reference reading of dates, for the examples only: a text of three
    numbers of one to four digits, separated by strokes or by hyphens, is
    read as the parser behind [pd.to_datetime] resolves three numbers.  A
    number of more than two digits is the year as written, and two of them
    are refused; a first number above 31, or of more than two digits, is the
    year, then the month and the day (the day and the month with
    [dayfirst] when the last number is a month); else the first number is
    the day if it is above 12 or if [dayfirst] holds and the second number
    is a month; else it is the month.  A year of two digits is taken within
    fifty years of 2025.  The day must exist in the month.  Any other text
    is outside the examples and is answered with NaT. *)
Definition num (s : string) : N := Py.digits_to_N (list_ascii_of_string s).

Definition bisiesto (a : N) : bool :=
  (((a mod 4 =? 0) && negb (a mod 100 =? 0)) || (a mod 400 =? 0))%N.

Definition dias_del_mes (a m : N) : N :=
  if (m =? 2)%N then (if bisiesto a then 29 else 28)%N
  else if ((m =? 4) || (m =? 6) || (m =? 9) || (m =? 11))%N then 30%N
  else 31%N.

Definition fecha_valida (a m dd : N) : option Timestamp :=
  if ((1 <=? a) && (a <=? 9999) && (1 <=? m) && (m <=? 12)
      && (1 <=? dd) && (dd <=? dias_del_mes a m))%N
  then Some (mkTs a m dd) else None.

Definition largo (s : string) : bool := (2 <? String.length s)%nat.

Definition resolver (dayfirst : bool) (t0 t1 t2 : string)
  : option Timestamp :=
  let n0 := num t0 in
  let n1 := num t1 in
  let n2 := num t2 in
  if (largo t0 && largo t1) || (largo t0 && largo t2)
     || (largo t1 && largo t2)
  then None
  else
    let '(a, m, dd) :=
      if (31 <? n0)%N || largo t0
      then (if dayfirst && (n2 <=? 12)%N then (n0, n2, n1) else (n0, n1, n2))
      else if (12 <? n0)%N || (dayfirst && (n1 <=? 12)%N)
           then (n2, n1, n0)
           else (n2, n0, n1) in
    let a := if largo t0 || largo t1 || largo t2 then a
             else if (2000 + a <? 2075)%N then (2000 + a)%N
                  else (1900 + a)%N in
    fecha_valida a m dd.

Definition rx_tres (sep : ascii) : regex :=
  seq [Grp "0" (Rep d 1 (Some 4%nat) false); Chr sep;
       Grp "1" (Rep d 1 (Some 4%nat) false); Chr sep;
       Grp "2" (Rep d 1 (Some 4%nat) false)].

Definition to_datetime_ref (dayfirst : bool) (s : string) : option Timestamp :=
  match Re.orelse (fullmatch (rx_tres "/") s) (fullmatch (rx_tres "-") s) with
  | Some g => resolver dayfirst (group "0" g) (group "1" g) (group "2" g)
  | None => None
  end.

End BBVATC.

(* ================================================================= *)
(** ** Statements used as examples *)

Module Ejemplos.

Definition doc_tc : Documento := mkDoc "TC" "MXN" "BBVA_TC.pdf".
Definition doc_cta : Documento := mkDoc "5516" "MXN" "BBVA_5516_MXN.pdf".

Definition salto : string := String "010" "".

(** Lines of a card statement. *)
Definition linea_pago : string :=
  "01/08/25 02/08/25 PAGO TDC ****0110 $ -12,432.34".
Definition linea_compra : string :=
  "03/08/25 04/08/25 AMAZON MX AME 1404027R0 ******7111 $ 399.00".
Definition linea_fechas_malas : string :=
  "99/99/25 98/98/25 PAGO TDC ****0110 $ 10.00".
Definition linea_corte : string := "TABLA / GRAFICO DE ESTADO DE CUENTA".
Definition linea_posterior : string :=
  "05/08/25 06/08/25 OXXO ****0110 $ 55.00".

Definition pagina_tc_1 : string := linea_pago.
Definition pagina_tc_2 : string :=
  (linea_compra ++ salto ++ linea_corte ++ salto ++ linea_posterior)%string.
Definition pagina_tc_3 : string := linea_posterior.

(** Two rows of a returned frame, in order. *)
Definition mov_ej (fecha : string) (pag : nat) : Movimiento :=
  mkMov fecha fecha "" "X" (Some (Py.PyFin false 1)) None None None ""
        "TC" "MXN" "BBVA_TC.pdf" pag.

Definition fila_fechada : BBVATC.Fila :=
  BBVATC.mkFila (Some (BBVATC.mkTs 2025 8 2)) (mov_ej "2025-08-02" 1).
Definition fila_sin_fecha : BBVATC.Fila :=
  BBVATC.mkFila None (mov_ej "98/98/25" 1).

(** Pages of an account statement: the header row, a transaction row and a
    row of free text. *)
Definition W (t : string) (a b c : Q) : BBVA.Word := BBVA.mkWord t a b c.

Definition encabezado : list BBVA.Word :=
  [W "CARGOS" 90 110 10; W "ABONOS" 190 210 10;
   W "OPERACION" 290 310 10; W "LIQUIDACION" 390 410 10].

(** The labels again, lower on the page, as a totals block repeats them. *)
Definition encabezado_totales : list BBVA.Word :=
  [W "CARGOS" 300 320 200; W "ABONOS" 340 360 200;
   W "OPERACION" 380 400 200; W "LIQUIDACION" 420 440 200].

Definition centros_encabezado : list (string * Py.pyfloat) :=
  [("CARGOS", Py.PyFin false 100); ("ABONOS", Py.PyFin false 200);
   ("OPERACION", Py.PyFin false 300); ("LIQUIDACION", Py.PyFin false 400)].

Definition fila_mov_ej : list BBVA.Word :=
  [W "01/JUL" 10 20 30; W "02/JUL" 25 35 30; W "A1" 40 45 30;
   W "COFFEE" 50 60 30; W "SHOP" 62 70 30;
   W "45.00" 96 106 30; W "1000.00" 296 306 30].

Definition fila_detalle_ej : list BBVA.Word :=
  [W "REF" 10 20 40; W "123" 25 35 40].

Definition pagina_cta_1 : BBVA.Pagina :=
  BBVA.mkPagina "CARGOS ABONOS" (encabezado ++ fila_mov_ej).
Definition pagina_cta_2 : BBVA.Pagina :=
  BBVA.mkPagina "CARGOS ABONOS" (encabezado ++ fila_detalle_ej).

(** The record of [fila_mov_ej] on the first page of a document whose
    cover names no period. *)
Definition mov_cta : Movimiento :=
  mkMov "2025-07-01" "2025-07-02" "A1" "COFFEE SHOP"
        (Some (Py.PyFin false 45)) None (Some (Py.PyFin false 1000)) None
        "" "5516" "MXN" "BBVA_5516_MXN.pdf" 1.

(** What the patterns read from [linea_pago] and [linea_fechas_malas]. *)
Definition campos_pago : BBVATC.Campos :=
  BBVATC.mkCampos "01/08/25" "02/08/25" "PAGO TDC" "" "****0110" "-12,432.34".

Definition campos_fechas_malas : BBVATC.Campos :=
  BBVATC.mkCampos "99/99/25" "98/98/25" "PAGO TDC" "" "****0110" "10.00".

Definition mov_fechas_malas : Movimiento :=
  mkMov "99/99/25" "98/98/25" "" "PAGO TDC"
        (Some (Py.PyFin false 10)) None None None
        "REF:****0110" "TC" "MXN" "BBVA_TC.pdf" 1.

End Ejemplos.

(* ================================================================= *)
(** ** Predicates of the statements below *)

Module Predicados.

(** A row of the frame with, and without, a settlement date. *)
Definition con_fecha (r : BBVATC.Fila) : Prop :=
  BBVATC.fila_fecha_liquidacion r <> None.
Definition sin_fecha (r : BBVATC.Fila) : Prop :=
  BBVATC.fila_fecha_liquidacion r = None.

(** A record with exactly one of charge and credit. *)
Definition un_solo_monto (mv : Movimiento) : Prop :=
  (cargos mv = None /\ abonos mv <> None)
  \/ (cargos mv <> None /\ abonos mv = None).

(** The characters of an amount token. *)
Definition monto_char (c : ascii) : bool :=
  Py.isdigit c || Ascii.eqb c "," || Ascii.eqb c ".".

(** An optional amount that is absent or a number not below zero: a finite
    magnitude or the infinity, without the sign bit. *)
Definition no_negativo (o : option Py.pyfloat) : Prop :=
  match o with
  | None => True
  | Some (Py.PyFin false q) => (0 <= q)%Q
  | Some (Py.PyInf false) => True
  | Some _ => False
  end.

Definition montos_no_negativos (m : Movimiento) : Prop :=
  no_negativo (cargos m) /\ no_negativo (abonos m)
  /\ no_negativo (saldo_operacion m) /\ no_negativo (saldo_liquidacion m).

Definition montos_ok (ms : BBVA.Montos) : Prop :=
  no_negativo (BBVA.m_cargos ms) /\ no_negativo (BBVA.m_abonos ms)
  /\ no_negativo (BBVA.m_saldo_oper ms) /\ no_negativo (BBVA.m_saldo_liq ms).

(** The value of a literal made of digits, a dot and two digits. *)
Definition valor_decimal (ds : list ascii) (d1 d2 : ascii) : Q :=
  Py.decimal_value (Py.digits_to_N (ds ++ [d1; d2])) (-2).

(** An amount token with or without a minus sign in front. *)
Definition con_signo (neg : bool) (t : string) : string :=
  if neg then String "-" t else t.

(** An index into a list that some records were put in front of. *)
Definition desplazar (k : nat) (idx : option nat) : option nat :=
  option_map (Nat.add k) idx.

End Predicados.

(* ================================================================= *)
(** ** Patterns with word boundaries and alternatives *)

Module ReB.

(** [\w] on the code points below 256: the letters, the digits and the
    other numeric characters, and the underscore. *)
Definition isalnum (c : ascii) : bool :=
  Py.in_range 48 57 c || Py.in_range 65 90 c || Py.in_range 97 122 c
  || (Py.code c =? 170)%N || Py.in_range 178 179 c || (Py.code c =? 181)%N
  || Py.in_range 185 186 c || Py.in_range 188 190 c
  || Py.in_range 192 214 c || Py.in_range 216 246 c || Py.in_range 248 255 c.

Definition is_word (c : ascii) : bool := isalnum c || Ascii.eqb c "_".

Inductive regex : Type :=
| Wb                                             (* \b *)
| Cls (cls : ascii -> bool)                      (* one character *)
| Rep (cls : ascii -> bool) (lo : nat) (hi : option nat)   (* cls{lo,hi} *)
| Seq (r1 r2 : regex)
| Alt (r1 r2 : regex)                            (* r1|r2 *)
| Grp (name : string) (r : regex).

Definition word_at (s : list ascii) : bool :=
  match s with c :: _ => is_word c | [] => false end.

Fixpoint run (r : regex) (done s : list ascii) (g : Re.groups)
  (k : list ascii -> list ascii -> Re.groups -> option Re.groups)
  : option Re.groups :=
  match r with
  | Wb => if xorb (word_at done) (word_at s) then k done s g else None
  | Cls cls => match s with
               | a :: s' => if cls a then k (a :: done) s' g else None
               | [] => None
               end
  | Rep cls lo hi => Re.rep cls false lo hi done s (fun d' s' => k d' s' g)
  | Seq r1 r2 => run r1 done s g (fun d' s' g' => run r2 d' s' g' k)
  | Alt r1 r2 => Re.orelse (run r1 done s g k) (run r2 done s g k)
  | Grp name r1 =>
      run r1 done s g
          (fun d' s' g' => k d' s' ((name, Re.captured done d') :: g'))
  end.

(** [re.search(pattern, s)] *)
Fixpoint search_from (r : regex) (done s : list ascii) : option Re.groups :=
  match run r done s [] (fun _ _ g => Some g) with
  | Some g => Some g
  | None => match s with
            | [] => None
            | a :: s' => search_from r (a :: done) s'
            end
  end.

Definition search (r : regex) (s : string) : option Re.groups :=
  search_from r [] (list_ascii_of_string s).

Fixpoint seq (rs : list regex) : regex :=
  match rs with
  | [] => Rep (fun _ => false) 0 (Some 0%nat)
  | [r] => r
  | r :: rs' => Seq r (seq rs')
  end.

Fixpoint lit (s : string) : list regex :=
  match s with
  | EmptyString => []
  | String c s' => Cls (fun x => Ascii.eqb x c) :: lit s'
  end.

(** [\bWORD\b] *)
Definition palabra (w : string) : regex := seq (Wb :: lit w ++ [Wb]).

(** [re.sub(r"[...]+", repl, s)]: every maximal run of characters of the
    class becomes [repl]. *)
Fixpoint sub_runs (cls : ascii -> bool) (repl : string) (in_run : bool)
  (s : string) : string :=
  match s with
  | EmptyString => EmptyString
  | String c s' =>
      if cls c
      then (if in_run then sub_runs cls repl true s'
            else repl ++ sub_runs cls repl true s')%string
      else String c (sub_runs cls repl false s')
  end.

Definition sub (cls : ascii -> bool) (repl : string) (s : string) : string :=
  sub_runs cls repl false s.

End ReB.

(* ================================================================= *)
(** ** [src/core/detector_banco.py] *)

Module Detector.
Import ReB.

(** [[_\-\.\(\)\[\]\{\}]] *)
Definition separador (c : ascii) : bool :=
  existsb (Ascii.eqb c)
          ["_"; "-"; "."; "("; ")"; "["; "]"; "{"; "}"]%char.

(** [CR[EÉ]DITO] between word boundaries *)
Definition rx_credito_acento : regex :=
  seq (Wb :: lit "CR"
       ++ [Cls (fun c => Ascii.eqb c "E" || (Py.code c =? 201)%N)]
       ++ lit "DITO" ++ [Wb]).

Definition patrones : list regex :=
  [palabra "TC"; palabra "TDC"; palabra "TARJETA"; palabra "CREDITO";
   rx_credito_acento].

Definition hay (o : option Re.groups) : bool :=
  match o with Some _ => true | None => false end.

Definition _nombre_indica_tc (nombre_archivo : string) : bool :=
  let s := Py.upper nombre_archivo in
  let s := sub separador " " s in
  let s := Py.strip (sub Py.isspace " " s) in
  existsb (fun p => hay (search p s)) patrones.

Definition claves_tc : list string :=
  ["TARJETA TITULAR"; "MOVIMIENTOS EFECTUADOS"; "IMPORTE CARGOS";
   "IMPORTE ABONOS"; "T NEGOCIO"; "T NEGOCIO / LCDIGITAL"].

(** [_es_bbva_tc_por_contenido], on the text of the first page
    ([pdf.pages[0].extract_text() or ""]); [None] stands for any exception
    raised while the document is opened and read. *)
Definition _es_bbva_tc_por_contenido (contenido : option string) : bool :=
  match contenido with
  | None => false
  | Some texto =>
      let texto := Py.upper texto in
      existsb (fun k => Py.contains k texto) claves_tc
  end.

(** The parser objects: their class and what [__init__] stores,
    [cuenta_por_defecto] and [moneda_por_defecto or "MXN"]. *)
Inductive Clase : Type := BBVAParser | BBVATCParser.

Record Parser : Type := mkParser {
  clase : Clase;
  cuenta_por_defecto : option string;
  moneda_por_defecto : string
}.

Definition nuevo (cl : Clase) (cuenta moneda : option string) : Parser :=
  mkParser cl cuenta
           (match moneda with
            | Some m => if Py.is_empty m then "MXN" else m
            | None => "MXN"
            end).

(** [\b(MXN|USD)\b] and [\b(\d{4})\b] *)
Definition rx_moneda : regex :=
  seq [Wb; Grp "1" (Alt (seq (lit "MXN")) (seq (lit "USD"))); Wb].

Definition rx_cuenta : regex :=
  seq [Wb; Grp "1" (Rep Py.isdigit 4 (Some 4%nat)); Wb].

(** [get_parser_for_file], on the file name ([Path(ruta_pdf).name]) and the
    text of the first page. *)
Definition get_parser_for_file (nombre_archivo : string)
  (contenido : option string) : option Parser :=
  let nombre := Py.upper nombre_archivo in
  if Py.contains "BBVA" nombre then
    if _nombre_indica_tc nombre || _es_bbva_tc_por_contenido contenido
    then Some (nuevo BBVATCParser (Some "TC") (Some "MXN"))
    else
      match search rx_moneda nombre, search rx_cuenta nombre with
      | Some m_moneda, Some m_cuenta =>
          Some (nuevo BBVAParser (Some (Re.group "1" m_cuenta))
                      (Some (Re.group "1" m_moneda)))
      | _, _ => Some (nuevo BBVAParser None None)
      end
  else None.

End Detector.

(* ================================================================= *)
(** ** The parser object and the path it reads *)

Module Lector.
Import Detector.
(** What a parser object makes of the path it is given, in the first lines
    of both [parse_movimientos]: [cuenta = self.cuenta_por_defecto or
    ruta_pdf.stem], [moneda = self.moneda_por_defecto], and the file name
    [ruta_pdf.name]. *)
Definition documento_de (p : Parser) (stem nombre : string) : Documento :=
  mkDoc (BBVATC.py_or (cuenta_por_defecto p) stem) (moneda_por_defecto p)
        nombre.
End Lector.

(* ================================================================= *)
(** ** [src/ui/ui.py]: table names *)

Module UI.

(** [[0-9a-zA-Z_]] *)
Definition seguro (c : ascii) : bool :=
  Py.in_range 48 57 c || Py.in_range 97 122 c || Py.in_range 65 90 c
  || Ascii.eqb c "_".

Definition guion (c : ascii) : bool := Ascii.eqb c "_".

(** [s.strip(chars)] for a set of characters *)
Fixpoint lstrip_de (cls : ascii -> bool) (s : string) : string :=
  match s with
  | EmptyString => EmptyString
  | String c s' => if cls c then lstrip_de cls s' else s
  end.

Fixpoint rstrip_de (cls : ascii -> bool) (s : string) : string :=
  match s with
  | EmptyString => EmptyString
  | String c s' =>
      match rstrip_de cls s' with
      | EmptyString => if cls c then EmptyString else String c EmptyString
      | r => String c r
      end
  end.

Definition strip_de (cls : ascii -> bool) (s : string) : string :=
  rstrip_de cls (lstrip_de cls s).

Definition safe_sql_table_name (name : string) : string :=
  let s := name in
  let s := ReB.sub (fun c => negb (seguro c)) "_" s in
  let s := strip_de guion (ReB.sub guion "_" s) in
  if Py.is_empty s then "TABLA" else s.

End UI.

(* ================================================================= *)
(** ** [_fecha_ddmes_a_iso] and the form of the dates *)

Module Fechas.
Import Re.
(** [_fecha_ddmes_a_iso] of [bbva.py] *)
Definition _fecha_ddmes_a_iso (fecha_ddmes anio : string) : string :=
  match re_match BBVA.rx_ddmes (Py.upper fecha_ddmes) with
  | None => fecha_ddmes
  | Some m =>
      let dia := group "1" m in
      let mes := BBVA._mes_str_a_num (group "2" m) in
      (anio ++ "-" ++ mes ++ "-" ++ dia)%string
  end.

(** The year [_parse_fecha] writes. *)
Definition anio_efectivo (anio : option string) : string :=
  match anio with
  | Some a => if Py.is_empty a then "2025" else a
  | None => "2025"
  end.

Definition meses_iso : list string :=
  ["01"; "02"; "03"; "04"; "05"; "06"; "07"; "08"; "09"; "10"; "11"; "12"].

(** [anio-MM-DD] with MM a month number and DD two digits. *)
Definition fecha_iso (anio : string) (s : string) : Prop :=
  exists mm d1 d2,
    s = (anio ++ "-" ++ mm ++ "-" ++ String d1 (String d2 ""))%string
    /\ In mm meses_iso /\ Py.isdigit d1 = true /\ Py.isdigit d2 = true.
End Fechas.

(* ================================================================= *)
(** ** Further predicates of the statements *)

Module Pred_Filas.
(** A row of [_agrupar_filas]: a first word, the anchor, and words that
    stand at the anchor's vertical offset or below it, at a distance from
    it that, computed as the code computes it, is [tol] at most. *)
Definition fila_anclada (tol : Q) (r : list BBVA.Word) : Prop :=
  match r with
  | [] => False
  | w0 :: resto =>
      Forall (fun w =>
                (BBVA.top w0 <= BBVA.top w)%Q
                /\ Py.leb (BBVA.distancia_top (BBVA.top w) (BBVA.top w0))
                          (Py.fin tol) = true) resto
  end.

(** The anchor of the second row stands below that of the first, at a
    distance that, computed as the code computes it, is above [tol]. *)
Definition filas_separadas (tol : Q) (r1 r2 : list BBVA.Word) : Prop :=
  match r1, r2 with
  | a :: _, b :: _ =>
      (BBVA.top a <= BBVA.top b)%Q
      /\ Py.ltb (Py.fin tol) (BBVA.distancia_top (BBVA.top b) (BBVA.top a))
         = true
  | _, _ => False
  end.

(** The anchor of the second row is more than [tol] below that of the
    first. *)
Definition filas_distantes (tol : Q) (r1 r2 : list BBVA.Word) : Prop :=
  match r1, r2 with
  | a :: _, b :: _ => (BBVA.top a + tol < BBVA.top b)%Q
  | _, _ => False
  end.

Definition palabra_leb (a b : BBVA.Word) : bool :=
  par_leb (BBVA.clave_palabra a) (BBVA.clave_palabra b).

(** The state of the loop: the rows closed so far and the open one. *)
Definition estado_ok (tol : Q) (rows : list (list BBVA.Word))
  (current : list BBVA.Word) (ct : option Q) : Prop :=
  Forall (fila_anclada tol) rows
  /\ match ct with
     | None => current = [] /\ rows = []
     | Some t =>
         fila_anclada tol current
         /\ (exists w0 r, current = w0 :: r /\ t = BBVA.top w0)
         /\ Sorted (filas_separadas tol) (rows ++ [current])
     end.
End Pred_Filas.

Module Pred_Grupos.
(** The vertical offset of the first word of a group. *)
Definition ancla (g : BBVA.Grupo) : Q := BBVA.top (BBVA.hw (fst g)).
End Pred_Grupos.

Module Pred_Paginas.
(** What each page of a document yields when read on its own, the first
    page bearing the number [num_pagina]. *)
Fixpoint registros_por_pagina (doc : Documento) (anio : option string)
  (num_pagina : nat) (pages : list BBVA.Pagina) : list (list Movimiento) :=
  match pages with
  | [] => []
  | page :: resto =>
      BBVA.procesar_pagina doc anio num_pagina page []
      :: registros_por_pagina doc anio (S num_pagina) resto
  end.

(** The account, the currency and the file name of the document. *)
Definition del_documento (doc : Documento) (m : Movimiento) : Prop :=
  cuenta m = doc_cuenta doc /\ moneda m = doc_moneda doc
  /\ origen_pdf m = doc_nombre doc.
End Pred_Paginas.

Module Pred_Patrones.
Import Re.
(** [matches r done p rest g g']: after the text [done] (last character
    first) and before [rest], the pattern [r] matches the text [p] and turns
    the groups [g] into [g']. *)
Fixpoint matches (r : regex) (done p rest : list ascii) (g g' : groups)
  : Prop :=
  match r with
  | Bol => done = [] /\ p = [] /\ g' = g
  | Eol => p = [] /\ g' = g
           /\ (rest = [] \/ exists c, rest = [c] /\ Py.code c = 10%N)
  | Chr c => p = [c] /\ g' = g
  | Rep cls lo hi _ =>
      forallb cls p = true /\ (lo <= List.length p)%nat
      /\ match hi with Some h => (List.length p <= h)%nat | None => True end
      /\ g' = g
  | Seq r1 r2 =>
      exists p1 p2 g1,
        p = p1 ++ p2 /\ matches r1 done p1 (p2 ++ rest) g g1
        /\ matches r2 (rev p1 ++ done) p2 rest g1 g'
  | Grp name r1 =>
      exists g1, matches r1 done p rest g g1
                 /\ g' = (name, string_of_list_ascii p) :: g1
  end.
End Pred_Patrones.

Module Pred_TC.
(** The amounts of a record of the line-pattern extractor: a credit above
    zero and no charge, or a charge that is not below zero and no credit.
    The number is a float without the sign bit, finite or the infinity; a
    charge may also be zero with the sign bit. *)
Definition monto_tc (m : Movimiento) : Prop :=
  (cargos m = None
   /\ (abonos m = Some (Py.PyInf false)
       \/ exists q, abonos m = Some (Py.PyFin false q) /\ (0 < q)%Q))
  \/ (abonos m = None
      /\ (cargos m = Some (Py.PyInf false)
          \/ exists neg q, cargos m = Some (Py.PyFin neg q) /\ (0 <= q)%Q
                           /\ (neg = true -> (q == 0)%Q))).

(** What every record of the line-pattern extractor looks like. *)
Definition registro_tc (doc : Documento) (m : Movimiento) : Prop :=
  codigo m = "" /\ saldo_operacion m = None /\ saldo_liquidacion m = None
  /\ Pred_Paginas.del_documento doc m /\ monto_tc m.
End Pred_TC.

Module Pred_Lineas.
(** A word: not empty and without blanks. *)
Definition palabra_limpia (w : string) : Prop :=
  w <> "" /\ Forall (fun c => Py.isspace c = false) (list_ascii_of_string w).
End Pred_Lineas.

Module Pred_Montos.
Import BBVA.
(** The field of [Montos] that a column name stands for. *)
Definition campo (col : string) (ms : Montos) : option Py.pyfloat :=
  if String.eqb col "CARGOS" then m_cargos ms
  else if String.eqb col "ABONOS" then m_abonos ms
  else if String.eqb col "OPERACION" then m_saldo_oper ms
  else if String.eqb col "LIQUIDACION" then m_saldo_liq ms
  else None.

(** An amount token of the row whose nearest column is [col]. *)
Definition monto_en (col_centers : list (string * Py.pyfloat)) (col : string)
  (w : Word) : Prop :=
  coincide PATRON_MONTO (text w) = true
  /\ _columna_por_x (centro w) col_centers = Some col.
End Pred_Montos.

Module Pred_Nombres.
Import UI.

Definition primero (cls : ascii -> bool) (s : string) : bool :=
  match s with String c _ => cls c | EmptyString => false end.

Fixpoint ultimo (cls : ascii -> bool) (s : string) : bool :=
  match s with
  | EmptyString => false
  | String c EmptyString => cls c
  | String _ s' => ultimo cls s'
  end.

(** No two underscores side by side. *)
Fixpoint sin_guiones_dobles (s : string) : bool :=
  match s with
  | EmptyString => true
  | String a s' => negb (guion a && primero guion s') && sin_guiones_dobles s'
  end.

(** A name that is safe as it stands: not empty, made of ASCII letters,
    digits and underscores, with no underscore at either end and no two
    underscores side by side. *)
Definition nombre_seguro (s : string) : bool :=
  negb (Py.is_empty s) && forallb seguro (list_ascii_of_string s)
  && sin_guiones_dobles s && negb (primero guion s) && negb (ultimo guion s).
End Pred_Nombres.

Module Pred_Detector.
Import ReB.
Fixpoint matches_b (r : regex) (done p rest : list ascii) (g g' : Re.groups)
  : Prop :=
  match r with
  | Wb => p = [] /\ g' = g /\ xorb (word_at done) (word_at rest) = true
  | Cls cls => exists c, p = [c] /\ cls c = true /\ g' = g
  | Rep cls lo hi =>
      forallb cls p = true /\ (lo <= List.length p)%nat
      /\ match hi with Some h => (List.length p <= h)%nat | None => True end
      /\ g' = g
  | Seq r1 r2 =>
      exists p1 p2 g1,
        p = p1 ++ p2 /\ matches_b r1 done p1 (p2 ++ rest) g g1
        /\ matches_b r2 (rev p1 ++ done) p2 rest g1 g'
  | Alt r1 r2 => matches_b r1 done p rest g g' \/ matches_b r2 done p rest g g'
  | Grp name r1 =>
      exists g1, matches_b r1 done p rest g g1
                 /\ g' = (name, string_of_list_ascii p) :: g1
  end.

(** The text [w] stands in [nombre] between characters that are not word
    characters, or at its ends. *)
Definition delimitada (w nombre : string) : Prop :=
  exists pre post,
    list_ascii_of_string nombre = pre ++ list_ascii_of_string w ++ post
    /\ word_at (rev pre) = false /\ word_at post = false.

Definition cuatro_digitos (s : string) : Prop :=
  exists a b c e,
    s = String a (String b (String c (String e "")))
    /\ Py.isdigit a = true /\ Py.isdigit b = true
    /\ Py.isdigit c = true /\ Py.isdigit e = true.
End Pred_Detector.

(* ================================================================= *)
(** ** Further example data *)

Module Ejemplos_Extra.
Import Ejemplos.

(** The row that opens the totals block of a page. *)
Definition fila_total : list BBVA.Word :=
  [W "TOTAL" 10 30 50; W "DE" 32 40 50; W "MOVIMIENTOS" 42 80 50].

(** The text of a cover that names the period. *)
Definition portada_periodo : string :=
  "ESTADO DE CUENTA DEL 01/07/2025 AL 31/07/2025".

(** A file name with the account and the currency between blanks, and the
    parser made for it. *)
Definition nombre_5516 : string := "BBVA 5516 USD.pdf".

Definition parser_5516 : Detector.Parser :=
  Detector.mkParser Detector.BBVAParser (Some "5516") "USD".

(** Three words at the vertical offsets 0.1, 2.1 and 4.2, each the float
    nearest to the decimal: in binary64 [2.1 - 0.1] is exactly [2.0]. *)
Definition top_0_1 : Q := 3602879701896397 # 36028797018963968.
Definition top_2_1 : Q := 4728779608739021 # 2251799813685248.
Definition top_4_2 : Q := 4728779608739021 # 1125899906842624.

Definition palabras_decimos : list BBVA.Word :=
  [W "A" 0 1 top_0_1; W "B" 2 3 top_2_1; W "C" 0 1 top_4_2].

(** The floats 83.9, 17.4 and 150.4: in binary64 both [abs(83.9 - 17.4)] and
    [abs(83.9 - 150.4)] are exactly [66.5]. *)
Definition x_empate : Py.pyfloat :=
  Py.PyFin false (2951968818253005 # 35184372088832).

Definition centros_empate : list (string * Py.pyfloat) :=
  [("CARGOS", Py.PyFin false (2448832297382707 # 140737488355328));
   ("ABONOS", Py.PyFin false (5291729562160333 # 35184372088832))].

End Ejemplos_Extra.

(* ================================================================= *)
(** * Properties *)

(* ================================================================= *)
(** ** Rounding to binary64 *)

Module Binary64_Props.
Import Py.
Local Open Scope Q_scope.

Lemma pow2_pos (e : Z) : 0 < pow2 e.
Proof. apply Qpower_0_lt. reflexivity. Qed.

Lemma pow2_add (a b : Z) : pow2 (a + b) == pow2 a * pow2 b.
Proof. apply Qpower_plus. discriminate. Qed.

Lemma pow2_le (a b : Z) : (a <= b)%Z -> pow2 a <= pow2 b.
Proof. intros H. apply Qpower_le_compat_l; [exact H|discriminate]. Qed.

Lemma pow2_lt (a b : Z) : (a < b)%Z -> pow2 a < pow2 b.
Proof. intros H. apply Qpower_lt_compat_l; [exact H|reflexivity]. Qed.

Lemma pow2_lt_inv (a b : Z) : pow2 a < pow2 b -> (a < b)%Z.
Proof. intros H. apply (Qpower_lt_compat_l_inv 2); [exact H|reflexivity]. Qed.

Lemma pow2_Z (e : Z) : (0 <= e)%Z -> pow2 e == inject_Z (2 ^ e).
Proof. intros H. unfold pow2. now rewrite Zpower_Qpower. Qed.

Lemma rne_comp (q q' : Q) : q == q' -> rne q = rne q'.
Proof.
  intros H. unfold rne. rewrite (Qfloor_comp _ _ H).
  assert (Hc : (q - inject_Z (Qfloor q') ?= 1 # 2)
               = (q' - inject_Z (Qfloor q') ?= 1 # 2)).
  { apply Qcompare_comp; [now rewrite H|reflexivity]. }
  now rewrite Hc.
Qed.

Lemma rne_bounds (q : Q) :
  (Qfloor q <= rne q <= Qfloor q + 1)%Z.
Proof.
  unfold rne. destruct (_ ?= _); [destruct (Z.even _)| |]; lia.
Qed.

Lemma rne_mono (q1 q2 : Q) : q1 <= q2 -> (rne q1 <= rne q2)%Z.
Proof.
  intros H. pose proof (Qfloor_resp_le _ _ H) as Hk.
  destruct (Z.eq_dec (Qfloor q1) (Qfloor q2)) as [He|Hne].
  - unfold rne. rewrite He.
    destruct (Qcompare_spec (q1 - inject_Z (Qfloor q2)) (1 # 2)) as [C1|C1|C1];
      destruct (Qcompare_spec (q2 - inject_Z (Qfloor q2)) (1 # 2)) as [C2|C2|C2];
      try (destruct (Z.even (Qfloor q2))); try lia; lra.
  - pose proof (rne_bounds q1). pose proof (rne_bounds q2). lia.
Qed.

Lemma rne_Z (z : Z) : rne (inject_Z z) = z.
Proof.
  unfold rne. rewrite Qfloor_Z.
  destruct (Qcompare_spec (inject_Z z - inject_Z z) (1 # 2)) as [C|C|C];
    [|reflexivity|]; exfalso; lra.
Qed.

Lemma rne_nonneg (q : Q) : 0 <= q -> (0 <= rne q)%Z.
Proof.
  intros H. rewrite <- (rne_Z 0). now apply rne_mono.
Qed.

Lemma Zlog2_Q (n : Z) : (0 < n)%Z ->
  pow2 (Z.log2 n) <= inject_Z n /\ inject_Z n < pow2 (Z.log2 n + 1).
Proof.
  intros H. destruct (Z.log2_spec n H) as [H1 H2].
  pose proof (Z.log2_nonneg n) as H0.
  rewrite !pow2_Z by lia. rewrite <- Zle_Qle, <- Zlt_Qlt.
  replace (Z.succ (Z.log2 n)) with (Z.log2 n + 1)%Z in H2 by lia. now split.
Qed.

Lemma ilog2_spec (q : Q) :
  0 < q -> pow2 (ilog2 q) <= q /\ q < pow2 (ilog2 q + 1).
Proof.
  intros Hq. destruct q as [n d]. unfold ilog2. cbn [Qnum Qden].
  assert (Hn : (0 < n)%Z).
  { unfold Qlt in Hq. cbn in Hq. lia. }
  set (a := Z.log2 n). set (b := Z.log2 (Z.pos d)).
  destruct (Zlog2_Q n Hn) as [Na Nb]. fold a in Na, Nb.
  destruct (Zlog2_Q (Z.pos d) eq_refl) as [Da Db]. fold b in Da, Db.
  assert (Hnd : n # d == inject_Z n / inject_Z (Z.pos d)) by apply Qmake_Qdiv.
  assert (Hd0 : 0 < inject_Z (Z.pos d)) by reflexivity.
  pose proof (pow2_pos b) as Pb. pose proof (pow2_pos (b + 1)) as Pb1.
  pose proof (pow2_pos (a - b)) as Pab.
  assert (Hup : n # d < pow2 (a - b + 1)).
  { rewrite Hnd. apply Qlt_shift_div_r; [exact Hd0|].
    apply Qlt_le_trans with (pow2 (a + 1)); [exact Nb|].
    replace (a + 1)%Z with ((a - b + 1) + b)%Z by lia.
    rewrite pow2_add. apply Qmult_le_l; [apply pow2_pos|exact Da]. }
  assert (Hlo : pow2 (a - b - 1) <= n # d).
  { rewrite Hnd. apply Qle_shift_div_l; [exact Hd0|].
    apply Qle_trans with (pow2 a); [|exact Na].
    replace a with ((a - b - 1) + (b + 1))%Z at 2 by lia.
    rewrite pow2_add. apply Qmult_le_l; [apply pow2_pos|].
    now apply Qlt_le_weak. }
  destruct (Qle_bool (pow2 (a - b)) (n # d)) eqn:Ht.
  - apply Qle_bool_iff in Ht. now split.
  - replace (a - b - 1 + 1)%Z with (a - b)%Z by lia. split; [exact Hlo|].
    apply Qnot_le_lt. intros Hc. apply Qle_bool_iff in Hc. congruence.
Qed.

Lemma ilog2_mono (q1 q2 : Q) :
  0 < q1 -> q1 <= q2 -> (ilog2 q1 <= ilog2 q2)%Z.
Proof.
  intros H1 H12.
  destruct (ilog2_spec q1 H1) as [A _].
  destruct (ilog2_spec q2) as [_ B]; [lra|].
  assert (H : pow2 (ilog2 q1) < pow2 (ilog2 q2 + 1)) by lra.
  apply pow2_lt_inv in H. lia.
Qed.

Lemma en_malla_mono (u : Z) (q1 q2 : Q) :
  q1 <= q2 -> en_malla u q1 <= en_malla u q2.
Proof.
  intros H. unfold en_malla. pose proof (pow2_pos u) as P.
  apply Qmult_le_compat_r; [|lra].
  rewrite <- Zle_Qle. apply rne_mono.
  unfold Qdiv. apply Qmult_le_compat_r; [exact H|].
  apply Qlt_le_weak, Qinv_lt_0_compat, P.
Qed.

Lemma en_malla_pow2 (u e : Z) : (u <= e)%Z -> en_malla u (pow2 e) == pow2 e.
Proof.
  intros H. unfold en_malla. pose proof (pow2_pos u) as P.
  assert (Hd : pow2 e / pow2 u == inject_Z (2 ^ (e - u))).
  { rewrite <- pow2_Z by lia. unfold pow2. rewrite Qpower_minus by discriminate.
    reflexivity. }
  rewrite (rne_comp _ _ Hd), rne_Z, <- pow2_Z by lia.
  rewrite <- pow2_add. now replace (e - u + u)%Z with e by lia.
Qed.

Lemma redondear_malla (q : Q) :
  redondear q == en_malla (Z.max (ilog2 q - 52) (-1074)) q.
Proof. unfold redondear. cbv zeta. now rewrite Qred_correct. Qed.

Lemma redondear_mono (q1 q2 : Q) :
  0 < q1 -> q1 <= q2 -> redondear q1 <= redondear q2.
Proof.
  intros H1 H12. rewrite !redondear_malla.
  pose proof (ilog2_mono q1 q2 H1 H12) as He.
  set (E1 := ilog2 q1) in *. set (E2 := ilog2 q2) in *.
  set (u1 := Z.max (E1 - 52) (-1074)). set (u2 := Z.max (E2 - 52) (-1074)).
  destruct (Z.eq_dec u1 u2) as [Hu|Hu].
  - rewrite Hu. now apply en_malla_mono.
  - assert (Hlt : (u1 < u2)%Z) by lia.
    destruct (ilog2_spec q1 H1) as [_ B1]. fold E1 in B1.
    destruct (ilog2_spec q2) as [A2 _]; [lra|]. fold E2 in A2.
    set (g := Z.max (E1 + 1) u1).
    apply Qle_trans with (pow2 g).
    + rewrite <- (en_malla_pow2 u1 g) by lia.
      apply en_malla_mono.
      apply Qle_trans with (pow2 (E1 + 1)); [lra|]. apply pow2_le. lia.
    + apply Qle_trans with (pow2 E2); [apply pow2_le; lia|].
      rewrite <- (en_malla_pow2 u2 E2) by lia.
      now apply en_malla_mono.
Qed.

Lemma redondear_nonneg (q : Q) : 0 < q -> 0 <= redondear q.
Proof.
  intros H. rewrite redondear_malla. unfold en_malla.
  pose proof (pow2_pos (Z.max (ilog2 q - 52) (-1074))) as P.
  apply Qmult_le_0_compat; [|lra].
  change 0 with (inject_Z 0). rewrite <- Zle_Qle. apply rne_nonneg.
  apply Qle_shift_div_l; [exact P|lra].
Qed.

Lemma ilog2_comp (q q' : Q) : 0 < q -> q == q' -> ilog2 q = ilog2 q'.
Proof.
  intros H He.
  assert (H1 : (ilog2 q <= ilog2 q')%Z) by (apply ilog2_mono; lra).
  assert (H2 : (ilog2 q' <= ilog2 q)%Z) by (apply ilog2_mono; lra).
  lia.
Qed.

Lemma redondear_comp (q q' : Q) :
  0 < q -> q == q' -> redondear q = redondear q'.
Proof.
  intros H He. unfold redondear.
  rewrite (ilog2_comp q q' H He). apply Qred_complete. unfold en_malla.
  assert (Hd : q / pow2 (Z.max (ilog2 q' - 52) (-1074))
               == q' / pow2 (Z.max (ilog2 q' - 52) (-1074)))
    by now rewrite He.
  now rewrite (rne_comp _ _ Hd).
Qed.

Lemma Qle_bool_comp (a a' b b' : Q) :
  a == a' -> b == b' -> Qle_bool a b = Qle_bool a' b'.
Proof.
  intros Ha Hb. destruct (Qle_bool a' b') eqn:E.
  - apply Qle_bool_iff. apply Qle_bool_iff in E. lra.
  - destruct (Qle_bool a b) eqn:E'; [|reflexivity].
    apply Qle_bool_iff in E'.
    assert (Hc : Qle_bool a' b' = true) by (apply Qle_bool_iff; lra).
    congruence.
Qed.

Lemma de_magnitud_comp (neg : bool) (q q' : Q) :
  q == q' -> de_magnitud neg q = de_magnitud neg q'.
Proof.
  intros He. unfold de_magnitud.
  rewrite (Qle_bool_comp q q' 0 0 He (Qeq_refl 0)).
  destruct (Qle_bool q' 0) eqn:E; [reflexivity|].
  assert (Hpos : 0 < q).
  { apply Qnot_le_lt. intros Hc.
    assert (Ht : Qle_bool q' 0 = true) by (apply Qle_bool_iff; lra).
    congruence. }
  now rewrite (redondear_comp q q' Hpos He).
Qed.

(** What rounding a magnitude gives: an infinity or a finite magnitude,
    with the sign asked for. *)
Lemma de_magnitud_casos (neg : bool) (q : Q) :
  de_magnitud neg q = PyInf neg
  \/ exists r, 0 <= r /\ de_magnitud neg q = PyFin neg r.
Proof.
  unfold de_magnitud. destruct (Qle_bool q 0) eqn:E.
  - right. exists 0. split; [lra|reflexivity].
  - destruct (Qle_bool (pow2 1024) (redondear q)); [now left|].
    right. exists (redondear q). split; [|reflexivity].
    apply redondear_nonneg. apply Qnot_le_lt. intros Hc.
    apply Qle_bool_iff in Hc. congruence.
Qed.

Lemma abs_de_magnitud (neg : bool) (q : Q) :
  abs (de_magnitud neg q) = de_magnitud false q.
Proof.
  unfold de_magnitud. destruct (Qle_bool q 0); [reflexivity|].
  cbv zeta. now destruct (Qle_bool (pow2 1024) (redondear q)).
Qed.

Lemma valor_fin (q : Q) : valor (negb (Qle_bool 0 q)) (Qabs q) == q.
Proof.
  unfold valor. destruct (Qle_bool 0 q) eqn:E; cbn [negb].
  - apply Qle_bool_iff in E. now apply Qabs_pos.
  - assert (H : q < 0).
    { apply Qnot_le_lt. intros Hc. apply Qle_bool_iff in Hc. congruence. }
    rewrite Qabs_neg by lra. ring.
Qed.

(** The difference of two numbers as the code computes it, then [abs]. *)
Lemma abs_resta_fin (a b : Q) :
  abs (resta (fin a) (fin b)) = de_magnitud false (Qabs (a - b)).
Proof.
  unfold resta, fin, opuesto, suma. cbv zeta.
  set (v := valor (negb (Qle_bool 0 a)) (Qabs a)
            + valor (negb (negb (Qle_bool 0 b))) (Qabs b)).
  assert (Hv : v == a - b).
  { unfold v. rewrite negb_involutive.
    pose proof (valor_fin a) as Ha. pose proof (valor_fin b) as Hb.
    rewrite Ha. unfold valor in *. destruct (Qle_bool 0 b); cbn [negb] in *; lra. }
  assert (Habs : Qabs v == Qabs (a - b)) by now rewrite Hv.
  destruct (Qeq_bool v 0) eqn:E.
  - apply Qeq_bool_iff in E. cbn [abs]. unfold de_magnitud.
    assert (H0 : Qle_bool (Qabs (a - b)) 0 = true).
    { apply Qle_bool_iff. rewrite <- Habs, E. cbn. lra. }
    now rewrite H0.
  - unfold de_Q. rewrite abs_de_magnitud. now apply de_magnitud_comp.
Qed.

Lemma es_doble_casos (t : Q) :
  es_doble t = true ->
  t == 0 \/ (redondear (Qabs t) == Qabs t /\ Qabs t < pow2 1024).
Proof.
  unfold es_doble. intros H. apply orb_true_iff in H.
  destruct H as [H|H]; [left; now apply Qeq_bool_iff|right].
  apply andb_true_iff in H. destruct H as [H1 H2].
  apply Qeq_bool_iff in H1. apply negb_true_iff in H2.
  split; [exact H1|]. apply Qnot_le_lt. intros Hc.
  apply Qle_bool_iff in Hc. congruence.
Qed.

(** Rounding does not step over a float: a magnitude that a float bounds
    is rounded to a float it bounds. *)
Lemma de_magnitud_bajo_doble (d t : Q) :
  es_doble t = true -> 0 <= d -> d <= t ->
  exists r, de_magnitud false d = PyFin false r /\ 0 <= r /\ r <= t.
Proof.
  intros Ht H0 Hd. unfold de_magnitud.
  destruct (Qle_bool d 0) eqn:E.
  - exists 0. split; [reflexivity|]. lra.
  - assert (Hpos : 0 < d).
    { apply Qnot_le_lt. intros Hc. apply Qle_bool_iff in Hc. congruence. }
    destruct (es_doble_casos t Ht) as [Hz|[Hr Hlt]]; [lra|].
    assert (Habs : Qabs t == t) by (apply Qabs_pos; lra).
    rewrite (redondear_comp (Qabs t) t) in Hr by lra.
    rewrite Habs in Hr, Hlt.
    pose proof (redondear_mono d t Hpos Hd) as Hm.
    assert (Hfin : Qle_bool (pow2 1024) (redondear d) = false).
    { destruct (Qle_bool (pow2 1024) (redondear d)) eqn:E2; [|reflexivity].
      apply Qle_bool_iff in E2. lra. }
    cbv zeta. rewrite Hfin. exists (redondear d).
    split; [reflexivity|]. split; [now apply redondear_nonneg|lra].
Qed.

(** [tol < abs(a - b)] as the code computes it, for a float [tol], holds of
    the numbers themselves. *)
Lemma ltb_distancia (tol a b : Q) :
  es_doble tol = true ->
  ltb (fin tol) (abs (resta (fin a) (fin b))) = true -> tol < Qabs (a - b).
Proof.
  intros Ht H. rewrite abs_resta_fin in H.
  apply Qnot_le_lt. intros Hc.
  destruct (de_magnitud_bajo_doble (Qabs (a - b)) tol Ht (Qabs_nonneg _) Hc)
    as (r & Hr & H0 & Hle).
  rewrite Hr in H. unfold fin, ltb in H. apply negb_true_iff in H.
  assert (Ht' : Qle_bool (valor false r) (valor (negb (Qle_bool 0 tol)) (Qabs tol))
                = true).
  { apply Qle_bool_iff. rewrite valor_fin. cbn [valor]. exact Hle. }
  congruence.
Qed.

(** Without a NaN, [x <= y] fails exactly when [y < x] holds. *)
Lemma leb_ltb (x y : pyfloat) :
  x <> PyNaN -> y <> PyNaN -> leb x y = negb (ltb y x).
Proof.
  intros Hx Hy. destruct x as [|a|a m], y as [|b|b n]; try congruence;
    cbn [leb ltb]; try (now destruct a, b); try (now destruct a);
    try (now destruct b).
  now rewrite negb_involutive.
Qed.

Lemma Qle_bool_false (a b : Q) : Qle_bool a b = false <-> b < a.
Proof.
  split.
  - intros H. apply Qnot_le_lt. intros Hc. apply Qle_bool_iff in Hc.
    congruence.
  - intros H. destruct (Qle_bool a b) eqn:E; [|reflexivity].
    apply Qle_bool_iff in E. lra.
Qed.

(** [r <= x < b] and [r < b <= x], without a NaN. *)
Lemma ltb_menor_igual (r x b : pyfloat) :
  r <> PyNaN -> x <> PyNaN ->
  ltb x r = false -> ltb x b = true -> ltb r b = true.
Proof.
  intros Hr Hx.
  destruct r as [|a|a m], x as [|b' |b' n], b as [|c|c k]; try congruence;
    cbn [ltb]; try discriminate; try (now destruct a, b', c);
    try (now destruct a, b'); try (now destruct a, c);
    try (now destruct b', c); try (now destruct a); try (now destruct b');
    try (now destruct c).
  rewrite !negb_false_iff, !negb_true_iff, !Qle_bool_false, Qle_bool_iff.
  intros H1 H2. lra.
Qed.

Lemma ltb_igual_mayor (r b x : pyfloat) :
  x <> PyNaN -> ltb r b = true -> ltb x b = false -> ltb r x = true.
Proof.
  intros Hx.
  destruct r as [|a|a m], x as [|b' |b' n], b as [|c|c k]; try congruence;
    cbn [ltb]; try discriminate; try (now destruct a, b', c);
    try (now destruct a, b'); try (now destruct a, c);
    try (now destruct b', c); try (now destruct a); try (now destruct b');
    try (now destruct c).
  rewrite !negb_false_iff, !negb_true_iff, !Qle_bool_false, Qle_bool_iff.
  intros H1 H2. lra.
Qed.

Lemma abs_resta_fin_no_nan (a b : Q) : abs (resta (fin a) (fin b)) <> PyNaN.
Proof.
  rewrite abs_resta_fin.
  destruct (de_magnitud_casos false (Qabs (a - b))) as [->|(r & _ & ->)];
    discriminate.
Qed.

End Binary64_Props.


(** ** The stable sort *)

Section OrdenFacts.
Context {A : Type} (leb : A -> A -> bool).

Lemma insertar_perm (x : A) (l : list A) :
  Permutation (x :: l) (insertar leb x l).
Proof.
  induction l as [|y l IH]; simpl.
  - apply Permutation_refl.
  - destruct (leb x y).
    + apply Permutation_refl.
    + eapply perm_trans; [apply perm_swap|].
      now apply perm_skip.
Qed.

Lemma ordenar_perm (l : list A) : Permutation l (ordenar leb l).
Proof.
  induction l as [|x l IH]; simpl.
  - constructor.
  - eapply perm_trans; [apply perm_skip, IH|apply insertar_perm].
Qed.

Lemma ordenar_In (l : list A) (x : A) : In x (ordenar leb l) <-> In x l.
Proof.
  split; apply Permutation_in;
    [apply Permutation_sym|]; apply ordenar_perm.
Qed.

Lemma ordenar_Forall (P : A -> Prop) (l : list A) :
  Forall P l -> Forall P (ordenar leb l).
Proof.
  rewrite !Forall_forall. intros H x Hx. apply H. now apply ordenar_In.
Qed.

(** A list in order comes back as it is. *)
Lemma ordenar_ya_ordenada (l : list A) :
  Sorted (fun a b => leb a b = true) l -> ordenar leb l = l.
Proof.
  induction l as [|x l IH]; intros Hs; simpl.
  - reflexivity.
  - apply Sorted_inv in Hs. destruct Hs as [Hs Hhd].
    rewrite (IH Hs).
    destruct l as [|y l']; simpl.
    + reflexivity.
    + apply HdRel_inv in Hhd. now rewrite Hhd.
Qed.

Hypothesis leb_total : forall a b, leb a b = true \/ leb b a = true.
Hypothesis leb_trans :
  forall a b c, leb a b = true -> leb b c = true -> leb a c = true.

(** The first element of the sorted list is below every element. *)
Lemma ordenar_primero_minimo (l : list A) (c : A) (r : list A) :
  ordenar leb l = c :: r -> forall x, In x l -> leb c x = true.
Proof.
  revert c r. induction l as [|y l IH]; intros c r Heq x Hx.
  - destruct Hx.
  - simpl in Heq.
    destruct (ordenar leb l) as [|c' r'] eqn:Hsort.
    + assert (l = []) as ->.
      { destruct l as [|z l']; [reflexivity|].
        assert (In z (ordenar leb (z :: l')))
          by (apply ordenar_In; now left).
        rewrite Hsort in H. destruct H. }
      simpl in Heq. injection Heq as <- <-.
      destruct Hx as [->|[]].
      destruct (leb_total x x); assumption.
    + simpl in Heq.
      assert (Hmin : forall z, In z l -> leb c' z = true)
        by (intros z Hz; eapply IH; [reflexivity|exact Hz]).
      destruct (leb y c') eqn:Hyc; injection Heq as Hc Hr; subst c.
      * destruct Hx as [->|Hx].
        -- destruct (leb_total x x); assumption.
        -- eapply leb_trans; [exact Hyc|now apply Hmin].
      * destruct Hx as [->|Hx].
        -- destruct (leb_total c' x) as [H|H]; [exact H|congruence].
        -- now apply Hmin.
Qed.

End OrdenFacts.

Section OrdenTotal.
Context {A : Type} (leb : A -> A -> bool).
Hypothesis leb_total : forall a b, leb a b = true \/ leb b a = true.

Lemma insertar_sorted (x : A) (l : list A) :
  Sorted (fun a b => leb a b = true) l ->
  Sorted (fun a b => leb a b = true) (insertar leb x l).
Proof.
  induction l as [|y l IH]; intros Hs; simpl.
  - repeat constructor.
  - destruct (leb x y) eqn:Hxy.
    + constructor; [exact Hs|constructor; exact Hxy].
    + apply Sorted_inv in Hs. destruct Hs as [Hs Hhd].
      constructor; [now apply IH|].
      destruct l as [|z l']; simpl.
      * constructor. destruct (leb_total x y); congruence.
      * apply HdRel_inv in Hhd.
        destruct (leb x z); constructor;
          [destruct (leb_total x y); congruence|exact Hhd].
Qed.

Lemma ordenar_sorted (l : list A) :
  Sorted (fun a b => leb a b = true) (ordenar leb l).
Proof.
  induction l as [|x l IH]; simpl.
  - constructor.
  - now apply insertar_sorted.
Qed.

Lemma ordenar_idempotente (l : list A) :
  ordenar leb (ordenar leb l) = ordenar leb l.
Proof. apply ordenar_ya_ordenada, ordenar_sorted. Qed.

End OrdenTotal.

(* ================================================================= *)
(** ** The amount normalizers on the inputs of the specification *)

(** C9, as the specification states it, fails: the row grouper's default
    tolerance does not exceed the default tolerance of the header
    clustering. *)
Lemma tolerancia_de_filas_no_excede :
  ~ (BBVA.tol_fila_defecto < BBVA.tol_defecto)%Q.
Proof. unfold BBVA.tol_fila_defecto, BBVA.tol_defecto. intros H. now compute in H. Qed.

(** C9, amended: the default tolerance of [_agrupar_filas] is 2, that of
    [_detectar_columnas_montos] is 3, so rows are grouped with the strictly
    finer tolerance of the two. *)
Theorem tolerancia_de_filas_mas_fina :
  (BBVA.tol_defecto == 2)%Q /\ (BBVA.tol_fila_defecto == 3)%Q
  /\ (BBVA.tol_defecto < BBVA.tol_fila_defecto)%Q.
Proof. repeat split; reflexivity. Qed.

(** C3: on ["-12.34"] the normalizer of the positional variant drops the
    leading minus sign and returns 12.34, where the normalizer of the
    line-pattern variant returns -12.34.  The magnitude of both is the
    binary64 number nearest to 12.34, 3473401212609495 / 2^48. *)
Theorem limpiar_monto_menos_inicial :
  BBVA._limpiar_monto "-12.34"
  = Some (Py.PyFin false (3473401212609495 # 281474976710656))
  /\ BBVATC._limpiar_monto "-12.34"
     = Some (Py.PyFin true (3473401212609495 # 281474976710656))
  /\ Py.de_magnitud false (617 # 50)
     = Py.PyFin false (3473401212609495 # 281474976710656).
Proof. repeat split; vm_compute; reflexivity. Qed.

(** C8: on ["1.234,56"], which holds a comma and a dot, both normalizers
    remove the comma and read 1.23456; the branch that would read the comma
    as the decimal separator is taken only without a dot.  ["1,234.56"] is
    read as 1234.56.  The values are the binary64 numbers nearest to
    1.23456 = 3858/3125 and to 1234.56 = 30864/25. *)
Theorem limpiar_monto_punto_y_coma :
  BBVA._limpiar_monto "1.234,56"
  = Some (Py.PyFin false (694995494495815 # 562949953421312))
  /\ BBVATC._limpiar_monto "1.234,56"
     = Some (Py.PyFin false (694995494495815 # 562949953421312))
  /\ BBVA._limpiar_monto "1,234.56"
     = Some (Py.PyFin false (2714826150374277 # 2199023255552))
  /\ BBVATC._limpiar_monto "1,234.56"
     = Some (Py.PyFin false (2714826150374277 # 2199023255552))
  /\ Py.de_magnitud false (3858 # 3125)
     = Py.PyFin false (694995494495815 # 562949953421312)
  /\ Py.de_magnitud false (30864 # 25)
     = Py.PyFin false (2714826150374277 # 2199023255552).
Proof. repeat split; vm_compute; reflexivity. Qed.

(* ================================================================= *)
(** ** The line-pattern extractor *)

Module BBVATC_Props.
Import BBVATC Predicados.

(** *** The final ordering *)

(** Boolean comparisons of a hypothesis, as propositions. *)
Ltac a_prop H :=
  repeat first
    [ rewrite orb_true_iff in H | rewrite andb_true_iff in H
    | rewrite N.ltb_lt in H | rewrite N.eqb_eq in H
    | rewrite Nat.ltb_lt in H ].

Lemma fila_ltb_asym (a b : Fila) : fila_ltb a b = true -> fila_ltb b a = false.
Proof.
  unfold fila_ltb, ts_ltb, ts_eqb.
  destruct (fila_fecha_liquidacion a) as [[ya ma da]|],
           (fila_fecha_liquidacion b) as [[yb mb db]|];
    cbn [ts_anio ts_mes ts_dia]; intros H; try discriminate; try reflexivity;
    apply Bool.not_true_is_false; intros H';
    a_prop H; a_prop H'; lia.
Qed.

Lemma fila_leb_total (a b : Fila) : fila_leb a b = true \/ fila_leb b a = true.
Proof.
  unfold fila_leb.
  destruct (fila_ltb b a) eqn:H; [right|left; reflexivity].
  now rewrite (fila_ltb_asym _ _ H).
Qed.

Lemma fila_leb_fecha_primero (x y : Fila) :
  con_fecha x -> sin_fecha y -> fila_leb x y = true /\ fila_leb y x = false.
Proof.
  unfold con_fecha, sin_fecha, fila_leb, fila_ltb. intros Hx Hy. rewrite Hy.
  destruct (fila_fecha_liquidacion x); [split; reflexivity|congruence].
Qed.

(** Inserting a row keeps the dated rows in front of the undated ones. *)
Lemma insertar_particion (x : Fila) (a b : list Fila) :
  Forall con_fecha a -> Forall sin_fecha b ->
  exists a' b', insertar fila_leb x (a ++ b) = a' ++ b'
                /\ Forall con_fecha a' /\ Forall sin_fecha b'.
Proof.
  intros Ha Hb. induction Ha as [|y a1 Hy Ha1 IH].
  - simpl. destruct (fila_fecha_liquidacion x) as [t|] eqn:Hx.
    + assert (Hcx : con_fecha x) by (unfold con_fecha; congruence).
      exists [x], b. split; [|split; [repeat constructor; exact Hcx|exact Hb]].
      destruct b as [|y b']; [reflexivity|]. simpl.
      apply Forall_inv in Hb.
      now destruct (fila_leb_fecha_primero x y Hcx Hb) as [-> _].
    + exists [], (insertar fila_leb x b).
      split; [reflexivity|split; [constructor|]].
      eapply Permutation_Forall; [apply insertar_perm|].
      constructor; [exact Hx|exact Hb].
  - simpl. destruct (fila_leb x y) eqn:Hxy.
    + exists (x :: y :: a1), b. split; [reflexivity|split; [|exact Hb]].
      constructor; [|constructor; assumption].
      unfold con_fecha. intros Hx.
      destruct (fila_leb_fecha_primero y x Hy Hx) as [_ H]. congruence.
    + destruct IH as (a' & b' & Heq & Ha' & Hb').
      exists (y :: a'), b'. rewrite Heq.
      split; [reflexivity|split; [constructor; assumption|exact Hb']].
Qed.

Lemma sort_values_particion (df : list Fila) :
  exists a b, sort_values df = a ++ b
              /\ Forall con_fecha a /\ Forall sin_fecha b.
Proof.
  unfold sort_values. induction df as [|x df IH]; simpl.
  - exists [], []. repeat constructor.
  - destruct IH as (a & b & -> & Ha & Hb). now apply insertar_particion.
Qed.

(** C7: [sort_values] returns a frame that is already in the order of
    (settlement date, page), NaT last, as it is; sorting twice is sorting
    once; in the sorted frame the rows without a settlement date stand after
    all the rows with one; and the rows are those given. *)
Theorem sort_values_orden (df : list Fila) :
  (Sorted (fun a b => fila_leb a b = true) df -> sort_values df = df)
  /\ sort_values (sort_values df) = sort_values df
  /\ (forall i j a b,
        nth_error (sort_values df) i = Some a ->
        nth_error (sort_values df) j = Some b ->
        fila_fecha_liquidacion a = None ->
        fila_fecha_liquidacion b <> None ->
        (j < i)%nat)
  /\ Permutation df (sort_values df).
Proof.
  split; [apply ordenar_ya_ordenada|].
  split; [apply ordenar_idempotente, fila_leb_total|].
  split; [|apply ordenar_perm].
  destruct (sort_values_particion df) as (l1 & l2 & -> & H1 & H2).
  intros i j a b Hi Hj Ha Hb.
  destruct (Nat.lt_ge_cases i (List.length l1)) as [Hlt|Hge].
  - rewrite nth_error_app1 in Hi by exact Hlt.
    apply nth_error_In in Hi.
    rewrite Forall_forall in H1. now destruct (H1 a Hi).
  - destruct (Nat.lt_ge_cases j (List.length l1)) as [Hlt'|Hge']; [lia|].
    rewrite nth_error_app2 in Hj by exact Hge'.
    apply nth_error_In in Hj.
    rewrite Forall_forall in H2. now destruct Hb; apply H2.
Qed.

(** *** The loop over the lines *)

Section ConParser.
Variable pd_to_datetime : bool -> string -> option Timestamp.
Variable doc : Documento.

Local Abbreviation procesar_linea := (BBVATC.procesar_linea pd_to_datetime doc).
Local Abbreviation procesar_lineas := (BBVATC.procesar_lineas pd_to_datetime doc).
Local Abbreviation procesar_paginas := (BBVATC.procesar_paginas pd_to_datetime doc).

(** A record is emitted only for a line that matched one of the patterns
    and whose amount was read, and it is the record of that match. *)
Lemma emitido_inv (num_pagina : nat) (line : string) (mv : Movimiento) :
  procesar_linea num_pagina line = Emitido mv ->
  exists c monto,
    coincidir line = Some c /\ _limpiar_monto (monto_txt c) = Some monto
    /\ mv = movimiento_de pd_to_datetime doc num_pagina c monto.
Proof.
  unfold BBVATC.procesar_linea.
  destruct (Py.is_empty line); [discriminate|].
  destruct (es_corte (Py.upper line)); [discriminate|].
  destruct (es_omitida (Py.upper line)); [discriminate|].
  destruct (coincidir line) as [c|]; [|discriminate].
  destruct (_limpiar_monto (monto_txt c)) as [monto|] eqn:Hm; [|discriminate].
  intros H. injection H as <-. exists c, monto. repeat split. exact Hm.
Qed.

Lemma coincidir_vacia : coincidir "" = None.
Proof. reflexivity. Qed.

(** C1: a line that reaches the patterns, matches one of them and whose
    amount is read emits a record in which the sign of the amount alone
    decides the populated field.  An amount below zero, that is the
    negative infinity or a float with the sign bit and a magnitude above
    zero, puts its magnitude, without the sign bit, in the credit and leaves
    the charge absent; any other amount is the charge as it is, and the
    credit is absent. *)
Theorem cargo_o_abono_segun_signo (num_pagina : nat) (line : string)
  (c : Campos) (monto : Py.pyfloat) :
  es_corte (Py.upper line) = false ->
  es_omitida (Py.upper line) = false ->
  coincidir line = Some c ->
  _limpiar_monto (monto_txt c) = Some monto ->
  exists mv,
    procesar_linea num_pagina line = Emitido mv
    /\ match monto with
       | Py.PyInf true =>
           abonos mv = Some (Py.PyInf false) /\ cargos mv = None
       | Py.PyFin true q =>
           ((0 < q)%Q ->
            abonos mv = Some (Py.PyFin false q) /\ cargos mv = None)
           /\ ((q <= 0)%Q ->
               cargos mv = Some (Py.PyFin true q) /\ abonos mv = None)
       | _ => cargos mv = Some monto /\ abonos mv = None
       end.
Proof.
  intros Hc Ho Hm Ha.
  exists (movimiento_de pd_to_datetime doc num_pagina c monto). split.
  - unfold BBVATC.procesar_linea.
    destruct line as [|ch line'];
      [rewrite coincidir_vacia in Hm; discriminate|].
    cbn [Py.is_empty]. now rewrite Hc, Ho, Hm, Ha.
  - unfold movimiento_de. cbn [abonos cargos].
    destruct monto as [|[]|[] q]; cbn [Py.lt0 Py.abs andb]; try (now split).
    split; intros Hq.
    + assert (Hn : Qle_bool q 0 = false).
      { destruct (Qle_bool q 0) eqn:E; [|reflexivity].
        apply Qle_bool_iff in E. exfalso. exact (Qlt_not_le _ _ Hq E). }
      rewrite Hn. cbn [negb]. now split.
    + apply Qle_bool_iff in Hq. rewrite Hq. cbn [negb]. now split.
Qed.

Lemma procesar_lineas_un_solo_monto (num_pagina : nat) (lines : list string)
  (movs : list Movimiento) :
  Forall un_solo_monto movs ->
  Forall un_solo_monto (fst (procesar_lineas num_pagina lines movs)).
Proof.
  revert movs. induction lines as [|line resto IH]; intros movs Hm.
  - exact Hm.
  - cbn [BBVATC.procesar_lineas].
    destruct (BBVATC.procesar_linea pd_to_datetime doc num_pagina line)
      as [| |mv] eqn:Hl.
    + exact Hm.
    + now apply IH.
    + apply IH. apply Forall_app. split; [exact Hm|].
      constructor; [|constructor].
      apply emitido_inv in Hl. destruct Hl as (c & monto & _ & _ & ->).
      unfold un_solo_monto, movimiento_de. cbn [abonos cargos].
      destruct (Py.lt0 monto); [left|right]; split; congruence.
Qed.

Lemma extraer_un_solo_monto (pages : list string) :
  Forall un_solo_monto (extraer pd_to_datetime doc pages).
Proof.
  unfold extraer.
  assert (H : forall ps n movs, Forall un_solo_monto movs ->
                Forall un_solo_monto (procesar_paginas n ps movs)).
  { induction ps as [|lines ps IH]; intros n movs Hm; [exact Hm|].
    cbn [BBVATC.procesar_paginas].
    pose proof (procesar_lineas_un_solo_monto n lines movs Hm) as Hl.
    destruct (BBVATC.procesar_lineas pd_to_datetime doc n lines movs)
      as [movs' stop].
    destruct stop; [exact Hl|now apply IH]. }
  apply H. constructor.
Qed.

(** *** Dates that cannot be read *)

Lemma py_or_None (y : string) : py_or None y = y.
Proof. reflexivity. Qed.

Lemma tabla_In (movs : list Movimiento) (r : Fila) :
  In r (tabla pd_to_datetime movs) ->
  exists mv, In mv movs /\ r = a_fila pd_to_datetime mv.
Proof.
  unfold tabla. destruct movs as [|m0 movs']; [intros []|].
  unfold sort_values. rewrite ordenar_In, in_map_iff.
  intros (mv & <- & Hin). now exists mv.
Qed.

(** C6, amended: when the date normalizer returns nothing for the operation
    date or for the settlement date of a matched line, the emitted record
    holds the raw text of that date; in the returned frame the settlement
    date of each row is what the date parser reads from the stored text,
    NaT when it reads nothing. *)
Theorem fecha_ilegible_queda_cruda (num_pagina : nat) (line : string)
  (mv : Movimiento) :
  procesar_linea num_pagina line = Emitido mv ->
  exists c,
    coincidir line = Some c
    /\ (_parse_fecha_tc pd_to_datetime (f1 c) = None ->
        fecha_operacion mv = f1 c)
    /\ (_parse_fecha_tc pd_to_datetime (f2 c) = None ->
        fecha_liquidacion mv = f2 c)
    /\ forall r, In r (tabla pd_to_datetime [mv]) ->
         fila_mov r = mv
         /\ fila_fecha_liquidacion r
            = pd_to_datetime false (fecha_liquidacion mv).
Proof.
  intros H. apply emitido_inv in H. destruct H as (c & monto & Hc & _ & ->).
  exists c. split; [exact Hc|].
  unfold movimiento_de. cbn [fecha_operacion fecha_liquidacion].
  split; [intros ->; apply py_or_None|].
  split; [intros ->; apply py_or_None|].
  intros r Hr. apply tabla_In in Hr. destruct Hr as (mv' & [<-|[]] & ->).
  split; reflexivity.
Qed.

(** *** The stop marker *)

Lemma corte_detiene (num_pagina : nat) (stop : string) :
  es_corte (Py.upper stop) = true -> procesar_linea num_pagina stop = Corte.
Proof.
  unfold BBVATC.procesar_linea.
  destruct stop as [|ch s]; [discriminate|].
  cbn [Py.is_empty]. now intros ->.
Qed.

Lemma procesar_lineas_corte (num_pagina : nat) (l1 l2 : list string)
  (stop : string) (movs : list Movimiento) :
  procesar_linea num_pagina stop = Corte ->
  procesar_lineas num_pagina (l1 ++ stop :: l2) movs
  = (fst (procesar_lineas num_pagina l1 movs), true).
Proof.
  intros Hs. revert movs.
  induction l1 as [|l l1 IH]; intros movs; cbn [app BBVATC.procesar_lineas].
  - now rewrite Hs.
  - destruct (BBVATC.procesar_linea pd_to_datetime doc num_pagina l);
      [reflexivity|apply IH|apply IH].
Qed.

Lemma procesar_paginas_corte (ps1 ps2 : list (list string))
  (l1 l2 : list string) (stop : string) :
  (forall n, procesar_linea n stop = Corte) ->
  forall n movs,
    procesar_paginas n (ps1 ++ (l1 ++ stop :: l2) :: ps2) movs
    = procesar_paginas n (ps1 ++ [l1]) movs.
Proof.
  intros Hs.
  induction ps1 as [|lines ps1 IH]; intros n movs;
    cbn [app BBVATC.procesar_paginas].
  - rewrite (procesar_lineas_corte n l1 l2 stop movs (Hs n)).
    destruct (BBVATC.procesar_lineas pd_to_datetime doc n l1 movs)
      as [m' st]. now destruct st.
  - destruct (BBVATC.procesar_lineas pd_to_datetime doc n lines movs)
      as [m' st]. destruct st; [reflexivity|apply IH].
Qed.

(** C5: when a line of a page contains a stop marker, the list of records
    and the returned frame are those of the pages before it followed by the
    lines of that page that precede the marker: the lines after it and the
    later pages produce nothing. *)
Theorem corte_detiene_el_documento (pags1 pags2 : list string) (pg : string)
  (l1 l2 : list string) (stop : string) :
  lineas pg = l1 ++ stop :: l2 ->
  es_corte (Py.upper stop) = true ->
  extraer pd_to_datetime doc (pags1 ++ pg :: pags2)
  = procesar_paginas 1 (map lineas pags1 ++ [l1]) []
  /\ parse_movimientos pd_to_datetime doc (pags1 ++ pg :: pags2)
     = tabla pd_to_datetime
             (procesar_paginas 1 (map lineas pags1 ++ [l1]) []).
Proof.
  intros Hl Hs.
  assert (He : extraer pd_to_datetime doc (pags1 ++ pg :: pags2)
               = procesar_paginas 1 (map lineas pags1 ++ [l1]) []).
  { unfold extraer. rewrite map_app. cbn [map]. rewrite Hl.
    apply procesar_paginas_corte. intros n. now apply corte_detiene. }
  split; [exact He|]. unfold parse_movimientos. now rewrite He.
Qed.

End ConParser.

End BBVATC_Props.

(* ================================================================= *)
(** ** The matcher *)

Module Re_Props.
Import Re.

(** What a repetition that leads to a match has consumed. *)
Lemma rep_inv {R : Type} (cls : ascii -> bool) (lazy : bool) (s : list ascii) :
  forall (lo : nat) (hi : option nat) (done : list ascii)
         (k : list ascii -> list ascii -> option R) (r : R),
    rep cls lazy lo hi done s k = Some r ->
    exists p s',
      s = p ++ s' /\ forallb cls p = true /\ (lo <= List.length p)%nat
      /\ match hi with Some h => (List.length p <= h)%nat | None => True end
      /\ k (rev p ++ done) s' = Some r.
Proof.
  induction s as [|a s IH]; intros lo hi done k r H.
  - cbn [rep] in H.
    destruct (lo =? 0)%nat eqn:Hlo; [|discriminate].
    apply Nat.eqb_eq in Hlo. subst lo.
    assert (Hk : k done [] = Some r)
      by (unfold orelse in H; destruct lazy;
          destruct (k done []); congruence).
    exists [], []. split; [reflexivity|]. split; [reflexivity|].
    split; [apply Nat.le_0_l|].
    split; [destruct hi; [apply Nat.le_0_l|exact I]|exact Hk].
  - cbn [rep] in H.
    set (more := if cls a && may_take hi
                 then rep cls lazy (pred lo) (option_map pred hi)
                          (a :: done) s k
                 else None) in H.
    assert (Hcases : more = Some r \/ (lo = 0%nat /\ k done (a :: s) = Some r)).
    { destruct (lo =? 0)%nat eqn:Hlo; [|now left].
      apply Nat.eqb_eq in Hlo.
      unfold orelse in H. destruct lazy.
      - destruct (k done (a :: s)) eqn:Hk; [right; split; congruence|now left].
      - destruct more eqn:Hm; [now left|right; split; congruence]. }
    destruct Hcases as [Hm|[-> Hk]].
    + subst more.
      destruct (cls a) eqn:Ha; [|discriminate].
      destruct (may_take hi) eqn:Hhi; [|discriminate].
      cbn [andb] in Hm.
      apply IH in Hm. destruct Hm as (p & s' & -> & Hp & Hlo & Hh & Hk).
      exists (a :: p), s'. cbn [app forallb rev List.length].
      rewrite Ha, Hp, <- app_assoc. cbn [app].
      split; [reflexivity|]. split; [reflexivity|]. split; [lia|].
      split; [|exact Hk].
      destruct hi as [h|]; [|exact I].
      cbn [may_take option_map] in *.
      destruct h; [discriminate|]. cbn [pred] in Hh. lia.
    + exists [], (a :: s). split; [reflexivity|]. split; [reflexivity|].
      split; [apply Nat.le_0_l|].
      split; [destruct hi; [apply Nat.le_0_l|exact I]|exact Hk].
Qed.

(** A token that [PATRON_MONTO] matches in full: digits and commas, at least
    one, then a dot and two digits. *)
Lemma patron_monto_forma (txt : string) :
  BBVA.coincide BBVA.PATRON_MONTO txt = true ->
  exists ds d1 d2,
    list_ascii_of_string txt = ds ++ ["."%char; d1; d2]
    /\ ds <> [] /\ forallb BBVA.digito_o_coma ds = true
    /\ Py.isdigit d1 = true /\ Py.isdigit d2 = true.
Proof.
  unfold BBVA.coincide, fullmatch, BBVA.PATRON_MONTO, plus, exactly.
  cbn [seq run].
  destruct (rep _ _ _ _ _ _ _) as [g|] eqn:H; [intros _|discriminate].
  apply rep_inv in H. destruct H as (ds & s1 & Hs & Hds & Hlen & _ & H).
  destruct s1 as [|a s1]; [discriminate|].
  destruct (Ascii.eqb a ".") eqn:Ha; [|discriminate].
  apply Ascii.eqb_eq in Ha. subst a.
  apply rep_inv in H. destruct H as (p2 & s2 & -> & Hp2 & Hlo & Hhi & H).
  destruct p2 as [|d1 [|d2 [|d3 p2]]]; cbn [List.length] in Hlo, Hhi; try lia.
  cbn [forallb] in Hp2. apply andb_true_iff in Hp2. destruct Hp2 as [H1 Hp2].
  apply andb_true_iff in Hp2. destruct Hp2 as [H2 _].
  assert (s2 = []) as ->.
  { destruct s2 as [|c [|c' s2]]; [reflexivity| |discriminate].
    destruct (Py.code c =? 10)%N; discriminate. }
  exists ds, d1, d2. rewrite Hs. cbn [app].
  repeat split; try assumption.
  intros ->. cbn [List.length] in Hlen. lia.
Qed.

End Re_Props.

(* ================================================================= *)
(** ** Strings and numbers *)

Module Py_Props.
Import Py Predicados.

Abbreviation chars := list_ascii_of_string.

Lemma strip_sin_blancos (s : string) :
  Forall (fun c => isspace c = false) (chars s) -> strip s = s.
Proof.
  intros H. unfold strip.
  assert (Hl : lstrip s = s).
  { destruct s as [|c s]; [reflexivity|]. cbn [lstrip].
    cbn [list_ascii_of_string] in H. apply Forall_inv in H. now rewrite H. }
  rewrite Hl. clear Hl.
  induction s as [|c s IH]; [reflexivity|].
  cbn [list_ascii_of_string] in H. cbn [rstrip].
  rewrite (IH (Forall_inv_tail H)).
  apply Forall_inv in H. rewrite H. now destruct s.
Qed.

Lemma replace_ausente (c : ascii) (new s : string) :
  Forall (fun x => Ascii.eqb x c = false) (chars s) -> replace c new s = s.
Proof.
  induction s as [|x s IH]; intros H; [reflexivity|].
  cbn [list_ascii_of_string] in H. cbn [replace].
  rewrite (Forall_inv H), (IH (Forall_inv_tail H)). reflexivity.
Qed.

Lemma replace_borra (c : ascii) (s : string) :
  chars (replace c "" s) = filter (fun x => negb (Ascii.eqb x c)) (chars s).
Proof.
  induction s as [|x s IH]; [reflexivity|].
  cbn [replace list_ascii_of_string filter].
  destruct (Ascii.eqb x c); cbn [negb]; [exact IH|].
  cbn [list_ascii_of_string]. now rewrite IH.
Qed.

Lemma contains_caracter (c : ascii) (s : string) :
  contains (String c "") s = existsb (fun x => Ascii.eqb x c) (chars s).
Proof.
  induction s as [|x s IH]; [reflexivity|].
  cbn [contains list_ascii_of_string existsb String.prefix]. rewrite IH.
  f_equal. destruct (ascii_dec c x) as [->|Hne].
  - rewrite Ascii.eqb_refl. now destruct s.
  - symmetry. apply Ascii.eqb_neq. congruence.
Qed.

Lemma existsb_false_Forall {A} (f : A -> bool) (l : list A) :
  existsb f l = false -> Forall (fun x => f x = false) l.
Proof.
  induction l as [|x l IH]; cbn [existsb]; intros H; constructor;
    apply orb_false_iff in H; [apply H|apply IH, H].
Qed.

(** With a dot in the text, the test of the separators removes the commas:
    the branch that reads a comma as the decimal separator is not taken. *)
Lemma rama_con_punto (s : string) :
  contains "." s = true ->
  (if contains "," s && contains "." s then replace "," "" s
   else if contains "," s && negb (contains "." s)
        then replace "," "." (replace "." "" s)
        else s) = replace "," "" s.
Proof.
  intros H. rewrite H. cbn [negb]. rewrite andb_true_r, andb_false_r.
  destruct (contains "," s) eqn:Hc; [reflexivity|].
  symmetry. apply replace_ausente. rewrite contains_caracter in Hc.
  now apply existsb_false_Forall.
Qed.

Lemma count_ausente (c : ascii) (s : string) :
  Forall (fun x => Ascii.eqb x c = false) (chars s) -> count c s = 0%nat.
Proof.
  induction s as [|x s IH]; intros H; [reflexivity|].
  cbn [list_ascii_of_string] in H. cbn [count].
  now rewrite (Forall_inv H), (IH (Forall_inv_tail H)).
Qed.

Lemma monto_char_facts (c : ascii) :
  monto_char c = true ->
  isspace c = false /\ Ascii.eqb c "$" = false /\ Ascii.eqb c " " = false
  /\ Ascii.eqb c "-" = false /\ Ascii.eqb c "+" = false
  /\ Ascii.eqb c "I" = false /\ Ascii.eqb c "N" = false
  /\ Ascii.eqb c "_" = false /\ upper_char c = String c "".
Proof.
  destruct c as [[] [] [] [] [] [] [] []]; vm_compute; intros H;
    try discriminate H; repeat split.
Qed.

Lemma isdigit_facts (c : ascii) :
  isdigit c = true ->
  monto_char c = true /\ Ascii.eqb c "," = false /\ Ascii.eqb c "." = false.
Proof.
  destruct c as [[] [] [] [] [] [] [] []]; vm_compute; intros H;
    try discriminate H; repeat split.
Qed.

Lemma scan_digits_todos (ds : list ascii) (b : bool) :
  forallb isdigit ds = true -> scan_digits b ds = (ds, []).
Proof.
  revert b. induction ds as [|x ds IH]; intros b H; [reflexivity|].
  cbn [forallb] in H. apply andb_true_iff in H. destruct H as [Hx Hds].
  cbn [scan_digits]. now rewrite Hx, (IH true Hds).
Qed.

Lemma scan_digits_hasta (ds : list ascii) (c : ascii) (resto : list ascii)
  (b : bool) :
  forallb isdigit ds = true -> isdigit c = false -> Ascii.eqb c "_" = false ->
  scan_digits b (ds ++ c :: resto) = (ds, c :: resto).
Proof.
  intros Hds Hc Hu. revert b.
  induction ds as [|x ds IH]; intros b.
  - cbn [app scan_digits]. rewrite Hc, Hu, andb_false_r. reflexivity.
  - cbn [forallb] in Hds. apply andb_true_iff in Hds. destruct Hds as [Hx Hds].
    cbn [app scan_digits]. now rewrite Hx, (IH Hds true).
Qed.

Lemma decimal_value_no_negativo (m : N) (e : Z) : (0 <= decimal_value m e)%Q.
Proof.
  unfold decimal_value. rewrite Qred_correct.
  destruct (0 <=? e)%Z eqn:He; unfold Qle; cbn [Qnum Qden Z.mul];
    rewrite Z.mul_1_r.
  - apply Z.leb_le in He.
    apply Z.mul_nonneg_nonneg; [apply N2Z.is_nonneg|].
    now apply Z.pow_nonneg.
  - apply N2Z.is_nonneg.
Qed.

Lemma float_body_decimal (neg : bool) (ds : list ascii) (d1 d2 : ascii) :
  forallb isdigit ds = true -> isdigit d1 = true -> isdigit d2 = true ->
  float_body neg (ds ++ ["."%char; d1; d2])
  = Some (de_magnitud neg (valor_decimal ds d1 d2)).
Proof.
  intros Hds H1 H2. unfold float_body.
  assert (Hlow : forall low : string,
             (String.eqb low "INF" || String.eqb low "INFINITY")%bool = false
             /\ String.eqb low "NAN" = false
             \/ low <> upper (string_of_list_ascii (ds ++ ["."%char; d1; d2]))).
  { intros low.
    destruct (ds ++ ["."%char; d1; d2]) as [|c0 cs] eqn:Hcs;
      [destruct ds; discriminate Hcs|].
    assert (Hc0 : monto_char c0 = true).
    { destruct ds as [|x ds']; cbn [app] in Hcs; injection Hcs as <- _;
        [reflexivity|].
      cbn [forallb] in Hds. apply andb_true_iff in Hds.
      now apply isdigit_facts. }
    pose proof (monto_char_facts c0 Hc0)
      as (_ & _ & _ & _ & _ & HI & HN & _ & Hup).
    cbn [string_of_list_ascii upper]. rewrite Hup. cbn [String.append].
    destruct low as [|l0 low']; [left; split; reflexivity|].
    destruct (Ascii.eqb_spec l0 c0) as [->|Hne].
    - left. cbn [String.eqb]. now rewrite HI, HN.
    - right. congruence. }
  destruct (Hlow (upper (string_of_list_ascii (ds ++ ["."%char; d1; d2]))))
    as [[-> ->]|Hne]; [|congruence].
  unfold scan_number.
  assert (Hdot : isdigit "." = false) by reflexivity.
  rewrite (scan_digits_hasta ds "." [d1; d2] false Hds Hdot eq_refl).
  rewrite (scan_digits_todos [d1; d2] false)
    by (cbn [forallb]; now rewrite H1, H2).
  cbn [List.length]. rewrite Nat.add_comm. cbn [Nat.add Nat.eqb].
  reflexivity.
Qed.

(** [float] on an optional minus sign, digits, a dot and two digits. *)
Lemma float_de_decimal (s : string) (neg : bool) (ds : list ascii)
  (d1 d2 : ascii) :
  chars s = (if neg then ["-"%char] else []) ++ ds ++ ["."%char; d1; d2] ->
  forallb isdigit ds = true -> isdigit d1 = true -> isdigit d2 = true ->
  float s = Some (de_magnitud neg (valor_decimal ds d1 d2)).
Proof.
  intros Hs Hds H1 H2.
  assert (Hblancos : Forall (fun c => isspace c = false) (chars s)).
  { rewrite Hs. apply Forall_app. split; [destruct neg; repeat constructor|].
    apply Forall_app. split.
    - apply Forall_forall. intros x Hx. rewrite forallb_forall in Hds.
      now apply monto_char_facts, isdigit_facts, Hds.
    - repeat constructor; try reflexivity;
        now apply monto_char_facts, isdigit_facts. }
  unfold float. rewrite (strip_sin_blancos s Hblancos), Hs.
  destruct neg; cbn [app].
  - cbn [split_sign Ascii.eqb Bool.eqb]. now apply float_body_decimal.
  - destruct (ds ++ ["."%char; d1; d2]) as [|c0 cs] eqn:Hcs;
      [destruct ds; discriminate Hcs|].
    assert (Hc0 : monto_char c0 = true).
    { destruct ds as [|x ds']; cbn [app] in Hcs; injection Hcs as <- _;
        [reflexivity|].
      cbn [forallb] in Hds. apply andb_true_iff in Hds.
      now apply isdigit_facts. }
    pose proof (monto_char_facts c0 Hc0) as (_ & _ & _ & Hm & Hp & _).
    cbn [split_sign]. rewrite Hm, Hp, <- Hcs.
    now apply float_body_decimal.
Qed.

Lemma valor_decimal_no_negativo (ds : list ascii) (d1 d2 : ascii) :
  (0 <= valor_decimal ds d1 d2)%Q.
Proof. apply decimal_value_no_negativo. Qed.

End Py_Props.

(* ================================================================= *)
(** ** The positional extractor *)

Module BBVA_Props.
Import BBVA Py_Props Predicados.

(** *** Amounts *)

(** What the normalizers need to know of a token of [PATRON_MONTO]. *)
Lemma token_facts (t : string) :
  coincide PATRON_MONTO t = true ->
  exists ds d1 d2,
    chars (Py.replace "," "" t) = ds ++ ["."%char; d1; d2]
    /\ forallb Py.isdigit ds = true
    /\ Py.isdigit d1 = true /\ Py.isdigit d2 = true
    /\ Forall (fun c => monto_char c = true) (chars t)
    /\ Py.contains "." t = true
    /\ t <> "".
Proof.
  intros H. apply Re_Props.patron_monto_forma in H.
  destruct H as (ds & d1 & d2 & Hs & Hne & Hds & H1 & H2).
  pose proof (isdigit_facts d1 H1) as (Hm1 & Hc1 & _).
  pose proof (isdigit_facts d2 H2) as (Hm2 & Hc2 & _).
  set (sin_coma := fun x : ascii => negb (Ascii.eqb x ",")).
  exists (filter sin_coma ds), d1, d2.
  split; [|split; [|split; [exact H1|split; [exact H2|split; [|split]]]]].
  - rewrite replace_borra, Hs, filter_app. f_equal.
    cbn [filter]. now rewrite Hc1, Hc2.
  - apply forallb_forall. intros x Hx. apply filter_In in Hx.
    destruct Hx as [Hx Hnc]. rewrite forallb_forall in Hds.
    specialize (Hds x Hx). unfold digito_o_coma, Re.d in Hds.
    unfold sin_coma in Hnc. apply negb_true_iff in Hnc.
    now rewrite Hnc, orb_false_r in Hds.
  - rewrite Hs. apply Forall_app. split.
    + apply Forall_forall. intros x Hx.
      rewrite forallb_forall in Hds. specialize (Hds x Hx).
      unfold digito_o_coma, Re.d in Hds. unfold monto_char.
      now rewrite Hds.
    + repeat constructor; assumption.
  - rewrite contains_caracter, Hs, existsb_app.
    cbn [existsb Ascii.eqb Bool.eqb andb]. now rewrite orb_true_r.
  - intros ->. destruct ds; discriminate Hs.
Qed.

(** On a token of [PATRON_MONTO], with or without a minus sign in front,
    both normalizers answer with the float nearest to the value of the
    digits; the normalizer of the line-pattern variant gives it the sign of
    the text, the normalizer of the positional variant never does. *)
Lemma limpiar_monto_con_signo (neg : bool) (t : string) :
  coincide PATRON_MONTO t = true ->
  exists q,
    (0 <= q)%Q
    /\ _limpiar_monto (con_signo neg t) = Some (Py.de_magnitud false q)
    /\ BBVATC._limpiar_monto (con_signo neg t) = Some (Py.de_magnitud neg q).
Proof.
  intros H. destruct (token_facts t H)
    as (ds & d1 & d2 & Hchars & Hds & H1 & H2 & Hall & Hdot & Hne).
  exists (valor_decimal ds d1 d2).
  split; [apply valor_decimal_no_negativo|].
  set (s := con_signo neg t).
  assert (Hs : chars s = (if neg then ["-"%char] else []) ++ chars t)
    by (unfold s, con_signo; now destruct neg).
  assert (Hsall : Forall (fun c => Py.isspace c = false /\ Ascii.eqb c "$" = false
                                   /\ Ascii.eqb c " " = false) (chars s)).
  { rewrite Hs. apply Forall_app. split; [destruct neg; repeat constructor|].
    eapply Forall_impl; [|exact Hall]. intros c Hc.
    apply monto_char_facts in Hc. tauto. }
  assert (Hstrip : Py.strip s = s).
  { apply strip_sin_blancos. eapply Forall_impl; [|exact Hsall].
    intros c Hc. apply Hc. }
  assert (Hdolar : Py.replace "$" "" s = s).
  { apply replace_ausente. eapply Forall_impl; [|exact Hsall].
    intros c Hc. apply Hc. }
  assert (Hesp : Py.replace " " "" s = s).
  { apply replace_ausente. eapply Forall_impl; [|exact Hsall].
    intros c Hc. apply Hc. }
  assert (Hsdot : Py.contains "." s = true).
  { unfold s, con_signo. destruct neg; [|exact Hdot].
    cbn [Py.contains]. rewrite Hdot. apply orb_true_r. }
  assert (Hcoma : Py.replace "," "" s = con_signo neg (Py.replace "," "" t))
    by (unfold s, con_signo; now destruct neg).
  assert (Hmenos : Forall (fun x => Ascii.eqb x "-" = false)
                          (chars (Py.replace "," "" t))).
  { rewrite Hchars. apply Forall_app. split.
    - apply Forall_forall. intros x Hx. rewrite forallb_forall in Hds.
      now apply monto_char_facts, isdigit_facts, Hds.
    - repeat constructor; try reflexivity;
        now apply monto_char_facts, isdigit_facts. }
  assert (Hfloat : forall b,
             Py.float (con_signo b (Py.replace "," "" t))
             = Some (Py.de_magnitud b (valor_decimal ds d1 d2))).
  { intros b. apply float_de_decimal; try assumption.
    unfold con_signo. destruct b; cbn [list_ascii_of_string app];
      now rewrite Hchars. }
  split.
  - unfold _limpiar_monto. rewrite Hstrip, Hdolar, Hesp.
    assert (Hvacio : (String.eqb s "" || String.eqb s "-")%bool = false).
    { unfold s, con_signo. destruct neg.
      - cbn [String.eqb Ascii.eqb Bool.eqb andb orb].
        destruct t; [congruence|reflexivity].
      - destruct t as [|c t']; [congruence|].
        cbn [list_ascii_of_string] in Hall. apply Forall_inv in Hall.
        apply monto_char_facts in Hall.
        destruct Hall as (_ & _ & _ & Hm & _).
        cbn [String.eqb]. now rewrite Hm. }
    rewrite Hvacio, (rama_con_punto s Hsdot), Hcoma.
    unfold con_signo at 1 2. destruct neg.
    + cbn [Py.count Ascii.eqb Bool.eqb andb]. rewrite (count_ausente _ _ Hmenos).
      cbn [Nat.add Nat.eqb andb].
      assert (Hpre : Py.startswith (String "-" (Py.replace "," "" t)) "-" = true).
      { unfold Py.startswith. cbn [String.prefix].
        destruct (ascii_dec "-" "-") as [_|Hn]; [|congruence].
        now destruct (Py.replace "," "" t). }
      rewrite Hpre. cbn [con_signo Py.replace Ascii.eqb Bool.eqb andb].
      cbn [String.append]. rewrite (replace_ausente _ _ _ Hmenos).
      apply (Hfloat false).
    + rewrite (count_ausente _ _ Hmenos). cbn [Nat.eqb andb].
      apply (Hfloat false).
  - unfold BBVATC._limpiar_monto. rewrite Hstrip, Hdolar, Hesp.
    assert (Hvacio : Py.is_empty s = false).
    { unfold s, con_signo. destruct neg; [reflexivity|].
      destruct t; [congruence|reflexivity]. }
    rewrite Hvacio, (rama_con_punto s Hsdot), Hcoma. apply Hfloat.
Qed.

Lemma de_magnitud_no_negativo (q : Q) :
  no_negativo (Some (Py.de_magnitud false q)).
Proof.
  destruct (Binary64_Props.de_magnitud_casos false q) as [->|(r & Hr & ->)];
    [exact I|exact Hr].
Qed.

(** On a token of [PATRON_MONTO] the normalizer answers, with a number that
    is not below zero. *)
Lemma limpiar_monto_de_patron (txt : string) :
  coincide PATRON_MONTO txt = true ->
  exists x, _limpiar_monto txt = Some x /\ no_negativo (Some x).
Proof.
  intros H. destruct (limpiar_monto_con_signo false txt H) as (q & Hq & Hb & _).
  exists (Py.de_magnitud false q). split; [exact Hb|].
  apply de_magnitud_no_negativo.
Qed.

(** A token of [PATRON_MONTO] holds no minus sign. *)
Lemma patron_monto_sin_menos (txt : string) :
  coincide PATRON_MONTO txt = true -> Py.count "-" txt = 0%nat.
Proof.
  intros H. apply Re_Props.patron_monto_forma in H.
  destruct H as (ds & d1 & d2 & Hs & _ & Hds & H1 & H2).
  apply count_ausente. rewrite Hs. apply Forall_app. split.
  - apply Forall_forall. intros x Hx.
    rewrite forallb_forall in Hds. specialize (Hds x Hx).
    unfold digito_o_coma, Re.d in Hds.
    apply (monto_char_facts x). unfold monto_char. now rewrite Hds.
  - repeat constructor; try reflexivity;
      now apply monto_char_facts, isdigit_facts.
Qed.

Lemma asignar_monto_ok (cc : list (string * Py.pyfloat)) (ms : Montos) (w : Word) :
  montos_ok ms -> montos_ok (asignar_monto cc ms w).
Proof.
  intros (Hc & Ha & Ho & Hl). unfold asignar_monto.
  destruct (coincide PATRON_MONTO (text w)) eqn:Hm;
    [|repeat split; assumption].
  destruct (limpiar_monto_de_patron _ Hm) as (x & -> & Hv).
  destruct (_columna_por_x (centro w) cc) as [col|];
    [|repeat split; assumption].
  destruct (String.eqb col "CARGOS"); [repeat split; assumption|].
  destruct (String.eqb col "ABONOS"); [repeat split; assumption|].
  destruct (String.eqb col "OPERACION"); [repeat split; assumption|].
  destruct (String.eqb col "LIQUIDACION"); repeat split; assumption.
Qed.

Lemma montos_de_ok (cc : list (string * Py.pyfloat)) (fila : list Word) :
  montos_ok (montos_de cc fila).
Proof.
  unfold montos_de.
  assert (H : forall ms, montos_ok ms ->
                montos_ok (fold_left (asignar_monto cc) fila ms)).
  { induction fila as [|w fila IH]; intros ms Hms; [exact Hms|].
    cbn [fold_left]. now apply IH, asignar_monto_ok. }
  apply H. repeat split.
Qed.

Lemma modificar_Forall {A} (P : A -> Prop) (f : A -> A) (i : nat) (l : list A) :
  (forall x, P x -> P (f x)) -> Forall P l -> Forall P (modificar i f l).
Proof.
  intros Hf Hl. revert i.
  induction Hl as [|x l Hx Hl IH]; intros i; [destruct i; constructor|].
  destruct i; cbn [modificar]; constructor; auto.
Qed.

Section Paginas.
Variable doc : Documento.
Variable anio : option string.

Lemma procesar_fila_ok (num_pagina : nat) (cc : list (string * Py.pyfloat))
  (fila : list Word) (movs movs' : list Movimiento) (idx idx' : option nat) :
  Forall montos_no_negativos movs ->
  procesar_fila doc anio num_pagina cc fila movs idx = Some (movs', idx') ->
  Forall montos_no_negativos movs'.
Proof.
  intros Hm. unfold procesar_fila.
  destruct (Py.is_empty (texto_de_fila fila));
    [intros H; injection H as <- _; exact Hm|].
  destruct (es_total (texto_de_fila fila)); [discriminate|].
  cbn [negb andb].
  destruct (idx_fechas fila) as [|i1 [|i2 r]].
  3:{ intros H; injection H as <- _. apply Forall_app. split; [exact Hm|].
      constructor; [|constructor].
      unfold montos_no_negativos, movimiento_de_fila.
      cbn [cargos abonos saldo_operacion saldo_liquidacion].
      apply montos_de_ok. }
  all: destruct idx as [i|]; [|intros H; injection H as <- _; exact Hm];
    destruct (negb (Py.startswith (texto_de_fila fila) "FECHA SALDO"));
    intros H; injection H as <- _; [|exact Hm];
    apply modificar_Forall; [|exact Hm];
    intros x Hx; exact Hx.
Qed.

Lemma procesar_filas_ok (num_pagina : nat) (cc : list (string * Py.pyfloat))
  (filas : list (list Word)) :
  forall (movs : list Movimiento) (idx : option nat),
    Forall montos_no_negativos movs ->
    Forall montos_no_negativos
           (procesar_filas doc anio num_pagina cc filas movs idx).
Proof.
  induction filas as [|fila filas IH]; intros movs idx Hm; [exact Hm|].
  cbn [procesar_filas].
  destruct (procesar_fila doc anio num_pagina cc fila movs idx)
    as [[movs' idx']|] eqn:Hf; [|exact Hm].
  eapply IH, procesar_fila_ok; eassumption.
Qed.

Lemma procesar_pagina_ok (num_pagina : nat) (page : Pagina)
  (movs : list Movimiento) :
  Forall montos_no_negativos movs ->
  Forall montos_no_negativos (procesar_pagina doc anio num_pagina page movs).
Proof.
  intros Hm. unfold procesar_pagina.
  destruct (_ && _)%bool; [exact Hm|].
  destruct (_detectar_columnas_montos _ _) as [[|c cc]|]; try exact Hm.
  now apply procesar_filas_ok.
Qed.

Lemma procesar_paginas_ok (pages : list Pagina) :
  forall (num_pagina : nat) (movs : list Movimiento),
    Forall montos_no_negativos movs ->
    Forall montos_no_negativos
           (procesar_paginas doc anio num_pagina pages movs).
Proof.
  induction pages as [|page pages IH]; intros n movs Hm; [exact Hm|].
  cbn [procesar_paginas]. now apply IH, procesar_pagina_ok.
Qed.

End Paginas.

(** C10: in every record the positional extractor returns, the charge, the
    credit and the two balances are each absent or a number that is not
    below zero: a float without the sign bit, finite or, for a token whose
    value is beyond the largest float, the infinity. *)
Theorem montos_nunca_negativos (doc : Documento) (pages : list Pagina)
  (movs : list Movimiento) :
  parse_movimientos doc pages = Some movs ->
  Forall montos_no_negativos movs.
Proof.
  unfold parse_movimientos. destruct pages as [|portada resto]; [discriminate|].
  intros H. injection H as <-.
  apply (procesar_paginas_ok doc _ (portada :: resto) 1%nat []). constructor.
Qed.

(** *** Continuation rows *)

Lemma modificar_app_r {A} (f : A -> A) (pre l : list A) (j : nat) :
  modificar (List.length pre + j) f (pre ++ l) = pre ++ modificar j f l.
Proof.
  induction pre as [|x pre IH]; [reflexivity|].
  cbn [List.length Nat.add app modificar]. now rewrite IH.
Qed.

Section Continuidad.
Variable doc : Documento.
Variable anio : option string.
Variable num_pagina : nat.

(** A row does to a list that follows the records [pre] what it does to the
    list alone: it never reaches into [pre]. *)
Lemma procesar_fila_desplaza (cc : list (string * Py.pyfloat)) (fila : list Word)
  (pre movs : list Movimiento) (idx : option nat) :
  procesar_fila doc anio num_pagina cc fila (pre ++ movs)
                (desplazar (List.length pre) idx)
  = match procesar_fila doc anio num_pagina cc fila movs idx with
    | Some (movs', idx') =>
        Some (pre ++ movs', desplazar (List.length pre) idx')
    | None => None
    end.
Proof.
  unfold procesar_fila.
  destruct (Py.is_empty (texto_de_fila fila)); [reflexivity|].
  destruct (es_total (texto_de_fila fila)); [reflexivity|].
  cbn [negb andb].
  destruct (idx_fechas fila) as [|i1 [|i2 r]].
  3:{ rewrite <- app_assoc. f_equal. f_equal.
      cbn [desplazar option_map]. f_equal.
      rewrite !length_app. cbn [List.length]. lia. }
  all: destruct idx as [i|]; cbn [desplazar option_map]; [|reflexivity];
    destruct (negb (Py.startswith (texto_de_fila fila) "FECHA SALDO"));
    [|reflexivity]; now rewrite modificar_app_r.
Qed.

Lemma procesar_filas_desplaza (cc : list (string * Py.pyfloat))
  (filas : list (list Word)) (pre : list Movimiento) :
  forall (movs : list Movimiento) (idx : option nat),
    procesar_filas doc anio num_pagina cc filas (pre ++ movs)
                   (desplazar (List.length pre) idx)
    = pre ++ procesar_filas doc anio num_pagina cc filas movs idx.
Proof.
  induction filas as [|fila filas IH]; intros movs idx; [reflexivity|].
  cbn [procesar_filas]. rewrite procesar_fila_desplaza.
  destruct (procesar_fila doc anio num_pagina cc fila movs idx)
    as [[movs' idx']|]; [apply IH|reflexivity].
Qed.



End Continuidad.

(** *** The column resolver *)

Lemma candidato_leb_iff (a b : Q * list (string * Py.pyfloat)) :
  candidato_leb a b = true <-> (fst a <= fst b)%Q.
Proof.
  unfold candidato_leb, Qlt_bool. rewrite negb_involutive.
  apply Qle_bool_iff.
Qed.

Lemma candidato_leb_total (a b : Q * list (string * Py.pyfloat)) :
  candidato_leb a b = true \/ candidato_leb b a = true.
Proof.
  rewrite !candidato_leb_iff.
  destruct (Qlt_le_dec (fst b) (fst a)) as [H|H];
    [right; now apply Qlt_le_weak|now left].
Qed.

Lemma candidato_leb_trans (a b c : Q * list (string * Py.pyfloat)) :
  candidato_leb a b = true -> candidato_leb b c = true ->
  candidato_leb a c = true.
Proof. rewrite !candidato_leb_iff. apply Qle_trans. Qed.

Lemma dict_get_set {V} (k k' : string) (v : V) (dc : list (string * V)) :
  dict_get k (dict_set k' v dc)
  = if String.eqb k' k then Some v else dict_get k dc.
Proof.
  induction dc as [|[k0 v0] dc IH]; cbn [dict_set dict_get]; [reflexivity|].
  destruct (String.eqb k0 k') eqn:H0; cbn [dict_get].
  - apply String.eqb_eq in H0. subst k0.
    now destruct (String.eqb k' k).
  - rewrite IH. destruct (String.eqb k0 k) eqn:H1; [|reflexivity].
    apply String.eqb_eq in H1. subst k0. now rewrite String.eqb_sym, H0.
Qed.

(** The centre kept for a label is that of a word of the group that bears
    the label, and a label borne by a word of the group has a centre. *)
Lemma centros_get (k : string) (l : list Hit) :
  forall (cs : list (string * Py.pyfloat)) (x : Py.pyfloat),
    dict_get k (fold_left (fun cs w => dict_set (_k w) (centro (hw w)) cs) l cs)
    = Some x ->
    dict_get k cs = Some x
    \/ exists w, In w l /\ _k w = k /\ x = centro (hw w).
Proof.
  induction l as [|w l IH]; intros cs x H; [now left|].
  cbn [fold_left] in H. apply IH in H. destruct H as [H|(w' & Hw & Hk & Hx)].
  - rewrite dict_get_set in H.
    destruct (String.eqb (_k w) k) eqn:Hk; [|now left].
    right. exists w. apply String.eqb_eq in Hk.
    repeat split; [now left|exact Hk|congruence].
  - right. exists w'. repeat split; [now right|exact Hk|exact Hx].
Qed.

Lemma centros_definido (k : string) (l : list Hit) :
  forall (cs : list (string * Py.pyfloat)),
    dict_get k cs <> None \/ (exists w, In w l /\ _k w = k) ->
    dict_get k (fold_left (fun cs w => dict_set (_k w) (centro (hw w)) cs) l cs)
    <> None.
Proof.
  induction l as [|w l IH]; intros cs H.
  - destruct H as [H|(w & [] & _)]. exact H.
  - cbn [fold_left]. apply IH. rewrite dict_get_set.
    destruct (String.eqb (_k w) k) eqn:Hk; [left; discriminate|].
    destruct H as [H|(w' & [<-|Hw] & Hk')].
    + now left.
    + apply String.eqb_neq in Hk. contradiction.
    + right. now exists w'.
Qed.

Lemma completo_centros (g : Grupo) (o : string) :
  completo g = true -> In o objetivos ->
  exists w, In w (miembros g) /\ _k w = o
            /\ dict_get o (centros g) = Some (centro (hw w)).
Proof.
  intros Hc Ho. unfold completo in Hc. rewrite forallb_forall in Hc.
  specialize (Hc o Ho). unfold str_in in Hc.
  apply existsb_exists in Hc. destruct Hc as (k & Hk & Heq).
  apply String.eqb_eq in Heq. subst k.
  apply in_map_iff in Hk. destruct Hk as (w0 & Hk0 & Hw0).
  unfold centros.
  destruct (dict_get o (fold_left
              (fun cs w => dict_set (_k w) (centro (hw w)) cs)
              (miembros g) [])) as [x|] eqn:Hget.
  - apply centros_get in Hget.
    destruct Hget as [Hget|(w & Hw & Hkw & ->)]; [discriminate|].
    now exists w.
  - exfalso. revert Hget. apply centros_definido. right. now exists w0.
Qed.

(** C2: the resolver answers with the centres of a group of header words
    that bears the four labels and whose vertical offset is the smallest
    among the groups that bear the four; each centre is that of a word of
    the group with that label; groups that lack a label are never chosen,
    and when every group lacks one the layout is undetected. *)
Theorem detectar_elige_la_fila_superior (ws : list Word) (tol_fila : Q) :
  match _detectar_columnas_montos ws tol_fila with
  | None =>
      forall g, In g (grupos_de ws tol_fila) -> completo g = false
  | Some col_centers =>
      exists g,
        In g (grupos_de ws tol_fila) /\ completo g = true
        /\ col_centers = centros g
        /\ (forall g', In g' (grupos_de ws tol_fila) -> completo g' = true ->
                       (top (hw (fst g)) <= top (hw (fst g')))%Q)
        /\ (forall o, In o objetivos ->
              exists w, In w (miembros g) /\ _k w = o
                        /\ dict_get o col_centers = Some (centro (hw w)))
  end.
Proof.
  unfold _detectar_columnas_montos.
  destruct (filtrar_hits ws) as [|h hs] eqn:Hhits.
  - unfold grupos_de. rewrite Hhits. intros g [].
  - destruct (ordenar candidato_leb (candidatos_de (grupos_de ws tol_fila)))
      as [|c r] eqn:Hord.
    + intros g Hg. destruct (completo g) eqn:Hc; [|reflexivity].
      assert (Hin : In (top (hw (fst g)), centros g)
                       (ordenar candidato_leb
                                (candidatos_de (grupos_de ws tol_fila)))).
      { apply ordenar_In. unfold candidatos_de. apply in_map_iff.
        exists g. split; [reflexivity|]. apply filter_In. now split. }
      rewrite Hord in Hin. destruct Hin.
    + assert (Hc : In c (candidatos_de (grupos_de ws tol_fila))).
      { apply (ordenar_In candidato_leb). rewrite Hord. now left. }
      unfold candidatos_de in Hc. apply in_map_iff in Hc.
      destruct Hc as (g & <- & Hg). apply filter_In in Hg.
      destruct Hg as [Hg Hcomp].
      exists g. split; [exact Hg|]. split; [exact Hcomp|].
      split; [reflexivity|]. split.
      * intros g' Hg' Hcomp'.
        pose proof (ordenar_primero_minimo candidato_leb candidato_leb_total
                      candidato_leb_trans _ _ _ Hord
                      (top (hw (fst g')), centros g')) as Hmin.
        apply candidato_leb_iff in Hmin; [exact Hmin|].
        unfold candidatos_de. apply in_map_iff.
        exists g'. split; [reflexivity|]. apply filter_In. now split.
      * intros o Ho. now apply completo_centros.
Qed.

(** Whenever the resolver answers, each of the four labels has a centre. *)
Lemma detectar_tiene_columnas (ws : list Word) (tol_fila : Q)
  (col_centers : list (string * Py.pyfloat)) (o : string) :
  _detectar_columnas_montos ws tol_fila = Some col_centers ->
  In o objetivos -> dict_get o col_centers <> None.
Proof.
  unfold _detectar_columnas_montos.
  destruct (filtrar_hits ws) as [|h hs]; [discriminate|].
  destruct (ordenar candidato_leb (candidatos_de (grupos_de ws tol_fila)))
    as [|c r] eqn:Hord; [discriminate|].
  intros H Ho. injection H as <-.
  assert (Hc : In c (candidatos_de (grupos_de ws tol_fila))).
  { apply (ordenar_In candidato_leb). rewrite Hord. now left. }
  unfold candidatos_de in Hc. apply in_map_iff in Hc.
  destruct Hc as (g & <- & Hg). apply filter_In in Hg.
  destruct (completo_centros g o (proj2 Hg) Ho) as (w & _ & _ & Hget).
  cbn [snd]. congruence.
Qed.

End BBVA_Props.

(* ================================================================= *)
(** ** The properties on the example statements *)

Module Casos.
Import Ejemplos.

(** C1 on the payment line: the amount -12,432.34 is read as the float
    nearest to it, -3417375597616169 / 2^38; the credit holds that
    magnitude without the sign and the charge is absent. *)
Lemma cargo_o_abono_segun_signo_pago :
  BBVATC._limpiar_monto (BBVATC.monto_txt campos_pago)
  = Some (Py.PyFin true (3417375597616169 # 274877906944))
  /\ exists mv,
       BBVATC.procesar_linea BBVATC.to_datetime_ref doc_tc 1 linea_pago
       = BBVATC.Emitido mv
       /\ abonos mv = Some (Py.PyFin false (3417375597616169 # 274877906944))
       /\ cargos mv = None.
Proof.
  assert (Ha : BBVATC._limpiar_monto (BBVATC.monto_txt campos_pago)
               = Some (Py.PyFin true (3417375597616169 # 274877906944)))
    by (vm_compute; reflexivity).
  split; [exact Ha|].
  destruct (BBVATC_Props.cargo_o_abono_segun_signo
              BBVATC.to_datetime_ref doc_tc 1%nat linea_pago campos_pago
              (Py.PyFin true (3417375597616169 # 274877906944))
              eq_refl eq_refl eq_refl Ha) as (mv & Hmv & Hpos & _).
  exists mv. split; [exact Hmv|]. apply Hpos. reflexivity.
Defined.

(** C5 on three pages, the second of which holds the stop marker between two
    transaction lines. *)
Lemma corte_detiene_el_documento_tres_paginas :
  BBVATC.lineas pagina_tc_2 = [linea_compra] ++ linea_corte :: [linea_posterior]
  /\ BBVATC.es_corte (Py.upper linea_corte) = true
  /\ BBVATC.extraer BBVATC.to_datetime_ref doc_tc
       ([pagina_tc_1] ++ pagina_tc_2 :: [pagina_tc_3])
     = BBVATC.procesar_paginas BBVATC.to_datetime_ref doc_tc 1
         (map BBVATC.lineas [pagina_tc_1] ++ [[linea_compra]]) []
  /\ BBVATC.parse_movimientos BBVATC.to_datetime_ref doc_tc
       ([pagina_tc_1] ++ pagina_tc_2 :: [pagina_tc_3])
     = BBVATC.tabla BBVATC.to_datetime_ref
         (BBVATC.procesar_paginas BBVATC.to_datetime_ref doc_tc 1
            (map BBVATC.lineas [pagina_tc_1] ++ [[linea_compra]]) []).
Proof.
  split; [vm_compute; reflexivity|].
  split; [vm_compute; reflexivity|].
  apply (BBVATC_Props.corte_detiene_el_documento
           BBVATC.to_datetime_ref doc_tc [pagina_tc_1] [pagina_tc_3]
           pagina_tc_2 [linea_compra] [linea_posterior] linea_corte);
    vm_compute; reflexivity.
Defined.

(** C6, as the specification states it, fails: neither date of this line
    can be read, and the emitted record holds both as the raw text; in the
    returned frame the operation date is still the raw text, and only the
    settlement date column is null. *)
Lemma fecha_ilegible_no_es_nula :
  BBVATC._parse_fecha_tc BBVATC.to_datetime_ref "99/99/25" = None
  /\ BBVATC._parse_fecha_tc BBVATC.to_datetime_ref "98/98/25" = None
  /\ BBVATC.procesar_linea BBVATC.to_datetime_ref doc_tc 1 linea_fechas_malas
     = BBVATC.Emitido mov_fechas_malas
  /\ fecha_operacion mov_fechas_malas = "99/99/25"
  /\ fecha_liquidacion mov_fechas_malas = "98/98/25"
  /\ BBVATC.parse_movimientos BBVATC.to_datetime_ref doc_tc [linea_fechas_malas]
     = [BBVATC.mkFila None mov_fechas_malas].
Proof. repeat split; vm_compute; reflexivity. Qed.

(** C6, amended, on the same line. *)
Lemma fecha_ilegible_queda_cruda_ejemplo :
  exists c,
    BBVATC.coincidir linea_fechas_malas = Some c
    /\ (BBVATC._parse_fecha_tc BBVATC.to_datetime_ref (BBVATC.f1 c) = None ->
        fecha_operacion mov_fechas_malas = BBVATC.f1 c)
    /\ (BBVATC._parse_fecha_tc BBVATC.to_datetime_ref (BBVATC.f2 c) = None ->
        fecha_liquidacion mov_fechas_malas = BBVATC.f2 c)
    /\ forall r, In r (BBVATC.tabla BBVATC.to_datetime_ref [mov_fechas_malas]) ->
         BBVATC.fila_mov r = mov_fechas_malas
         /\ BBVATC.fila_fecha_liquidacion r
            = BBVATC.to_datetime_ref false (fecha_liquidacion mov_fechas_malas).
Proof.
  apply (BBVATC_Props.fecha_ilegible_queda_cruda
           BBVATC.to_datetime_ref doc_tc 1%nat linea_fechas_malas).
  vm_compute; reflexivity.
Defined.

(** C2 on a page that bears the four labels twice, at offsets 200 and 10:
    the centres returned are those of the row at 10. *)
Lemma detectar_elige_la_fila_superior_ejemplo :
  BBVA._detectar_columnas_montos (encabezado_totales ++ encabezado)
                                 BBVA.tol_fila_defecto
  = Some centros_encabezado
  /\ exists g,
       In g (BBVA.grupos_de (encabezado_totales ++ encabezado)
                            BBVA.tol_fila_defecto)
       /\ BBVA.completo g = true
       /\ centros_encabezado = BBVA.centros g
       /\ (forall g',
             In g' (BBVA.grupos_de (encabezado_totales ++ encabezado)
                                   BBVA.tol_fila_defecto) ->
             BBVA.completo g' = true ->
             (BBVA.top (BBVA.hw (fst g)) <= BBVA.top (BBVA.hw (fst g')))%Q)
       /\ (forall o, In o BBVA.objetivos ->
             exists w, In w (BBVA.miembros g) /\ BBVA._k w = o
                       /\ dict_get o centros_encabezado
                          = Some (BBVA.centro (BBVA.hw w))).
Proof.
  assert (Heq : BBVA._detectar_columnas_montos
                  (encabezado_totales ++ encabezado) BBVA.tol_fila_defecto
                = Some centros_encabezado)
    by (vm_compute; reflexivity).
  split; [exact Heq|].
  pose proof (BBVA_Props.detectar_elige_la_fila_superior
                (encabezado_totales ++ encabezado) BBVA.tol_fila_defecto) as H.
  rewrite Heq in H. exact H.
Defined.

(** C7 on a frame of two rows in order, the second without a date. *)
Lemma sort_values_orden_dos_filas :
  Sorted (fun a b => BBVATC.fila_leb a b = true) [fila_fechada; fila_sin_fecha]
  /\ BBVATC.sort_values [fila_fechada; fila_sin_fecha]
     = [fila_fechada; fila_sin_fecha].
Proof.
  assert (H : Sorted (fun a b => BBVATC.fila_leb a b = true)
                     [fila_fechada; fila_sin_fecha])
    by (repeat constructor).
  split; [exact H|].
  exact (proj1 (BBVATC_Props.sort_values_orden _) H).
Defined.

(** C10 on a one-page account statement. *)
Lemma montos_nunca_negativos_una_pagina :
  BBVA.parse_movimientos doc_cta [pagina_cta_1] = Some [mov_cta]
  /\ Forall Predicados.montos_no_negativos [mov_cta].
Proof.
  assert (H : BBVA.parse_movimientos doc_cta [pagina_cta_1] = Some [mov_cta])
    by (vm_compute; reflexivity).
  split; [exact H|].
  exact (BBVA_Props.montos_nunca_negativos _ _ _ H).
Defined.



End Casos.

(* ================================================================= *)
(** ** The rows of a page *)

Module Filas_Props.
Import BBVA Pred_Filas.

Lemma Qlt_bool_iff (a b : Q) : Qlt_bool a b = true <-> (a < b)%Q.
Proof.
  unfold Qlt_bool. rewrite negb_true_iff. split.
  - intros H. apply Qnot_le_lt. intros Hle.
    apply Qle_bool_iff in Hle. congruence.
  - intros H. destruct (Qle_bool b a) eqn:E; [|reflexivity].
    apply Qle_bool_iff in E. exfalso. exact (Qlt_not_le _ _ H E).
Qed.

Lemma Qlt_bool_false_iff (a b : Q) : Qlt_bool a b = false <-> (b <= a)%Q.
Proof.
  unfold Qlt_bool. rewrite negb_false_iff. apply Qle_bool_iff.
Qed.

Lemma agrupar_bucle_concat (tol : Q) (ws : list Word) :
  forall rows current ct,
    List.concat (agrupar_bucle tol ws rows current ct)
    = List.concat rows ++ current ++ ws.
Proof.
  induction ws as [|w ws IH]; intros rows current ct; cbn [agrupar_bucle].
  - destruct current as [|c cs]; [now rewrite app_nil_r|].
    rewrite concat_app. cbn [List.concat]. now rewrite !app_nil_r.
  - destruct ct as [ct|].
    + destruct (Py.ltb (Py.fin tol) (distancia_top (top w) ct)); rewrite IH.
      * rewrite concat_app. cbn [List.concat app]. now rewrite app_nil_r, <- app_assoc.
      * now rewrite <- app_assoc.
    + rewrite IH. now rewrite <- app_assoc.
Qed.

Lemma Sorted_snoc {A} (R : A -> A -> Prop) (l : list A) (x y : A) :
  Sorted R (l ++ [x]) -> R x y -> Sorted R ((l ++ [x]) ++ [y]).
Proof.
  induction l as [|a l IH]; intros Hs Hr; cbn [app] in *.
  - repeat constructor. exact Hr.
  - apply Sorted_inv in Hs. destruct Hs as [Hs Hhd].
    constructor; [now apply IH|].
    destruct l; cbn [app] in *; apply HdRel_inv in Hhd; now constructor.
Qed.

Lemma agrupar_bucle_ok (tol : Q) (ws : list Word) :
  StronglySorted (fun a b => (top a <= top b)%Q) ws ->
  forall rows current ct,
    estado_ok tol rows current ct ->
    match ct with
    | Some t => Forall (fun w => (t <= top w)%Q) ws
    | None => True
    end ->
    Forall (fila_anclada tol) (agrupar_bucle tol ws rows current ct)
    /\ Sorted (filas_separadas tol) (agrupar_bucle tol ws rows current ct).
Proof.
  induction ws as [|w ws IH]; intros Hs rows current ct (Hrows & Hct) Hle;
    cbn [agrupar_bucle].
  - destruct ct as [t|].
    + destruct Hct as (Hcur & (w0 & r & -> & _) & Hsep).
      split; [|exact Hsep].
      apply Forall_app. split; [exact Hrows|now constructor].
    + destruct Hct as [-> ->]. split; constructor.
  - apply StronglySorted_inv in Hs. destruct Hs as [Hs Hw].
    destruct ct as [t|].
    + destruct Hct as (Hcur & (w0 & r & -> & ->) & Hsep).
      pose proof (Forall_inv Hle) as Hw0. cbv beta in Hw0.
      destruct (Py.ltb (Py.fin tol) (distancia_top (top w) (top w0))) eqn:Hlt.
      * apply (IH Hs); [|exact Hw]. split.
        -- apply Forall_app. split; [exact Hrows|now constructor].
        -- split; [constructor|].
           split; [now exists w, []|].
           apply Sorted_snoc; [exact Hsep|].
           cbn [filas_separadas]. now split.
      * apply (IH Hs); [|exact (Forall_inv_tail Hle)].
        split; [exact Hrows|].
        split.
        -- cbn [app fila_anclada] in *. apply Forall_app. split; [exact Hcur|].
           constructor; [|constructor]. split; [exact Hw0|].
           unfold distancia_top in *.
           rewrite Binary64_Props.leb_ltb, Hlt;
             [reflexivity|apply Binary64_Props.abs_resta_fin_no_nan
             |discriminate].
        -- split; [now exists w0, (r ++ [w])|].
           clear -Hsep. induction rows as [|a rows IHr]; cbn [app] in *.
           ++ repeat constructor.
           ++ apply Sorted_inv in Hsep. destruct Hsep as [Hs Hhd].
              constructor; [now apply IHr|].
              destruct rows; cbn [app] in *; apply HdRel_inv in Hhd;
                constructor; exact Hhd.
    + destruct Hct as [-> ->]. apply (IH Hs); [|exact Hw].
      split; [constructor|].
      cbn [app]. split; [constructor|].
      split; [now exists w, []|]. repeat constructor.
Qed.

Lemma Sorted_impl {A} (R R' : A -> A -> Prop) (l : list A) :
  (forall x y, R x y -> R' x y) -> Sorted R l -> Sorted R' l.
Proof.
  intros H. induction 1 as [|x l Hs IH Hhd]; constructor; [exact IH|].
  destruct Hhd; constructor. now apply H.
Qed.

Lemma par_leb_total (p q : Q * Q) : par_leb p q = true \/ par_leb q p = true.
Proof.
  unfold par_leb.
  destruct (Qlt_bool (fst q) (fst p)) eqn:H1; cbn [orb negb].
  - right. apply Qlt_bool_iff in H1.
    assert (H2 : Qlt_bool (fst p) (fst q) = false).
    { apply Qlt_bool_false_iff. now apply Qlt_le_weak. }
    rewrite H2. cbn [orb].
    assert (H3 : Qeq_bool (fst p) (fst q) = false).
    { destruct (Qeq_bool (fst p) (fst q)) eqn:E; [|reflexivity].
      apply Qeq_bool_iff in E. rewrite E in H1.
      exfalso. exact (Qlt_irrefl _ H1). }
    now rewrite H3.
  - destruct (Qeq_bool (fst q) (fst p) && Qlt_bool (snd q) (snd p)) eqn:H2;
      [|now left].
    right. apply andb_true_iff in H2. destruct H2 as [He Hl].
    apply Qeq_bool_iff in He. apply Qlt_bool_iff in Hl.
    assert (H3 : Qlt_bool (fst p) (fst q) = false).
    { apply Qlt_bool_false_iff. rewrite He. apply Qle_refl. }
    assert (H4 : Qlt_bool (snd p) (snd q) = false).
    { apply Qlt_bool_false_iff. now apply Qlt_le_weak. }
    now rewrite H3, H4, andb_false_r.
Qed.

Lemma par_leb_top (a b : Word) :
  par_leb (clave_palabra a) (clave_palabra b) = true -> (top a <= top b)%Q.
Proof.
  unfold par_leb, clave_palabra. cbn [fst snd]. rewrite negb_true_iff.
  intros H. apply orb_false_iff in H. destruct H as [H _].
  now apply Qlt_bool_false_iff in H.
Qed.

(** Sorted by [(top, x0)], the words stand from the top of the page
    downwards. *)
Lemma ordenar_por_top {A} (f : A -> Word) (l : list A) :
  StronglySorted (fun a b => (top (f a) <= top (f b))%Q)
    (ordenar (fun a b => par_leb (clave_palabra (f a)) (clave_palabra (f b)))
             l).
Proof.
  apply Sorted_StronglySorted.
  - intros a b c. apply Qle_trans.
  - set (leb := fun a b : A =>
                  par_leb (clave_palabra (f a)) (clave_palabra (f b))).
    assert (Hs : Sorted (fun a b => leb a b = true) (ordenar leb l)).
    { apply ordenar_sorted. intros a b. apply par_leb_total. }
    induction Hs as [|x l' Hs IH Hhd]; constructor; [exact IH|].
    destruct Hhd as [|y l'' Hxy]; constructor. now apply par_leb_top.
Qed.

(** X1, [_agrupar_filas]: the rows, laid end to end, are the words of the page
    sorted by vertical offset and then by left edge.  So every word stands in
    exactly one row, the words keep that order within and across the rows,
    and no row is empty. *)
Theorem agrupar_filas_particion (ws : list Word) (tol : Q) :
  List.concat (_agrupar_filas ws tol) = ordenar palabra_leb ws
  /\ Permutation ws (List.concat (_agrupar_filas ws tol))
  /\ Sorted (fun a b => palabra_leb a b = true) (List.concat (_agrupar_filas ws tol))
  /\ Forall (fun r => r <> []) (_agrupar_filas ws tol).
Proof.
  assert (Hc : List.concat (_agrupar_filas ws tol) = ordenar palabra_leb ws).
  { unfold _agrupar_filas. now rewrite agrupar_bucle_concat. }
  split; [exact Hc|]. rewrite Hc.
  split; [apply ordenar_perm|].
  split; [apply ordenar_sorted; intros a b; apply par_leb_total|].
  unfold _agrupar_filas.
  destruct (agrupar_bucle_ok tol
              (ordenar (fun a b => par_leb (clave_palabra a) (clave_palabra b)) ws)
              (ordenar_por_top (fun w => w) ws) [] [] None) as [H _].
  { split; [constructor|]. now split. }
  { exact I. }
  eapply Forall_impl; [|exact H].
  intros r Hr ->. exact Hr.
Qed.

(** X2, [_agrupar_filas]: the rows are bands stacked down the page.  In
    every row each word stands at the vertical offset of the row's first
    word or below it, and the distance between the two, computed in binary64
    as the code computes it, is [tol] at most; the first word of a row
    stands below the first word of the row before it, at a computed distance
    above [tol]; and when [tol] is a float, as the argument of the function
    is, the first words of two rows that follow one another are more than
    [tol] apart as numbers. *)
Theorem agrupar_filas_tolerancia (ws : list Word) (tol : Q) :
  Forall (fila_anclada tol) (_agrupar_filas ws tol)
  /\ Sorted (filas_separadas tol) (_agrupar_filas ws tol)
  /\ (Py.es_doble tol = true ->
      Sorted (filas_distantes tol) (_agrupar_filas ws tol)).
Proof.
  assert (H : Forall (fila_anclada tol) (_agrupar_filas ws tol)
              /\ Sorted (filas_separadas tol) (_agrupar_filas ws tol)).
  { unfold _agrupar_filas. apply agrupar_bucle_ok.
    - exact (ordenar_por_top (fun w => w) ws).
    - split; [constructor|]. now split.
    - exact I. }
  destruct H as [H1 H2]. split; [exact H1|]. split; [exact H2|].
  intros Ht. eapply Sorted_impl; [|exact H2].
  intros [|a r1] [|b r2]; cbn [filas_separadas filas_distantes]; try tauto.
  intros [Hab Hlt]. unfold distancia_top in Hlt.
  apply (Binary64_Props.ltb_distancia tol _ _ Ht) in Hlt.
  rewrite Qabs_pos in Hlt by lra. lra.
Qed.

End Filas_Props.

(* ================================================================= *)
(** ** The nearest column *)

Module Columna_Props.
Import BBVA Predicados Filas_Props.

(** [min(..., key=...)]: the first of the smallest, when no key is a
    NaN. *)
Lemma min_por_primero {A} (key : A -> Py.pyfloat) (l : list A) :
  forall best,
    Forall (fun x => key x <> Py.PyNaN) (best :: l) ->
    exists l1 l2,
      best :: l = l1 ++ min_por key best l :: l2
      /\ Forall (fun x => Py.ltb (key (min_por key best l)) (key x) = true) l1
      /\ Forall (fun x => Py.ltb (key x) (key (min_por key best l)) = false)
                l2.
Proof.
  induction l as [|x l IH]; intros best Hn; cbn [min_por].
  - exists [], []. repeat split; constructor.
  - pose proof (Forall_inv Hn) as Hb.
    pose proof (Forall_inv (Forall_inv_tail Hn)) as Hx.
    pose proof (Forall_inv_tail (Forall_inv_tail Hn)) as Hl.
    destruct (Py.ltb (key x) (key best)) eqn:Hlt.
    + destruct (IH x) as (m1 & m2 & Heq & H1 & H2); [now constructor|].
      assert (Hr : key (min_por key x l) <> Py.PyNaN).
      { assert (Hin : In (min_por key x l) (x :: l))
          by (rewrite Heq; apply in_elt).
        assert (Hall : Forall (fun y => key y <> Py.PyNaN) (x :: l))
          by now constructor.
        rewrite Forall_forall in Hall. now apply Hall. }
      remember (min_por key x l) as r eqn:Er. clear Er.
      assert (Hrx : Py.ltb (key x) (key r) = false).
      { destruct m1 as [|y m1]; cbn [app] in Heq; injection Heq as Hy Hrest.
        - subst r. destruct (key x) as [|a|a m]; [congruence| |];
            cbn [Py.ltb]; [now destruct a|].
          apply negb_false_iff, Qle_bool_iff, Qle_refl.
        - subst y. apply Forall_inv in H1.
          destruct (Py.ltb (key x) (key r)) eqn:E; [|reflexivity].
          exfalso.
          destruct (key x) as [|a|a m], (key r) as [|b|b n];
            cbn [Py.ltb] in *; try congruence; try (now destruct a, b);
            try (now destruct a); try (now destruct b).
          apply negb_true_iff, Binary64_Props.Qle_bool_false in E, H1.
          exact (Qlt_irrefl _ (Qlt_trans _ _ _ E H1)). }
      exists (best :: m1), m2. rewrite Heq. split; [reflexivity|].
      split; [|exact H2]. constructor; [|exact H1].
      exact (Binary64_Props.ltb_menor_igual _ _ _ Hr Hx Hrx Hlt).
    + destruct (IH best) as (m1 & m2 & Heq & H1 & H2); [now constructor|].
      remember (min_por key best l) as r eqn:Er. clear Er.
      destruct m1 as [|y m1]; cbn [app] in Heq; injection Heq as Hy Hrest.
      * subst r l. exists [], (x :: m2). cbn [app].
        split; [reflexivity|]. split; [constructor|].
        constructor; [exact Hlt|exact H2].
      * subst y l. exists (best :: x :: m1), m2. cbn [app].
        split; [reflexivity|]. split; [|exact H2].
        pose proof (Forall_inv H1) as Hbr. cbv beta in Hbr.
        constructor; [exact Hbr|]. constructor; [|exact (Forall_inv_tail H1)].
        exact (Binary64_Props.ltb_igual_mayor _ _ _ Hx Hbr Hlt).
Qed.

(** X3, [_columna_por_x]: the column returned is nearest to [x] by the
    distance the code computes, [abs(x - c)] in binary64: every column
    before it in the dictionary is farther by that distance, no column after
    it is nearer.  This holds when no computed distance is a NaN, as is the
    case when [x] and the centres are finite.  There is no answer on an
    empty dictionary only. *)
Theorem columna_por_x_mas_cercana (x : Py.pyfloat)
  (col_centers : list (string * Py.pyfloat)) :
  forallb (fun kv => negb (Py.es_nan (distancia x (snd kv)))) col_centers
  = true ->
  match _columna_por_x x col_centers with
  | None => col_centers = []
  | Some col =>
      exists c antes despues,
        col_centers = antes ++ (col, c) :: despues
        /\ Forall (fun kv => Py.ltb (distancia x c) (distancia x (snd kv))
                             = true) antes
        /\ Forall (fun kv => Py.ltb (distancia x (snd kv)) (distancia x c)
                             = false) despues
  end.
Proof.
  intros Hn. unfold _columna_por_x.
  destruct col_centers as [|kv resto]; [reflexivity|].
  destruct (min_por_primero (fun kv => distancia x (snd kv)) resto kv)
    as (l1 & l2 & Heq & H1 & H2).
  { apply Forall_forall. intros y Hy. rewrite forallb_forall in Hn.
    specialize (Hn y Hy). cbv beta in *.
    destruct (distancia x (snd y)); [discriminate Hn|discriminate..]. }
  destruct (min_por (fun kv0 => distancia x (snd kv0)) kv resto) as [col c].
  exists c, l1, l2. cbn [fst snd] in *. now split.
Qed.

End Columna_Props.

(* ================================================================= *)
(** ** The keys of the column resolver *)

Module Resolver_Props.
Import BBVA Predicados Filas_Props BBVA_Props.

Lemma filtrar_hits_In (ws : list Word) (h : Hit) :
  In h (filtrar_hits ws) ->
  In (hw h) ws /\ _k h = norm (text (hw h)) /\ In (_k h) objetivos.
Proof.
  unfold filtrar_hits. rewrite in_flat_map. intros (w & Hw & Hh).
  destruct (str_in (norm (text w)) objetivos) eqn:Hin; [|destruct Hh].
  destruct Hh as [<-|[]]. cbn [hw _k]. repeat split; [exact Hw|].
  unfold str_in in Hin. apply existsb_exists in Hin.
  destruct Hin as (o & Ho & Heq). apply String.eqb_eq in Heq. now subst o.
Qed.

Lemma colocar_miembros (P : Hit -> Prop) (tol : Q) (w : Hit)
  (gs : list Grupo) :
  P w -> Forall (fun g => Forall P (miembros g)) gs ->
  Forall (fun g => Forall P (miembros g)) (colocar tol w gs).
Proof.
  intros Hw. induction gs as [|g gs IH]; intros Hgs; cbn [colocar].
  - repeat constructor. exact Hw.
  - pose proof (Forall_inv Hgs) as Hg. pose proof (Forall_inv_tail Hgs) as Ht.
    destruct (Py.leb _ _).
    + constructor; [|exact Ht]. unfold miembros in *. cbn [fst snd].
      apply Forall_inv in Hg as Hg0. constructor; [exact Hg0|].
      apply Forall_app. split; [exact (Forall_inv_tail Hg)|now constructor].
    + constructor; [exact Hg|now apply IH].
Qed.

Lemma agrupar_hits_miembros (P : Hit -> Prop) (tol : Q) (hits : list Hit) :
  Forall P hits ->
  Forall (fun g => Forall P (miembros g)) (agrupar_hits tol hits).
Proof.
  unfold agrupar_hits.
  assert (H : forall gs, Forall P hits ->
                Forall (fun g => Forall P (miembros g)) gs ->
                Forall (fun g => Forall P (miembros g))
                       (fold_left (fun grupos w => colocar tol w grupos) hits gs)).
  { induction hits as [|w hits IH]; intros gs Hh Hgs; [exact Hgs|].
    cbn [fold_left]. apply IH; [exact (Forall_inv_tail Hh)|].
    apply colocar_miembros; [exact (Forall_inv Hh)|exact Hgs]. }
  intros Hh. apply H; [exact Hh|constructor].
Qed.

Lemma grupos_de_miembros (ws : list Word) (tol : Q) :
  Forall (fun g => Forall (fun h => In (hw h) ws
                                    /\ _k h = norm (text (hw h))
                                    /\ In (_k h) objetivos)
                          (miembros g))
         (grupos_de ws tol).
Proof.
  unfold grupos_de. apply agrupar_hits_miembros, ordenar_Forall.
  apply Forall_forall. intros h. apply filtrar_hits_In.
Qed.

Lemma dict_set_keys {V} (k : string) (v : V) (dc : list (string * V)) :
  (forall k', In k' (map fst (dict_set k v dc)) <-> k' = k \/ In k' (map fst dc))
  /\ (NoDup (map fst dc) -> NoDup (map fst (dict_set k v dc))).
Proof.
  induction dc as [|[k0 v0] dc [IH1 IH2]]; cbn [dict_set map fst].
  - split; [intros k'; cbn [In]; intuition congruence|].
    intros _. repeat constructor. intros [].
  - destruct (String.eqb k0 k) eqn:Hk; cbn [map fst].
    + apply String.eqb_eq in Hk. subst k0. split; [|auto].
      intros k'. cbn [In]. intuition congruence.
    + split.
      * intros k'. cbn [In]. rewrite IH1. intuition.
      * intros Hnd. apply NoDup_cons_iff in Hnd. destruct Hnd as [Hn Hnd].
        constructor; [|now apply IH2].
        rewrite IH1. intros [->|Hin]; [|contradiction].
        now rewrite String.eqb_refl in Hk.
Qed.

Lemma centros_keys (g : Grupo) :
  NoDup (map fst (centros g))
  /\ forall k, In k (map fst (centros g)) <-> In k (map _k (miembros g)).
Proof.
  unfold centros.
  assert (H : forall l cs,
             NoDup (map fst cs) ->
             NoDup (map fst (fold_left
                       (fun cs w => dict_set (_k w) (centro (hw w)) cs) l cs))
             /\ forall k,
                  In k (map fst (fold_left
                       (fun cs w => dict_set (_k w) (centro (hw w)) cs) l cs))
                  <-> In k (map fst cs) \/ In k (map _k l)).
  { induction l as [|w l IH]; intros cs Hnd; cbn [fold_left map].
    - split; [exact Hnd|]. intros k. cbn [In]. tauto.
    - destruct (dict_set_keys (_k w) (centro (hw w)) cs) as [Hk Hn].
      destruct (IH _ (Hn Hnd)) as [IH1 IH2]. split; [exact IH1|].
      intros k. rewrite IH2, Hk. cbn [In]. intuition. }
  destruct (H (miembros g) [] (NoDup_nil _)) as [H1 H2].
  split; [exact H1|]. intros k. rewrite H2. cbn [map In]. tauto.
Qed.

Lemma objetivos_NoDup : NoDup objetivos.
Proof.
  unfold objetivos.
  repeat (constructor; [cbn [In]; intuition discriminate|]). constructor.
Qed.

(** X4, [_detectar_columnas_montos]: when the resolver answers, the dictionary
    has the four keys CARGOS, ABONOS, OPERACION and LIQUIDACION, each once,
    and no other. *)
Theorem detectar_cuatro_columnas (ws : list Word) (tol_fila : Q)
  (col_centers : list (string * Py.pyfloat)) :
  _detectar_columnas_montos ws tol_fila = Some col_centers ->
  NoDup (map fst col_centers)
  /\ (forall k, In k (map fst col_centers) <-> In k objetivos)
  /\ List.length col_centers = 4%nat.
Proof.
  unfold _detectar_columnas_montos.
  destruct (filtrar_hits ws) as [|h hs]; [discriminate|].
  destruct (ordenar candidato_leb (candidatos_de (grupos_de ws tol_fila)))
    as [|c r] eqn:Hord; [discriminate|].
  intros H. injection H as <-.
  assert (Hc : In c (candidatos_de (grupos_de ws tol_fila))).
  { apply (ordenar_In candidato_leb). rewrite Hord. now left. }
  unfold candidatos_de in Hc. apply in_map_iff in Hc.
  destruct Hc as (g & <- & Hg). apply filter_In in Hg.
  destruct Hg as [Hg Hcomp]. cbn [snd].
  destruct (centros_keys g) as [Hnd Hkeys].
  assert (Hiff : forall k, In k (map fst (centros g)) <-> In k objetivos).
  { intros k. rewrite Hkeys. split.
    - intros Hk. apply in_map_iff in Hk. destruct Hk as (h0 & <- & Hh0).
      pose proof (grupos_de_miembros ws tol_fila) as Hm.
      rewrite Forall_forall in Hm. specialize (Hm g Hg).
      rewrite Forall_forall in Hm. now apply Hm.
    - intros Ho. unfold completo in Hcomp. rewrite forallb_forall in Hcomp.
      specialize (Hcomp k Ho). unfold str_in in Hcomp.
      apply existsb_exists in Hcomp. destruct Hcomp as (k' & Hk' & Heq).
      apply String.eqb_eq in Heq. now subst k'. }
  split; [exact Hnd|]. split; [exact Hiff|].
  rewrite <- (length_map fst).
  apply (Permutation_length (l':=objetivos)).
  apply NoDup_Permutation; [exact Hnd|apply objetivos_NoDup|exact Hiff].
Qed.

End Resolver_Props.

(* ================================================================= *)
(** ** The groups of header words *)

Module Grupos_Props.
Import BBVA Predicados Filas_Props BBVA_Props Pred_Grupos.

Lemma hits_ordenados (hits : list Hit) :
  StronglySorted (fun a b => (top (hw a) <= top (hw b))%Q)
    (ordenar (fun a b => par_leb (clave_palabra (hw a)) (clave_palabra (hw b)))
             hits).
Proof. exact (ordenar_por_top hw hits). Qed.

(** A distance that the code finds above a tolerance that is a float is
    above it as a number: rounding the difference does not step over the
    tolerance. *)
Lemma ancla_separada (tol a b : Q) :
  Py.es_doble tol = true -> (a <= b)%Q ->
  Py.leb (distancia_top b a) (Py.fin tol) = false -> (a + tol < b)%Q.
Proof.
  intros Ht Hab H. unfold distancia_top in H.
  rewrite Binary64_Props.leb_ltb in H;
    [|apply Binary64_Props.abs_resta_fin_no_nan|discriminate].
  apply negb_false_iff in H.
  apply (Binary64_Props.ltb_distancia tol _ _ Ht) in H.
  rewrite Qabs_pos in H by lra. lra.
Qed.

Lemma colocar_anclas (tol : Q) (w : Hit) (gs : list Grupo) :
  Py.es_doble tol = true ->
  Forall (fun g => (ancla g <= top (hw w))%Q) gs ->
  map ancla (colocar tol w gs) = map ancla gs
  \/ (map ancla (colocar tol w gs) = map ancla gs ++ [top (hw w)]
      /\ Forall (fun g => (ancla g + tol < top (hw w))%Q) gs).
Proof.
  intros Hd. induction gs as [|g gs IH]; intros Hle; cbn [colocar].
  - right. split; [reflexivity|constructor].
  - pose proof (Forall_inv Hle) as Hg.
    destruct (Py.leb (distancia_top (top (hw w)) (top (hw (fst g))))
                     (Py.fin tol)) eqn:Ht.
    + left. reflexivity.
    + destruct (IH (Forall_inv_tail Hle)) as [Heq|[Heq Hsep]].
      * left. cbn [map]. now rewrite Heq.
      * right. cbn [map app]. rewrite Heq. split; [reflexivity|].
        constructor; [|exact Hsep]. now apply ancla_separada.
Qed.

Lemma ForallOrdPairs_snoc {A} (R : A -> A -> Prop) (l : list A) (x : A) :
  ForallOrdPairs R l -> Forall (fun a => R a x) l ->
  ForallOrdPairs R (l ++ [x]).
Proof.
  induction 1 as [|a l Ha Hl IH]; intros Hx; cbn [app].
  - repeat constructor.
  - constructor; [|apply IH; exact (Forall_inv_tail Hx)].
    apply Forall_app. split; [exact Ha|].
    constructor; [exact (Forall_inv Hx)|constructor].
Qed.

Lemma agrupar_hits_separados (tol : Q) (hits : list Hit) :
  Py.es_doble tol = true ->
  StronglySorted (fun a b => (top (hw a) <= top (hw b))%Q) hits ->
  ForallOrdPairs (fun a b => (a + tol < b)%Q)
                 (map ancla (agrupar_hits tol hits)).
Proof.
  intros Hd. unfold agrupar_hits.
  assert (H : forall gs,
             StronglySorted (fun a b => (top (hw a) <= top (hw b))%Q) hits ->
             ForallOrdPairs (fun a b => (a + tol < b)%Q) (map ancla gs) ->
             Forall (fun h => Forall (fun g => (ancla g <= top (hw h))%Q) gs)
                    hits ->
             ForallOrdPairs (fun a b => (a + tol < b)%Q)
               (map ancla (fold_left (fun grupos w => colocar tol w grupos)
                                     hits gs))).
  { induction hits as [|w hits IH]; intros gs Hs Hp Hle; [exact Hp|].
    cbn [fold_left]. apply StronglySorted_inv in Hs. destruct Hs as [Hs Hw].
    pose proof (Forall_inv Hle) as Hgw.
    pose proof (Forall_inv_tail Hle) as Hrest.
    destruct (colocar_anclas tol w gs Hd Hgw) as [Heq|[Heq Hsep]].
    - apply IH; [exact Hs|rewrite Heq; exact Hp|].
      apply Forall_forall. intros h Hh.
      rewrite Forall_forall in Hrest. specialize (Hrest h Hh).
      assert (Hm : Forall (fun a => (a <= top (hw h))%Q)
                          (map ancla (colocar tol w gs))).
      { rewrite Heq. apply Forall_map. exact Hrest. }
      exact (proj1 (Forall_map _ _ _) Hm).
    - apply IH; [exact Hs| |].
      + rewrite Heq. apply ForallOrdPairs_snoc; [exact Hp|].
        apply Forall_map. exact Hsep.
      + apply Forall_forall. intros h Hh.
        rewrite Forall_forall in Hrest. specialize (Hrest h Hh).
        assert (Hm : Forall (fun a => (a <= top (hw h))%Q)
                            (map ancla (colocar tol w gs))).
        { rewrite Heq. apply Forall_app. split; [apply Forall_map; exact Hrest|].
          constructor; [|constructor].
          rewrite Forall_forall in Hw. now apply Hw. }
        exact (proj1 (Forall_map _ _ _) Hm). }
  intros Hs. apply H; [exact Hs|constructor|].
  apply Forall_forall. intros h _. constructor.
Qed.

(** X5, [_detectar_columnas_montos], step 2: the groups of header words stand
    from the top of the page downwards, the first word of each more than
    [tol_fila] below the first word of every group before it.  The
    tolerance is a float, as the argument of the function is: the
    difference of two offsets is rounded before it is compared with it, and
    rounding does not step over a float. *)
Theorem grupos_de_separados (ws : list Word) (tol_fila : Q) :
  Py.es_doble tol_fila = true ->
  ForallOrdPairs (fun a b => (a + tol_fila < b)%Q)
                 (map ancla (grupos_de ws tol_fila)).
Proof.
  intros Hd. unfold grupos_de.
  apply agrupar_hits_separados; [exact Hd|apply hits_ordenados].
Qed.

End Grupos_Props.

(* ================================================================= *)
(** ** Pages and records of the positional extractor *)

Module Paginas_Props.
Import BBVA Predicados Filas_Props BBVA_Props Pred_Paginas.

Section Pagina.
Variable doc : Documento.
Variable anio : option string.

Lemma es_total_no_vacia (t : string) :
  es_total t = true -> Py.is_empty t = false.
Proof. destruct t; [discriminate|reflexivity]. Qed.

(** X6, [parse_movimientos] of [bbva.py], the [break] at the totals row: a row
    whose text holds TOTAL DE MOVIMIENTOS or TOTAL MOVIMIENTOS ends the
    page; neither that row nor the rows after it are read. *)
Theorem filas_tras_el_total (num_pagina : nat) (cc : list (string * Py.pyfloat))
  (f1 f2 : list (list Word)) (total : list Word)
  (movs : list Movimiento) (idx : option nat) :
  es_total (texto_de_fila total) = true ->
  procesar_filas doc anio num_pagina cc (f1 ++ total :: f2) movs idx
  = procesar_filas doc anio num_pagina cc f1 movs idx.
Proof.
  intros Ht.
  assert (Hcorta : forall m i,
             procesar_fila doc anio num_pagina cc total m i = None).
  { intros m i. unfold procesar_fila.
    now rewrite (es_total_no_vacia _ Ht), Ht. }
  revert movs idx. induction f1 as [|f f1 IH]; intros movs idx;
    cbn [app procesar_filas].
  - now rewrite Hcorta.
  - destruct (procesar_fila doc anio num_pagina cc f movs idx)
      as [[m' i']|]; [apply IH|reflexivity].
Qed.

Lemma procesar_pagina_agrega (num_pagina : nat) (page : Pagina)
  (movs : list Movimiento) :
  procesar_pagina doc anio num_pagina page movs
  = movs ++ procesar_pagina doc anio num_pagina page [].
Proof.
  unfold procesar_pagina.
  destruct (_ && _)%bool; [now rewrite app_nil_r|].
  destruct (_detectar_columnas_montos _ _) as [[|c cc]|];
    try (now rewrite app_nil_r).
  pose proof (procesar_filas_desplaza doc anio num_pagina (c :: cc)
                (_agrupar_filas (words page) tol_defecto) movs [] None) as H.
  rewrite app_nil_r in H. exact H.
Qed.

Lemma procesar_paginas_concat (pages : list Pagina) :
  forall num_pagina movs,
    procesar_paginas doc anio num_pagina pages movs
    = movs ++ List.concat (registros_por_pagina doc anio num_pagina pages).
Proof.
  induction pages as [|page pages IH]; intros n movs;
    cbn [procesar_paginas registros_por_pagina List.concat].
  - now rewrite app_nil_r.
  - rewrite IH, procesar_pagina_agrega. now rewrite <- app_assoc.
Qed.

(** A property of the records that every row keeps. *)
Lemma procesar_fila_Forall (P : Movimiento -> Prop) (num_pagina : nat)
  (cc : list (string * Py.pyfloat)) (fila : list Word)
  (movs movs' : list Movimiento) (idx idx' : option nat) :
  (forall i1 i2 r, idx_fechas fila = i1 :: i2 :: r ->
      P (movimiento_de_fila doc anio num_pagina cc fila i1 i2)) ->
  (forall e m, P m -> P (agregar_detalle e m)) ->
  Forall P movs ->
  procesar_fila doc anio num_pagina cc fila movs idx = Some (movs', idx') ->
  Forall P movs'.
Proof.
  intros Hnew Hdet Hm. unfold procesar_fila.
  destruct (Py.is_empty (texto_de_fila fila));
    [intros H; injection H as <- _; exact Hm|].
  destruct (es_total (texto_de_fila fila)); [discriminate|].
  cbn [negb andb].
  destruct (idx_fechas fila) as [|i1 [|i2 r]] eqn:Hidx.
  3:{ intros H; injection H as <- _. apply Forall_app. split; [exact Hm|].
      constructor; [|constructor]. now apply (Hnew i1 i2 r). }
  all: destruct idx as [i|]; [|intros H; injection H as <- _; exact Hm];
    destruct (negb (Py.startswith (texto_de_fila fila) "FECHA SALDO"));
    intros H; injection H as <- _; [|exact Hm];
    apply modificar_Forall; [|exact Hm]; intros x Hx; now apply Hdet.
Qed.

Lemma procesar_filas_Forall (P : Movimiento -> Prop) (num_pagina : nat)
  (cc : list (string * Py.pyfloat)) (filas : list (list Word)) :
  (forall fila i1 i2 r, In fila filas -> idx_fechas fila = i1 :: i2 :: r ->
      P (movimiento_de_fila doc anio num_pagina cc fila i1 i2)) ->
  (forall e m, P m -> P (agregar_detalle e m)) ->
  forall movs idx,
    Forall P movs ->
    Forall P (procesar_filas doc anio num_pagina cc filas movs idx).
Proof.
  intros Hnew Hdet.
  induction filas as [|fila filas IH]; intros movs idx Hm; [exact Hm|].
  cbn [procesar_filas].
  destruct (procesar_fila doc anio num_pagina cc fila movs idx)
    as [[movs' idx']|] eqn:Hf; [|exact Hm].
  apply IH.
  - intros f i1 i2 r Hin. apply Hnew. now right.
  - eapply procesar_fila_Forall; [|exact Hdet|exact Hm|exact Hf].
    intros i1 i2 r. apply Hnew. now left.
Qed.

Lemma procesar_pagina_Forall (P : Movimiento -> Prop) (num_pagina : nat)
  (page : Pagina) :
  (forall cc fila i1 i2 r, idx_fechas fila = i1 :: i2 :: r ->
      P (movimiento_de_fila doc anio num_pagina cc fila i1 i2)) ->
  (forall e m, P m -> P (agregar_detalle e m)) ->
  Forall P (procesar_pagina doc anio num_pagina page []).
Proof.
  intros Hnew Hdet. unfold procesar_pagina.
  destruct (_ && _)%bool; [constructor|].
  destruct (_detectar_columnas_montos _ _) as [[|c cc]|];
    try constructor.
  apply procesar_filas_Forall; [|exact Hdet|constructor].
  intros fila i1 i2 r _. apply Hnew.
Qed.

End Pagina.

(** X7, [parse_movimientos] of [bbva.py]: the records of a document are those
    of its pages, each page read on its own with the year of the cover and
    its own number, one page after the other; a document without pages gives
    no frame. *)
Theorem parse_movimientos_por_pagina (doc : Documento) (pages : list Pagina) :
  match pages with
  | [] => parse_movimientos doc pages = None
  | portada :: _ =>
      parse_movimientos doc pages
      = Some (List.concat
                (registros_por_pagina doc
                   (_obtener_anio_desde_portada (texto portada)) 1 pages))
  end.
Proof.
  destruct pages as [|portada resto]; [reflexivity|].
  unfold parse_movimientos. now rewrite procesar_paginas_concat.
Qed.

Lemma registros_por_pagina_Forall (doc : Documento) (anio : option string)
  (pages : list Pagina) :
  forall n,
    Forall (fun m => del_documento doc m
                     /\ (n <= pagina m < n + List.length pages)%nat)
           (List.concat (registros_por_pagina doc anio n pages))
    /\ StronglySorted (fun a b => (pagina a <= pagina b)%nat)
                      (List.concat (registros_por_pagina doc anio n pages)).
Proof.
  induction pages as [|page pages IH]; intros n;
    cbn [registros_por_pagina List.concat List.length].
  - split; constructor.
  - destruct (IH (S n)) as [IH1 IH2].
    assert (Hp : Forall (fun m => del_documento doc m /\ pagina m = n)
                        (procesar_pagina doc anio n page [])).
    { apply procesar_pagina_Forall.
      - intros cc fila i1 i2 r _. unfold del_documento, movimiento_de_fila.
        cbn [cuenta moneda origen_pdf pagina]. repeat split.
      - intros e m Hm. exact Hm. }
    split.
    + apply Forall_app. split.
      * eapply Forall_impl; [|exact Hp]. intros m [Hd Hn].
        split; [exact Hd|lia].
      * eapply Forall_impl; [|exact IH1]. intros m [Hd Hn].
        split; [exact Hd|lia].
    + clear IH. induction Hp as [|m l Hm Hl IHl]; cbn [app]; [exact IH2|].
      constructor; [exact IHl|].
      apply Forall_app. split.
      * eapply Forall_impl; [|exact Hl]. intros m' [_ Hn'].
        destruct Hm as [_ Hn]. lia.
      * eapply Forall_impl; [|exact IH1]. intros m' [_ Hn'].
        destruct Hm as [_ Hn]. lia.
Qed.

(** X8, [parse_movimientos] of [bbva.py]: every record bears the account, the
    currency and the file name of the document and the number of one of its
    pages, and the records stand in the order of their pages. *)
Theorem parse_movimientos_paginas (doc : Documento) (pages : list Pagina)
  (movs : list Movimiento) :
  parse_movimientos doc pages = Some movs ->
  Forall (fun m => del_documento doc m
                   /\ (1 <= pagina m <= List.length pages)%nat) movs
  /\ StronglySorted (fun a b => (pagina a <= pagina b)%nat) movs.
Proof.
  destruct pages as [|portada resto]; [discriminate|].
  unfold parse_movimientos. rewrite procesar_paginas_concat. cbn [app].
  intros Heq. injection Heq as <-.
  destruct (registros_por_pagina_Forall doc
              (_obtener_anio_desde_portada (texto portada))
              (portada :: resto) 1) as [H1 H2].
  split; [|exact H2].
  eapply Forall_impl; [|exact H1]. intros m [Hd Hn]. split; [exact Hd|lia].
Qed.

End Paginas_Props.

(* ================================================================= *)
(** ** What a match tells *)

Module Patrones_Props.
Import Re Predicados Pred_Patrones Re_Props.

Lemma captured_rev (done p : list ascii) :
  captured done (rev p ++ done) = string_of_list_ascii p.
Proof.
  unfold captured. rewrite length_app, Nat.add_sub.
  rewrite firstn_app, Nat.sub_diag, firstn_all. cbn [firstn].
  now rewrite app_nil_r, rev_involutive.
Qed.

(** What the search has found when it answers. *)
Lemma run_sound (r : regex) :
  forall done s g k res,
    run r done s g k = Some res ->
    exists p rest g',
      s = p ++ rest /\ matches r done p rest g g'
      /\ k (rev p ++ done) rest g' = Some res.
Proof.
  induction r as [| |c|cls lo hi lz|r1 IH1 r2 IH2|name r1 IH1];
    intros done s g k res H; cbn [run] in H.
  - destruct done; [|discriminate].
    exists [], s, g. repeat split. exact H.
  - destruct s as [|c [|c' s']].
    + exists [], [], g. repeat split; [now left|exact H].
    + destruct (Py.code c =? 10)%N eqn:Hc; [|discriminate].
      apply N.eqb_eq in Hc.
      exists [], [c], g. repeat split; [right; now exists c|exact H].
    + discriminate.
  - destruct s as [|a s']; [discriminate|].
    destruct (Ascii.eqb a c) eqn:Ha; [|discriminate].
    apply Ascii.eqb_eq in Ha. subst a.
    exists [c], s', g. repeat split. exact H.
  - apply rep_inv in H. destruct H as (p & s' & -> & Hp & Hlo & Hhi & Hk).
    exists p, s', g. repeat split; assumption.
  - apply IH1 in H. destruct H as (p1 & rest1 & g1 & -> & Hm1 & H).
    apply IH2 in H. destruct H as (p2 & rest & g' & -> & Hm2 & H).
    exists (p1 ++ p2), rest, g'. split; [now rewrite app_assoc|].
    split; [now exists p1, p2, g1|].
    now rewrite rev_app_distr, <- app_assoc.
  - apply IH1 in H. destruct H as (p & rest & g1 & -> & Hm & H).
    rewrite captured_rev in H.
    exists p, rest, ((name, string_of_list_ascii p) :: g1).
    split; [reflexivity|]. split; [now exists g1|exact H].
Qed.

Lemma re_match_sound (r : regex) (s : string) (m : groups) :
  re_match r s = Some m ->
  exists p rest, list_ascii_of_string s = p ++ rest /\ matches r [] p rest [] m.
Proof.
  unfold re_match. intros H. apply run_sound in H.
  destruct H as (p & rest & g' & Hs & Hm & Hk). injection Hk as <-.
  now exists p, rest.
Qed.

(** A repetition answers whenever what follows some run of it does. *)
Lemma rep_complete {R : Type} (cls : ascii -> bool) (lazy : bool)
  (p : list ascii) :
  forall lo hi done rest (k : list ascii -> list ascii -> option R),
    forallb cls p = true -> (lo <= List.length p)%nat ->
    match hi with Some h => (List.length p <= h)%nat | None => True end ->
    k (rev p ++ done) rest <> None ->
    rep cls lazy lo hi done (p ++ rest) k <> None.
Proof.
  induction p as [|a p IH]; intros lo hi done rest k Hp Hlo Hhi Hk.
  - cbn [List.length] in Hlo. assert (lo = 0%nat) as -> by lia.
    cbn [rev app] in *.
    destruct rest as [|b rest']; cbn [rep Nat.eqb]; unfold orelse;
      destruct lazy; destruct (k done _); try congruence;
      destruct (_ && _)%bool; try congruence;
      destruct (rep _ _ _ _ _ _ _); congruence.
  - cbn [forallb] in Hp. apply andb_true_iff in Hp. destruct Hp as [Ha Hp].
    cbn [app rep]. rewrite Ha.
    assert (Hmt : may_take hi = true).
    { destruct hi as [[|h]|]; cbn [List.length] in Hhi; try reflexivity. lia. }
    rewrite Hmt. cbn [andb].
    assert (Hmore : rep cls lazy (pred lo) (option_map pred hi) (a :: done)
                        (p ++ rest) k <> None).
    { apply IH; [exact Hp|cbn [List.length] in Hlo; lia| |].
      - destruct hi as [[|h]|]; cbn [List.length option_map pred] in *;
          try exact I; lia.
      - cbn [rev] in Hk. now rewrite <- app_assoc in Hk. }
    destruct (lo =? 0)%nat; [|exact Hmore].
    unfold orelse. destruct lazy.
    + destruct (k done (a :: p ++ rest)); [congruence|exact Hmore].
    + destruct (rep cls false (pred lo) (option_map pred hi) (a :: done)
                    (p ++ rest) k); congruence.
Qed.

(** [PATRON_MONTO] matches in full exactly the tokens made of digits and
    commas, at least one, a dot and two digits. *)
Lemma patron_monto_completo (t : string) (ds : list ascii) (d1 d2 : ascii) :
  list_ascii_of_string t = ds ++ ["."%char; d1; d2] ->
  ds <> [] -> forallb BBVA.digito_o_coma ds = true ->
  Py.isdigit d1 = true -> Py.isdigit d2 = true ->
  BBVA.coincide BBVA.PATRON_MONTO t = true.
Proof.
  intros Hs Hne Hds H1 H2.
  unfold BBVA.coincide, fullmatch, BBVA.PATRON_MONTO, plus, exactly.
  cbn [seq run]. rewrite Hs.
  destruct (rep _ _ _ _ _ _ _) eqn:Hr; [reflexivity|].
  exfalso. revert Hr. apply rep_complete.
  - exact Hds.
  - destruct ds; [congruence|cbn [List.length]; lia].
  - exact I.
  - cbn [Ascii.eqb Bool.eqb andb].
    change [d1; d2] with ([d1; d2] ++ []).
    apply rep_complete.
    + cbn [forallb]. unfold d. now rewrite H1, H2.
    + cbn [List.length]. lia.
    + cbn [List.length]. lia.
    + discriminate.
Qed.

End Patrones_Props.

(* ================================================================= *)
(** ** The amount of a card-statement line *)

Module Monto_TC_Props.
Import Re Predicados Pred_Paginas Pred_Patrones Re_Props Py_Props Patrones_Props BBVATC.

Lemma string_of_chars (s : string) (l : list ascii) :
  list_ascii_of_string s = l -> s = string_of_list_ascii l.
Proof. intros <-. now rewrite string_of_list_ascii_of_string. Qed.

(** The text that [rx_monto] matches: an optional minus sign and a token of
    [PATRON_MONTO]. *)
Lemma rx_monto_forma (done p rest : list ascii) (g g' : groups) :
  matches rx_monto done p rest g g' ->
  exists neg t,
    string_of_list_ascii p = con_signo neg t
    /\ BBVA.coincide BBVA.PATRON_MONTO t = true
    /\ Forall (fun c => Py.isspace c = false) p.
Proof.
  unfold rx_monto, plus, exactly. cbn [seq matches].
  intros (pa & q1 & g1 & -> & (Ha & _ & Hla & _)
          & pb & q2 & g2 & -> & (Hb & Hlb & _ & _)
          & pc & pd & g3 & -> & (-> & _) & (Hd & Hld1 & Hld2 & _)).
  destruct pd as [|d1 [|d2 [|d3 pd]]]; cbn [List.length] in Hld1, Hld2; try lia.
  cbn [forallb] in Hd. apply andb_true_iff in Hd. destruct Hd as [H1 Hd].
  apply andb_true_iff in Hd. destruct Hd as [H2 _].
  assert (Ht : BBVA.coincide BBVA.PATRON_MONTO
                 (string_of_list_ascii (pb ++ ["."%char; d1; d2])) = true).
  { apply (patron_monto_completo _ pb d1 d2).
    - now rewrite list_ascii_of_string_of_list_ascii.
    - intros ->. cbn [List.length] in Hlb. lia.
    - exact Hb.
    - exact H1.
    - exact H2. }
  assert (Hsp : Forall (fun c => Py.isspace c = false)
                       (pb ++ ["."%char; d1; d2])).
  { apply Forall_app. split.
    - apply Forall_forall. intros x Hx. rewrite forallb_forall in Hb.
      specialize (Hb x Hx). apply (monto_char_facts x).
      unfold monto_char. unfold digito_o_coma, d in Hb. now rewrite Hb.
    - repeat constructor; try reflexivity;
        now apply monto_char_facts, isdigit_facts. }
  destruct pa as [|a [|a' pa]]; cbn [List.length] in Hla; try lia.
  - exists false, (string_of_list_ascii (pb ++ ["."%char; d1; d2])).
    cbn [app con_signo]. repeat split; assumption.
  - cbn [forallb] in Ha. rewrite andb_true_r in Ha. unfold menos in Ha.
    apply Ascii.eqb_eq in Ha. subst a.
    exists true, (string_of_list_ascii (pb ++ ["."%char; d1; d2])).
    cbn [app con_signo string_of_list_ascii].
    repeat split; [exact Ht|]. constructor; [reflexivity|exact Hsp].
Qed.

(** The amount read from a matched line. *)
Lemma coincidir_monto (line : string) (c : Campos) :
  coincidir line = Some c ->
  exists neg t,
    monto_txt c = con_signo neg t
    /\ BBVA.coincide BBVA.PATRON_MONTO t = true.
Proof.
  unfold coincidir.
  destruct (re_match rx_con_rfc line) as [m|] eqn:H1.
  - intros H. injection H as <-. cbn [monto_txt].
    apply re_match_sound in H1. destruct H1 as (p & rest & _ & Hm).
    unfold rx_con_rfc in Hm. cbn [seq] in Hm.
    repeat match type of Hm with
           | matches (Seq (Grp "monto" _) _) _ _ _ _ _ => fail 1
           | matches (Seq _ _) _ _ _ _ _ =>
               destruct Hm as (? & ? & ? & _ & _ & Hm)
           end.
    destruct Hm as (pm & q & gm & _ & (g0 & Hmonto & ->) & Hfin).
    destruct Hfin as (ps & pe & ge & _ & (_ & _ & _ & ->) & (_ & -> & _)).
    cbn [group String.eqb Ascii.eqb Bool.eqb andb].
    destruct (rx_monto_forma _ _ _ _ _ Hmonto) as (neg & t & Heq & Ht & Hsp).
    exists neg, t. split; [|exact Ht].
    rewrite <- Heq. apply strip_sin_blancos.
    now rewrite list_ascii_of_string_of_list_ascii.
  - destruct (re_match rx_sin_rfc line) as [m|] eqn:H2; [|discriminate].
    intros H. injection H as <-. cbn [monto_txt].
    apply re_match_sound in H2. destruct H2 as (p & rest & _ & Hm).
    unfold rx_sin_rfc in Hm. cbn [seq] in Hm.
    repeat match type of Hm with
           | matches (Seq (Grp "monto" _) _) _ _ _ _ _ => fail 1
           | matches (Seq _ _) _ _ _ _ _ =>
               destruct Hm as (? & ? & ? & _ & _ & Hm)
           end.
    destruct Hm as (pm & q & gm & _ & (g0 & Hmonto & ->) & Hfin).
    destruct Hfin as (ps & pe & ge & _ & (_ & _ & _ & ->) & (_ & -> & _)).
    cbn [group String.eqb Ascii.eqb Bool.eqb andb].
    destruct (rx_monto_forma _ _ _ _ _ Hmonto) as (neg & t & Heq & Ht & Hsp).
    exists neg, t. split; [|exact Ht].
    rewrite <- Heq. apply strip_sin_blancos.
    now rewrite list_ascii_of_string_of_list_ascii.
Qed.

End Monto_TC_Props.

(* ================================================================= *)
(** ** The records of the line-pattern extractor *)

Module TC_Props.
Import Predicados Pred_Paginas Pred_TC Py_Props BBVA_Props BBVATC_Props Monto_TC_Props BBVATC.

Section ConParser.
Variable pd_to_datetime : bool -> string -> option Timestamp.
Variable doc : Documento.

(** X9, [parse_movimientos] of [bbva_tc.py]: a line that is neither a stop
    marker nor skipped and that one of the two patterns matches always gives
    a record.  The amount text the pattern captured is read by
    [_limpiar_monto] as a number, the float nearest to the value of its
    digits with the sign of the text (an infinity when that value is beyond
    the largest float), never as nothing and never as a NaN, so
    [if monto is None: continue] never drops a matched line. *)
Theorem linea_coincidente_se_emite (num_pagina : nat) (line : string)
  (c : Campos) :
  es_corte (Py.upper line) = false ->
  es_omitida (Py.upper line) = false ->
  coincidir line = Some c ->
  exists neg q monto,
    (0 <= q)%Q
    /\ monto = Py.de_magnitud neg q
    /\ (monto = Py.PyInf neg
        \/ exists r, (0 <= r)%Q /\ monto = Py.PyFin neg r)
    /\ _limpiar_monto (monto_txt c) = Some monto
    /\ procesar_linea pd_to_datetime doc num_pagina line
       = Emitido (movimiento_de pd_to_datetime doc num_pagina c monto).
Proof.
  intros Hc Ho Hm.
  destruct (coincidir_monto line c Hm) as (neg & t & Heq & Ht).
  destruct (limpiar_monto_con_signo neg t Ht) as (q & Hq & _ & Htc).
  exists neg, q, (Py.de_magnitud neg q). rewrite Heq.
  split; [exact Hq|]. split; [reflexivity|].
  split; [apply Binary64_Props.de_magnitud_casos|].
  split; [exact Htc|].
  unfold procesar_linea.
  destruct line as [|ch line']; [rewrite coincidir_vacia in Hm; discriminate|].
  cbn [Py.is_empty]. now rewrite Hc, Ho, Hm, Heq, Htc.
Qed.

Lemma emitido_registro_tc (num_pagina : nat) (line : string) (mv : Movimiento) :
  procesar_linea pd_to_datetime doc num_pagina line = Emitido mv ->
  registro_tc doc mv /\ pagina mv = num_pagina.
Proof.
  intros H. apply emitido_inv in H. destruct H as (c & monto & Hc & Hl & ->).
  destruct (coincidir_monto line c Hc) as (neg & t & Heq & Ht).
  destruct (limpiar_monto_con_signo neg t Ht) as (q0 & _ & _ & Htc).
  rewrite Heq, Htc in Hl. injection Hl as <-.
  unfold registro_tc, del_documento, monto_tc, movimiento_de.
  cbn [codigo saldo_operacion saldo_liquidacion cuenta moneda origen_pdf
       pagina cargos abonos].
  repeat split.
  destruct (Binary64_Props.de_magnitud_casos neg q0) as [->|(q & Hq & ->)].
  - destruct neg; cbn [Py.lt0 Py.abs].
    + left. split; [reflexivity|now left].
    + right. split; [reflexivity|now left].
  - cbn [Py.lt0 Py.abs]. destruct neg; cbn [andb].
    + destruct (Qle_bool q 0) eqn:Hq0; cbn [negb].
      * right. split; [reflexivity|]. right. exists true, q.
        split; [reflexivity|]. split; [exact Hq|]. intros _.
        apply Qle_bool_iff in Hq0. now apply Qle_antisym.
      * left. split; [reflexivity|]. right. exists q. split; [reflexivity|].
        apply Qnot_le_lt. intros Hle. apply Qle_bool_iff in Hle. congruence.
    + right. split; [reflexivity|]. right. exists false, q.
      split; [reflexivity|]. split; [exact Hq|]. discriminate.
Qed.

Lemma procesar_lineas_Forall (P : Movimiento -> Prop) (num_pagina : nat)
  (lines : list string) :
  (forall line mv,
      procesar_linea pd_to_datetime doc num_pagina line = Emitido mv -> P mv) ->
  forall movs,
    Forall P movs ->
    Forall P (fst (procesar_lineas pd_to_datetime doc num_pagina lines movs)).
Proof.
  intros Hnew. induction lines as [|line resto IH]; intros movs Hm.
  - exact Hm.
  - cbn [procesar_lineas].
    destruct (procesar_linea pd_to_datetime doc num_pagina line)
      as [| |mv] eqn:Hl.
    + exact Hm.
    + now apply IH.
    + apply IH. apply Forall_app. split; [exact Hm|].
      constructor; [|constructor]. now apply (Hnew line).
Qed.

Lemma procesar_paginas_Forall (lo : nat) (pages : list (list string)) :
  forall n movs,
    Forall (fun m => registro_tc doc m /\ (lo <= pagina m < n)%nat) movs ->
    (lo <= n)%nat ->
    Forall (fun m => registro_tc doc m
                     /\ (lo <= pagina m < n + List.length pages)%nat)
           (procesar_paginas pd_to_datetime doc n pages movs).
Proof.
  induction pages as [|lines pages IH]; intros n movs Hm Hlo;
    cbn [procesar_paginas List.length].
  - eapply Forall_impl; [|exact Hm]. intros m [Hr Hp]. split; [exact Hr|lia].
  - assert (Hl : forall movs0,
               Forall (fun m => registro_tc doc m
                                /\ (lo <= pagina m < S n)%nat) movs0 ->
               Forall (fun m => registro_tc doc m
                                /\ (lo <= pagina m < S n)%nat)
                      (fst (procesar_lineas pd_to_datetime doc n lines movs0))).
    { apply procesar_lineas_Forall. intros line mv Hmv.
      destruct (emitido_registro_tc n line mv Hmv) as [Hr Hp].
      split; [exact Hr|lia]. }
    specialize (Hl movs).
    destruct (procesar_lineas pd_to_datetime doc n lines movs)
      as [movs' stop]. cbn [fst] in Hl.
    assert (Hm' : Forall (fun m => registro_tc doc m
                                   /\ (lo <= pagina m < S n)%nat) movs').
    { apply Hl. eapply Forall_impl; [|exact Hm].
      intros m [Hr Hp]. split; [exact Hr|lia]. }
    destruct stop.
    + eapply Forall_impl; [|exact Hm']. intros m [Hr Hp]. split; [exact Hr|lia].
    + specialize (IH (S n) movs' Hm' (Nat.le_trans _ _ _ Hlo (Nat.le_succ_diag_r n))).
      eapply Forall_impl; [|exact IH]. intros m [Hr Hp]. split; [exact Hr|lia].
Qed.

Lemma extraer_registros (pages : list string) :
  Forall (fun m => registro_tc doc m
                   /\ (1 <= pagina m <= List.length pages)%nat)
         (extraer pd_to_datetime doc pages).
Proof.
  unfold extraer.
  pose proof (procesar_paginas_Forall 1 (map lineas pages) 1 []) as H.
  rewrite length_map in H.
  eapply Forall_impl; [|apply H; [constructor|lia]].
  intros m [Hr Hp]. split; [exact Hr|lia].
Qed.

Lemma procesar_lineas_length (num_pagina : nat) (lines : list string) :
  forall movs,
    (List.length (fst (procesar_lineas pd_to_datetime doc num_pagina lines movs))
     <= List.length movs + List.length lines)%nat.
Proof.
  induction lines as [|line resto IH]; intros movs;
    cbn [procesar_lineas List.length].
  - cbn [fst]. lia.
  - destruct (procesar_linea pd_to_datetime doc num_pagina line) as [| |mv].
    + cbn [fst]. lia.
    + specialize (IH movs). lia.
    + specialize (IH (movs ++ [mv])). rewrite length_app in IH.
      cbn [List.length] in IH. lia.
Qed.

Lemma procesar_paginas_length (pages : list (list string)) :
  forall n movs,
    (List.length (procesar_paginas pd_to_datetime doc n pages movs)
     <= List.length movs + List.length (List.concat pages))%nat.
Proof.
  induction pages as [|lines pages IH]; intros n movs;
    cbn [procesar_paginas List.concat List.length]; [lia|].
  rewrite length_app.
  pose proof (procesar_lineas_length n lines movs) as Hl.
  destruct (procesar_lineas pd_to_datetime doc n lines movs) as [movs' stop].
  cbn [fst] in Hl. destruct stop; [lia|].
  specialize (IH (S n) movs'). lia.
Qed.

(** X10, [parse_movimientos] of [bbva_tc.py]: every row of the returned frame
    has an empty code, no balances, the account, currency and file name of
    the document, either a credit above zero and no charge or a charge not
    below zero and no credit (the number being finite, or the infinity for
    an amount beyond the largest float), and the number of one of the
    pages; the rows are the extracted records in some order; and there is at
    most one row for each line of text. *)
Theorem parse_movimientos_registros (pages : list string) :
  Forall (fun r => registro_tc doc (fila_mov r)
                   /\ (1 <= pagina (fila_mov r) <= List.length pages)%nat)
         (parse_movimientos pd_to_datetime doc pages)
  /\ Permutation (map fila_mov (parse_movimientos pd_to_datetime doc pages))
                 (extraer pd_to_datetime doc pages)
  /\ (List.length (parse_movimientos pd_to_datetime doc pages)
      <= List.length (List.concat (map lineas pages)))%nat.
Proof.
  pose proof (extraer_registros pages) as He.
  assert (Hperm : Permutation
                    (map fila_mov (parse_movimientos pd_to_datetime doc pages))
                    (extraer pd_to_datetime doc pages)).
  { unfold parse_movimientos, tabla.
    destruct (extraer pd_to_datetime doc pages) as [|m0 ms] eqn:Hex;
      [constructor|].
    unfold sort_values.
    eapply perm_trans;
      [apply Permutation_map, Permutation_sym, ordenar_perm|].
    rewrite map_map. cbn [a_fila fila_mov]. rewrite map_id.
    apply Permutation_refl. }
  split; [|split; [exact Hperm|]].
  - apply Forall_forall. intros r Hr. unfold parse_movimientos in Hr.
    apply tabla_In in Hr. destruct Hr as (mv & Hin & ->).
    rewrite Forall_forall in He. destruct (He mv Hin) as [H1 H2].
    cbn [fila_mov a_fila]. split; [exact H1|exact H2].
  - rewrite <- (length_map fila_mov), (Permutation_length Hperm).
    unfold extraer.
    pose proof (procesar_paginas_length (map lineas pages) 1 []) as H.
    cbn [List.length] in H. exact H.
Qed.

End ConParser.
End TC_Props.

(* ================================================================= *)
(** ** The year of the cover and the date tokens *)

Module Anio_Props.
Import Re Predicados Pred_Paginas Pred_Patrones Fechas Re_Props Py_Props Paginas_Props Patrones_Props BBVA.

Lemma search_from_sound (r : regex) (s : list ascii) :
  forall done g,
    search_from r done s = Some g ->
    exists done' s', run r done' s' [] (fun _ _ g0 => Some g0) = Some g.
Proof.
  induction s as [|a s IH]; intros done g H; cbn [search_from] in H.
  - destruct (run r done [] [] _) eqn:Hr; [|discriminate].
    injection H as <-. now exists done, [].
  - destruct (run r done (a :: s) [] _) eqn:Hr.
    + injection H as <-. now exists done, (a :: s).
    + now apply IH in H.
Qed.

Ltac desarmar :=
  repeat match goal with
         | H : matches (Seq _ _) _ _ _ _ _ |- _ =>
             destruct H as (? & ? & ? & ? & ? & ?)
         | H : matches (Chr _) _ _ _ _ _ |- _ => destruct H as (? & ?)
         | H : matches (Rep _ _ _ _) _ _ _ _ _ |- _ =>
             destruct H as (? & ? & ? & ?)
         | H : matches (Grp _ _) _ _ _ _ _ |- _ => destruct H as (? & ? & ?)
         | H : matches Bol _ _ _ _ _ |- _ => destruct H as (? & ? & ?)
         | H : matches Eol _ _ _ _ _ |- _ => destruct H as (? & ? & ?)
         end.

(** X11, [_obtener_anio_desde_portada]: a year read from the cover is four
    decimal digits. *)
Theorem obtener_anio_cuatro_digitos (texto anio : string) :
  _obtener_anio_desde_portada texto = Some anio ->
  exists a b c e,
    anio = String a (String b (String c (String e "")))
    /\ Py.isdigit a = true /\ Py.isdigit b = true
    /\ Py.isdigit c = true /\ Py.isdigit e = true.
Proof.
  unfold _obtener_anio_desde_portada, search.
  destruct (search_from rx_periodo [] (list_ascii_of_string texto))
    as [m|] eqn:Hs; [|discriminate].
  intros H. injection H as <-.
  apply search_from_sound in Hs. destruct Hs as (done' & s' & Hr).
  apply run_sound in Hr. destruct Hr as (p & rest & g' & _ & Hm & Hk).
  injection Hk as <-.
  unfold rx_periodo, plus, exactly in Hm. cbn [seq lit app] in Hm.
  desarmar. subst.
  match goal with
  | H : forallb d ?p = true, H1 : (4 <= List.length ?p)%nat,
    H2 : (List.length ?p <= 4)%nat |- context [string_of_list_ascii ?p] =>
      destruct p as [|a [|b [|c [|e [|f p']]]]];
        cbn [List.length] in H1, H2; try lia;
        cbn [forallb] in H; unfold d in H;
        repeat (apply andb_true_iff in H; destruct H as [? H]);
        exists a, b, c, e
  end.
  cbn [group String.eqb Ascii.eqb Bool.eqb andb string_of_list_ascii].
  repeat split; assumption.
Qed.

Lemma AZ_facts (c : ascii) :
  AZ c = true -> Py.isspace c = false /\ Py.upper_char c = String c "".
Proof.
  destruct c as [[] [] [] [] [] [] [] []]; vm_compute; intros H;
    try discriminate H; repeat split.
Qed.

(** A token that [PATRON_FECHA] matches in full. *)
Lemma patron_fecha_forma (t : string) :
  coincide PATRON_FECHA t = true ->
  exists a b m1 m2 m3,
    t = string_of_list_ascii [a; b; "/"%char; m1; m2; m3]
    /\ Py.isdigit a = true /\ Py.isdigit b = true
    /\ AZ m1 = true /\ AZ m2 = true /\ AZ m3 = true.
Proof.
  unfold coincide, fullmatch.
  destruct (run PATRON_FECHA [] (list_ascii_of_string t) [] _) as [g|] eqn:Hr;
    [intros _|discriminate].
  apply run_sound in Hr. destruct Hr as (p & rest & g' & Hs & Hm & Hk).
  destruct rest; [|discriminate]. rewrite app_nil_r in Hs.
  apply Monto_TC_Props.string_of_chars in Hs.
  unfold PATRON_FECHA, exactly in Hm. cbn [seq] in Hm.
  desarmar. subst.
  repeat match goal with
         | H : forallb _ ?p = true, H1 : (?n <= List.length ?p)%nat,
           H2 : (List.length ?p <= ?n)%nat |- _ =>
             destruct p as [|? [|? [|? [|? ?]]]];
               cbn [List.length] in H1, H2; try lia;
               cbn [forallb] in H;
               repeat (apply andb_true_iff in H; destruct H as [? H]);
               clear H H1 H2
         end.
  cbn [app].
  do 5 eexists. split; [reflexivity|]. repeat split; assumption.
Qed.

Lemma rx_ddmes_coincide (a b m1 m2 m3 : ascii) :
  Py.isdigit a = true -> Py.isdigit b = true ->
  AZ m1 = true -> AZ m2 = true -> AZ m3 = true ->
  re_match rx_ddmes (string_of_list_ascii [a; b; "/"%char; m1; m2; m3])
  = Some [("2", string_of_list_ascii [m1; m2; m3]);
          ("1", string_of_list_ascii [a; b])].
Proof.
  intros Ha Hb H1 H2 H3.
  unfold re_match, rx_ddmes, exactly.
  rewrite list_ascii_of_string_of_list_ascii.
  cbn [seq run rep Nat.eqb pred option_map may_take negb andb orelse
       Ascii.eqb Bool.eqb].
  unfold d. rewrite Ha, Hb, H1, H2, H3, !andb_false_r.
  cbn [andb orelse]. reflexivity.
Qed.

End Anio_Props.

(* ================================================================= *)
(** ** The dates of the positional extractor *)

Module Fechas_Props.
Import Re Predicados Pred_Paginas Pred_Patrones Fechas Re_Props Py_Props Paginas_Props Patrones_Props Anio_Props BBVA.

Lemma dict_get_In {V} (k : string) (dc : list (string * V)) (v : V) :
  dict_get k dc = Some v -> In (k, v) dc.
Proof.
  induction dc as [|[k0 v0] dc IH]; cbn [dict_get]; [discriminate|].
  destruct (String.eqb k0 k) eqn:Hk.
  - intros H. injection H as <-. apply String.eqb_eq in Hk. subst. now left.
  - intros H. right. now apply IH.
Qed.

Lemma mes_en_tabla (mes : string) : In (_mes_str_a_num mes) meses_iso.
Proof.
  unfold _mes_str_a_num.
  destruct (dict_get _ _) as [n|] eqn:Hg; [|now left].
  apply dict_get_In in Hg. cbn [In] in Hg. unfold meses_iso. cbn [In].
  repeat (destruct Hg as [Hg|Hg]; [injection Hg as _ <-; tauto|]).
  destruct Hg.
Qed.

Lemma token_fecha_limpio (a b m1 m2 m3 : ascii) :
  Py.isdigit a = true -> Py.isdigit b = true ->
  AZ m1 = true -> AZ m2 = true -> AZ m3 = true ->
  let t := string_of_list_ascii [a; b; "/"%char; m1; m2; m3] in
  Py.strip t = t /\ Py.upper t = t.
Proof.
  intros Ha Hb H1 H2 H3 t.
  pose proof (monto_char_facts a (proj1 (isdigit_facts a Ha)))
    as (Hsa & _ & _ & _ & _ & _ & _ & _ & Hua).
  pose proof (monto_char_facts b (proj1 (isdigit_facts b Hb)))
    as (Hsb & _ & _ & _ & _ & _ & _ & _ & Hub).
  destruct (AZ_facts m1 H1) as [Hs1 Hu1].
  destruct (AZ_facts m2 H2) as [Hs2 Hu2].
  destruct (AZ_facts m3 H3) as [Hs3 Hu3].
  split.
  - apply strip_sin_blancos. unfold t.
    rewrite list_ascii_of_string_of_list_ascii.
    repeat constructor; assumption.
  - unfold t. cbn [string_of_list_ascii Py.upper].
    rewrite Hua, Hub, Hu1, Hu2, Hu3. reflexivity.
Qed.

Lemma parse_fecha_token_valor (a b m1 m2 m3 : ascii) (anio : option string) :
  Py.isdigit a = true -> Py.isdigit b = true ->
  AZ m1 = true -> AZ m2 = true -> AZ m3 = true ->
  _parse_fecha (string_of_list_ascii [a; b; "/"%char; m1; m2; m3]) anio
  = (anio_efectivo anio ++ "-"
     ++ _mes_str_a_num (string_of_list_ascii [m1; m2; m3])
     ++ "-" ++ string_of_list_ascii [a; b])%string.
Proof.
  intros Ha Hb H1 H2 H3.
  destruct (token_fecha_limpio a b m1 m2 m3 Ha Hb H1 H2 H3) as [Hst Hup].
  unfold _parse_fecha. rewrite Hst, Hup.
  rewrite (rx_ddmes_coincide a b m1 m2 m3 Ha Hb H1 H2 H3).
  reflexivity.
Qed.

Lemma parse_fecha_token_iso (t : string) (anio : option string) :
  coincide PATRON_FECHA t = true ->
  fecha_iso (anio_efectivo anio) (_parse_fecha t anio).
Proof.
  intros H. apply patron_fecha_forma in H.
  destruct H as (a & b & m1 & m2 & m3 & -> & Ha & Hb & H1 & H2 & H3).
  rewrite (parse_fecha_token_valor a b m1 m2 m3 anio Ha Hb H1 H2 H3).
  exists (_mes_str_a_num (string_of_list_ascii [m1; m2; m3])), a, b.
  split; [reflexivity|]. split; [apply mes_en_tabla|now split].
Qed.

(** X12, [_parse_fecha]: a token that [PATRON_FECHA] matches in full is two
    digits, a stroke and three capital letters, and [_parse_fecha] turns it
    into year-month-day: the year of the cover (2025 if there is none), the
    number of the month ([_mes_str_a_num], 01 for an unknown name) and the
    two digits of the day.  The raw fallback is not taken, and
    [_fecha_ddmes_a_iso] gives the same text. *)
Theorem parse_fecha_de_token (t : string) (anio : option string) :
  coincide PATRON_FECHA t = true ->
  exists a b m1 m2 m3,
    t = string_of_list_ascii [a; b; "/"%char; m1; m2; m3]
    /\ Py.isdigit a = true /\ Py.isdigit b = true
    /\ _parse_fecha t anio
       = (anio_efectivo anio ++ "-"
          ++ _mes_str_a_num (string_of_list_ascii [m1; m2; m3])
          ++ "-" ++ string_of_list_ascii [a; b])%string
    /\ _fecha_ddmes_a_iso t (anio_efectivo anio) = _parse_fecha t anio
    /\ fecha_iso (anio_efectivo anio) (_parse_fecha t anio).
Proof.
  intros H. pose proof (parse_fecha_token_iso t anio H) as Hiso.
  apply patron_fecha_forma in H.
  destruct H as (a & b & m1 & m2 & m3 & -> & Ha & Hb & H1 & H2 & H3).
  exists a, b, m1, m2, m3. split; [reflexivity|].
  split; [exact Ha|]. split; [exact Hb|].
  pose proof (parse_fecha_token_valor a b m1 m2 m3 anio Ha Hb H1 H2 H3) as Hp.
  split; [exact Hp|]. split; [|exact Hiso].
  rewrite Hp. unfold _fecha_ddmes_a_iso.
  rewrite (proj2 (token_fecha_limpio a b m1 m2 m3 Ha Hb H1 H2 H3)).
  rewrite (rx_ddmes_coincide a b m1 m2 m3 Ha Hb H1 H2 H3). reflexivity.
Qed.

Lemma indices_fecha_In (textos : list string) :
  forall k i,
    In i (indices_fecha k textos) ->
    (k <= i)%nat /\ coincide PATRON_FECHA (nth (i - k) textos "") = true.
Proof.
  induction textos as [|t textos IH]; intros k i Hi; [destruct Hi|].
  cbn [indices_fecha] in Hi.
  destruct (coincide PATRON_FECHA t) eqn:Ht.
  - destruct Hi as [<-|Hi].
    + split; [lia|]. now rewrite Nat.sub_diag.
    + apply IH in Hi. destruct Hi as [Hk Hc]. split; [lia|].
      replace (i - k)%nat with (S (i - S k)) by lia. exact Hc.
  - apply IH in Hi. destruct Hi as [Hk Hc]. split; [lia|].
    replace (i - k)%nat with (S (i - S k)) by lia. exact Hc.
Qed.

(** X13, [parse_movimientos] of [bbva.py]: both dates of every record have the
    form year-month-day, with the year of the cover (2025 if there is none),
    a month number from 01 to 12 and a day of two digits. *)
Theorem parse_movimientos_fechas_iso (doc : Documento)
  (portada : Pagina) (resto : list Pagina) (movs : list Movimiento) :
  parse_movimientos doc (portada :: resto) = Some movs ->
  Forall (fun m =>
            fecha_iso (anio_efectivo (_obtener_anio_desde_portada (texto portada)))
                      (fecha_operacion m)
            /\ fecha_iso (anio_efectivo (_obtener_anio_desde_portada (texto portada)))
                         (fecha_liquidacion m))
         movs.
Proof.
  intros H. unfold parse_movimientos in H. injection H as <-.
  set (anio := _obtener_anio_desde_portada (texto portada)).
  set (P := fun m => fecha_iso (anio_efectivo anio) (fecha_operacion m)
                     /\ fecha_iso (anio_efectivo anio) (fecha_liquidacion m)).
  rewrite procesar_paginas_concat. cbn [app].
  assert (Hp : forall ps n,
             Forall P (List.concat (registros_por_pagina doc anio n ps))).
  { induction ps as [|pg ps IH]; intros n;
      cbn [registros_por_pagina List.concat]; [constructor|].
    apply Forall_app. split; [|apply IH].
    apply procesar_pagina_Forall.
    - intros cc fila i1 i2 r Hidx. unfold P, movimiento_de_fila.
      cbn [fecha_operacion fecha_liquidacion].
      assert (H1 : In i1 (idx_fechas fila)) by (rewrite Hidx; now left).
      assert (H2 : In i2 (idx_fechas fila))
        by (rewrite Hidx; right; now left).
      apply indices_fecha_In in H1, H2. rewrite Nat.sub_0_r in H1, H2.
      split; apply parse_fecha_token_iso; [apply H1|apply H2].
    - intros e m Hm. exact Hm. }
  exact (Hp (portada :: resto) 1%nat).
Qed.

End Fechas_Props.

(* ================================================================= *)
(** ** Normalized lines *)

Module Lineas_Props.
Import Predicados Pred_Lineas Py_Props Py.

Lemma append_assoc (a b c : string) : ((a ++ b) ++ c = a ++ (b ++ c))%string.
Proof. induction a as [|x a IH]; cbn [String.append]; [reflexivity|now rewrite IH]. Qed.

Lemma append_nil_r (a : string) : (a ++ "")%string = a.
Proof. induction a as [|x a IH]; cbn [String.append]; [reflexivity|now rewrite IH]. Qed.

Lemma chars_app (a b : string) :
  chars (a ++ b)%string = chars a ++ chars b.
Proof.
  induction a as [|x a IH]; cbn [String.append list_ascii_of_string app];
    [reflexivity|now rewrite IH].
Qed.

Lemma split_aux_palabras (s : string) :
  forall cur,
    Forall (fun c => isspace c = false) (chars cur) ->
    Forall palabra_limpia (split_aux cur s).
Proof.
  induction s as [|c s IH]; intros cur Hcur; cbn [split_aux].
  - destruct cur as [|x cur]; cbn [is_empty]; [constructor|].
    constructor; [|constructor]. split; [discriminate|exact Hcur].
  - destruct (isspace c) eqn:Hc.
    + destruct cur as [|x cur]; cbn [is_empty].
      * apply IH. constructor.
      * constructor; [split; [discriminate|exact Hcur]|].
        apply IH. constructor.
    + apply IH. rewrite chars_app. apply Forall_app. split; [exact Hcur|].
      cbn [list_ascii_of_string]. now constructor.
Qed.

Lemma split_aux_palabra (w s cur : string) :
  Forall (fun c => isspace c = false) (chars w) ->
  split_aux cur (w ++ s)%string = split_aux (cur ++ w)%string s.
Proof.
  revert cur. induction w as [|c w IH]; intros cur Hw;
    cbn [String.append].
  - now rewrite append_nil_r.
  - cbn [list_ascii_of_string] in Hw. cbn [split_aux].
    rewrite (Forall_inv Hw), (IH _ (Forall_inv_tail Hw)), append_assoc.
    reflexivity.
Qed.

Lemma split_join (ws : list string) :
  Forall palabra_limpia ws -> split (join " " ws) = ws.
Proof.
  unfold split. induction 1 as [|w ws [Hne Hw] Hws IH]; [reflexivity|].
  assert (Hw1 : forall s, split_aux "" (w ++ s)%string = split_aux w s)
    by (intros s; now rewrite split_aux_palabra).
  destruct ws as [|y ws].
  - cbn [join]. rewrite <- (append_nil_r w) at 1. rewrite Hw1. cbn [split_aux].
    destruct w; [congruence|reflexivity].
  - change (join " " (w :: y :: ws))
      with (w ++ " " ++ join " " (y :: ws))%string.
    rewrite Hw1. cbn [String.append split_aux].
    change (isspace " ") with true. cbv iota.
    destruct w as [|x w']; [congruence|]. cbn [is_empty].
    now rewrite IH.
Qed.

Lemma split_aux_lstrip (s : string) :
  split_aux "" (lstrip s) = split_aux "" s.
Proof.
  induction s as [|c s IH]; [reflexivity|].
  cbn [lstrip split_aux]. destruct (isspace c) eqn:Hc.
  - cbn [is_empty]. exact IH.
  - cbn [split_aux]. now rewrite Hc.
Qed.

Lemma split_aux_rstrip (s : string) :
  forall cur, split_aux cur (rstrip s) = split_aux cur s.
Proof.
  induction s as [|c s IH]; intros cur; [reflexivity|].
  cbn [rstrip]. destruct (rstrip s) as [|r0 r] eqn:Hr.
  - destruct (isspace c) eqn:Hc.
    + cbn [split_aux]. rewrite Hc, <- (IH ""). cbn [split_aux is_empty].
      now destruct cur.
    + cbn [split_aux]. rewrite Hc, <- IH. reflexivity.
  - cbn [split_aux]. destruct (isspace c).
    + rewrite <- (IH ""). reflexivity.
    + now rewrite <- IH.
Qed.

Lemma split_strip (s : string) : split (strip s) = split s.
Proof.
  unfold split, strip. now rewrite split_aux_rstrip, split_aux_lstrip.
Qed.

Lemma split_aux_replace_nbsp (s : string) :
  forall cur, split_aux cur (replace "160" " " s) = split_aux cur s.
Proof.
  induction s as [|c s IH]; intros cur; [reflexivity|].
  cbn [replace]. destruct (Ascii.eqb c "160") eqn:Hc.
  - apply Ascii.eqb_eq in Hc. subst c.
    cbn [String.append split_aux].
    change (isspace " ") with true. change (isspace "160") with true.
    cbv iota. now rewrite IH.
  - cbn [split_aux]. destruct (isspace c); now rewrite ?IH.
Qed.

Lemma norm_line_split (line : string) :
  BBVATC._norm_line line = join " " (split line).
Proof.
  unfold BBVATC._norm_line. rewrite split_strip. unfold split.
  now rewrite split_aux_replace_nbsp.
Qed.

(** X14, [_norm_line]: the line becomes its words ([str.split]) joined by
    single spaces; the words are not empty and hold no blank, they are the
    words of the normalized line too, and normalizing twice changes nothing
    more. *)
Theorem norm_line_forma_normal (line : string) :
  BBVATC._norm_line line = join " " (split line)
  /\ Forall palabra_limpia (split line)
  /\ split (BBVATC._norm_line line) = split line
  /\ BBVATC._norm_line (BBVATC._norm_line line) = BBVATC._norm_line line.
Proof.
  assert (Hw : Forall palabra_limpia (split line))
    by (apply split_aux_palabras; constructor).
  split; [apply norm_line_split|]. split; [exact Hw|].
  rewrite !norm_line_split. rewrite (split_join _ Hw). now split.
Qed.

End Lineas_Props.

(* ================================================================= *)
(** ** Where the amounts of a row come from *)

Module Montos_Props.
Import Predicados Pred_Montos BBVA_Props BBVA.

Lemma campo_asignar (cc : list (string * Py.pyfloat)) (ms : Montos) (w : Word)
  (col : string) :
  In col objetivos ->
  campo col (asignar_monto cc ms w)
  = if coincide PATRON_MONTO (text w)
    then match _columna_por_x (centro w) cc with
         | Some col' => if String.eqb col' col
                        then _limpiar_monto (text w) else campo col ms
         | None => campo col ms
         end
    else campo col ms.
Proof.
  intros Hcol. unfold asignar_monto.
  destruct (coincide PATRON_MONTO (text w)); [|reflexivity].
  destruct (_columna_por_x (centro w) cc) as [col'|]; [|reflexivity].
  unfold objetivos in Hcol. cbn [In] in Hcol.
  destruct Hcol as [<-|[<-|[<-|[<-|[]]]]]; unfold campo;
    cbn [String.eqb Ascii.eqb Bool.eqb andb];
    destruct (String.eqb col' "CARGOS") eqn:E1;
    try (apply String.eqb_eq in E1; subst col');
    cbn [m_cargos m_abonos m_saldo_oper m_saldo_liq String.eqb Ascii.eqb
         Bool.eqb andb]; try reflexivity;
    destruct (String.eqb col' "ABONOS") eqn:E2;
    try (apply String.eqb_eq in E2; subst col');
    cbn [m_cargos m_abonos m_saldo_oper m_saldo_liq String.eqb Ascii.eqb
         Bool.eqb andb]; try reflexivity;
    destruct (String.eqb col' "OPERACION") eqn:E3;
    try (apply String.eqb_eq in E3; subst col');
    cbn [m_cargos m_abonos m_saldo_oper m_saldo_liq String.eqb Ascii.eqb
         Bool.eqb andb]; try reflexivity;
    destruct (String.eqb col' "LIQUIDACION") eqn:E4;
    try (apply String.eqb_eq in E4; subst col');
    cbn [m_cargos m_abonos m_saldo_oper m_saldo_liq String.eqb Ascii.eqb
         Bool.eqb andb]; reflexivity.
Qed.

Lemma montos_fold (cc : list (string * Py.pyfloat)) (col : string) (fila : list Word) :
  In col objetivos ->
  forall ms,
    (forall v, campo col (fold_left (asignar_monto cc) fila ms) = Some v ->
       campo col ms = Some v
       \/ exists w, In w fila /\ monto_en cc col w
                    /\ _limpiar_monto (text w) = Some v)
    /\ (campo col ms <> None \/ (exists w, In w fila /\ monto_en cc col w) ->
        campo col (fold_left (asignar_monto cc) fila ms) <> None).
Proof.
  intros Hcol. induction fila as [|w fila IH]; intros ms; cbn [fold_left].
  - split; [intros v Hv; now left|].
    intros [H|(w & [] & _)]. exact H.
  - destruct (IH (asignar_monto cc ms w)) as [IH1 IH2].
    pose proof (campo_asignar cc ms w col Hcol) as Hc.
    split.
    + intros v Hv. apply IH1 in Hv.
      destruct Hv as [Hv|(w' & Hw' & Hm & Hl)].
      * rewrite Hc in Hv.
        destruct (coincide PATRON_MONTO (text w)) eqn:Hp; [|now left].
        destruct (_columna_por_x (centro w) cc) as [col'|] eqn:Hx;
          [|now left].
        destruct (String.eqb col' col) eqn:He; [|now left].
        apply String.eqb_eq in He. subst col'.
        right. exists w. split; [now left|]. split; [now split|exact Hv].
      * right. exists w'. split; [now right|]. now split.
    + intros H. apply IH2. rewrite Hc.
      destruct H as [H|(w' & [<-|Hw'] & Hp & Hx)].
      * destruct (coincide PATRON_MONTO (text w)) eqn:Hp; [|now left].
        destruct (_columna_por_x (centro w) cc) as [col'|]; [|now left].
        destruct (String.eqb col' col); [|now left].
        left. destruct (limpiar_monto_de_patron _ Hp) as (v0 & -> & _).
        discriminate.
      * left. rewrite Hp, Hx, String.eqb_refl.
        destruct (limpiar_monto_de_patron _ Hp) as (v0 & -> & _).
        discriminate.
      * right. exists w'. split; [exact Hw'|now split].
Qed.

(** X15, the amounts of a transaction row in [parse_movimientos] of [bbva.py]:
    a field (charge, credit or either balance) that is present holds the
    value of an amount token of the row whose nearest column is the field's
    own, and the field is present as soon as the row has such a token. *)
Theorem montos_de_procedencia (cc : list (string * Py.pyfloat)) (fila : list Word)
  (col : string) :
  In col objetivos ->
  (forall v, campo col (montos_de cc fila) = Some v ->
     exists w, In w fila /\ monto_en cc col w
               /\ _limpiar_monto (text w) = Some v)
  /\ ((exists w, In w fila /\ monto_en cc col w) ->
      campo col (montos_de cc fila) <> None).
Proof.
  intros Hcol. unfold montos_de.
  destruct (montos_fold cc col fila Hcol (mkMontos None None None None))
    as [H1 H2].
  assert (Hnone : campo col (mkMontos None None None None) = None).
  { unfold campo. cbn [m_cargos m_abonos m_saldo_oper m_saldo_liq].
    repeat destruct (String.eqb col _); reflexivity. }
  split.
  - intros v Hv. apply H1 in Hv. destruct Hv as [Hv|Hv]; [congruence|exact Hv].
  - intros H. apply H2. now right.
Qed.

End Montos_Props.

(* ================================================================= *)
(** ** The choice of the parser *)

Module Detector_Props.
Import ReB Detector Pred_Detector Re_Props Patrones_Props.

Lemma run_b_sound (r : regex) :
  forall done s g k res,
    run r done s g k = Some res ->
    exists p rest g',
      s = p ++ rest /\ matches_b r done p rest g g'
      /\ k (rev p ++ done) rest g' = Some res.
Proof.
  induction r as [|cls|cls lo hi|r1 IH1 r2 IH2|r1 IH1 r2 IH2|name r1 IH1];
    intros done s g k res H; cbn [run] in H.
  - destruct (xorb (word_at done) (word_at s)) eqn:Hx; [|discriminate].
    exists [], s, g. repeat split; assumption.
  - destruct s as [|a s']; [discriminate|].
    destruct (cls a) eqn:Ha; [|discriminate].
    exists [a], s', g. split; [reflexivity|]. split; [now exists a|exact H].
  - apply rep_inv in H. destruct H as (p & s' & -> & Hp & Hlo & Hhi & Hk).
    exists p, s', g. repeat split; assumption.
  - apply IH1 in H. destruct H as (p1 & rest1 & g1 & -> & Hm1 & H).
    apply IH2 in H. destruct H as (p2 & rest & g' & -> & Hm2 & H).
    exists (p1 ++ p2), rest, g'. split; [now rewrite app_assoc|].
    split; [now exists p1, p2, g1|].
    now rewrite rev_app_distr, <- app_assoc.
  - unfold Re.orelse in H.
    destruct (run r1 done s g k) as [x|] eqn:H1.
    + injection H as <-. apply IH1 in H1.
      destruct H1 as (p & rest & g' & -> & Hm & Hk).
      exists p, rest, g'. split; [reflexivity|]. split; [now left|exact Hk].
    + apply IH2 in H. destruct H as (p & rest & g' & -> & Hm & Hk).
      exists p, rest, g'. split; [reflexivity|]. split; [now right|exact Hk].
  - apply IH1 in H. destruct H as (p & rest & g1 & -> & Hm & H).
    rewrite captured_rev in H.
    exists p, rest, ((name, string_of_list_ascii p) :: g1).
    split; [reflexivity|]. split; [now exists g1|exact H].
Qed.

Lemma search_sound (r : regex) (s : string) (m : Re.groups) :
  search r s = Some m ->
  exists pre p post,
    list_ascii_of_string s = pre ++ p ++ post
    /\ matches_b r (rev pre) p post [] m.
Proof.
  unfold search.
  assert (H : forall l done,
             search_from r done l = Some m ->
             exists done' p post,
               rev done ++ l = rev done' ++ p ++ post
               /\ matches_b r done' p post [] m).
  { induction l as [|a l IH]; intros done Hs; cbn [search_from] in Hs.
    - destruct (run r done [] [] _) eqn:Hr; [|discriminate].
      injection Hs as ->. apply run_b_sound in Hr.
      destruct Hr as (p & rest & g' & Hl & Hm & Hk). injection Hk as ->.
      exists done, p, rest. now rewrite Hl.
    - destruct (run r done (a :: l) [] _) eqn:Hr.
      + injection Hs as ->. apply run_b_sound in Hr.
        destruct Hr as (p & rest & g' & Hl & Hm & Hk). injection Hk as ->.
        exists done, p, rest. now rewrite Hl.
      + apply IH in Hs. destruct Hs as (done' & p & post & Heq & Hm).
        exists done', p, post. split; [|exact Hm].
        rewrite <- Heq. cbn [rev]. now rewrite <- app_assoc. }
  intros Hs. apply H in Hs. destruct Hs as (done' & p & post & Heq & Hm).
  exists (rev done'), p, post. cbn [rev app] in Heq.
  now rewrite rev_involutive.
Qed.

Lemma word_at_app (p rest : list ascii) :
  p <> [] -> word_at (p ++ rest) = word_at p.
Proof. destruct p; [congruence|reflexivity]. Qed.

(** What a match of [\b( ... )\b] tells when the group holds word
    characters only. *)
Lemma entre_fronteras (r : regex) (s : string) (m : Re.groups) :
  search (seq [Wb; Grp "1" r; Wb]) s = Some m ->
  (forall done p rest g g',
      matches_b r done p rest g g' ->
      p <> [] /\ forallb is_word p = true /\ g' = g) ->
  exists p pre post,
    m = [("1", string_of_list_ascii p)]
    /\ matches_b r (rev pre) p post [] []
    /\ delimitada (string_of_list_ascii p) s.
Proof.
  intros Hs Hr. apply search_sound in Hs.
  destruct Hs as (pre & p & post & Heq & Hm). cbn [seq matches_b] in Hm.
  destruct Hm as (p1 & q & g1 & -> & (-> & -> & Hb1)
                  & p2 & p3 & g2 & -> & (g0 & Hm & ->) & (-> & -> & Hb2)).
  cbn [rev app] in *. rewrite app_nil_r in *.
  destruct (Hr _ _ _ _ _ Hm) as (Hne & Hw & ->).
  exists p2, pre, post. split; [reflexivity|]. split; [exact Hm|].
  exists pre, post. rewrite list_ascii_of_string_of_list_ascii.
  split; [exact Heq|].
  assert (H1 : word_at (p2 ++ post) = true).
  { rewrite word_at_app by exact Hne.
    destruct p2 as [|c p2]; [congruence|].
    cbn [forallb] in Hw. apply andb_true_iff in Hw. apply Hw. }
  assert (H2 : word_at (rev p2 ++ rev pre) = true).
  { rewrite word_at_app.
    - destruct (rev p2) as [|c l] eqn:Hrev.
      + apply (f_equal (@rev ascii)) in Hrev.
        rewrite rev_involutive in Hrev. now subst p2.
      + cbn [word_at]. rewrite forallb_forall in Hw. apply Hw.
        apply in_rev. rewrite Hrev. now left.
    - intros Hrev. apply (f_equal (@rev ascii)) in Hrev.
      rewrite rev_involutive in Hrev. now subst p2. }
  rewrite H1 in Hb1. rewrite H2 in Hb2.
  split.
  - now destruct (word_at (rev pre)).
  - now destruct (word_at post).
Qed.

Lemma isdigit_word (c : ascii) : Py.isdigit c = true -> is_word c = true.
Proof.
  destruct c as [[] [] [] [] [] [] [] []]; vm_compute; intros H;
    try discriminate H; reflexivity.
Qed.

Lemma search_cuenta (s : string) (m : Re.groups) :
  search rx_cuenta s = Some m ->
  cuatro_digitos (Re.group "1" m) /\ delimitada (Re.group "1" m) s.
Proof.
  intros H. apply entre_fronteras in H.
  - destruct H as (p & pre & post & -> & (Hd & Hlo & Hhi & _) & Hdel).
    cbn [Re.group String.eqb Ascii.eqb Bool.eqb andb].
    split; [|exact Hdel].
    destruct p as [|a [|b [|c [|e [|f p]]]]];
      cbn [List.length] in Hlo, Hhi; try lia.
    cbn [forallb] in Hd.
    repeat (apply andb_true_iff in Hd; destruct Hd as [? Hd]).
    exists a, b, c, e. repeat split; assumption.
  - intros done p rest g g' (Hd & Hlo & _ & ->).
    repeat split.
    + intros ->. cbn [List.length] in Hlo. lia.
    + apply forallb_forall. intros x Hx. rewrite forallb_forall in Hd.
      now apply isdigit_word, Hd.
Qed.

Lemma search_moneda (s : string) (m : Re.groups) :
  search rx_moneda s = Some m ->
  (Re.group "1" m = "MXN" \/ Re.group "1" m = "USD")
  /\ delimitada (Re.group "1" m) s.
Proof.
  intros H.
  assert (Hshape : forall done p rest g g',
             matches_b (Alt (seq (lit "MXN")) (seq (lit "USD")))
                     done p rest g g' ->
             (p = list_ascii_of_string "MXN" \/ p = list_ascii_of_string "USD")
             /\ g' = g).
  { intros done p rest g g' Hm. cbn [lit seq matches_b] in Hm.
    destruct Hm as [Hm|Hm];
      destruct Hm as (p1 & q1 & g1 & -> & (c1 & -> & Hc1 & ->)
                      & p2 & p3 & g2 & -> & (c2 & -> & Hc2 & ->)
                      & (c3 & -> & Hc3 & ->));
      apply Ascii.eqb_eq in Hc1, Hc2, Hc3; subst;
      split; [now left|reflexivity|now right|reflexivity]. }
  apply entre_fronteras in H.
  - destruct H as (p & pre & post & -> & Hm & Hdel).
    cbn [Re.group String.eqb Ascii.eqb Bool.eqb andb].
    split; [|exact Hdel].
    destruct (Hshape _ _ _ _ _ Hm) as [[-> | ->] _]; [now left|now right].
  - intros done p rest g g' Hm.
    destruct (Hshape _ _ _ _ _ Hm) as [[-> | ->] ->];
      repeat split; discriminate.
Qed.

(** The account and the currency of the parser made for a file. *)
Lemma get_parser_campos (nombre_archivo : string) (contenido : option string)
  (p : Parser) :
  get_parser_for_file nombre_archivo contenido = Some p ->
  match clase p with
  | BBVATCParser =>
      cuenta_por_defecto p = Some "TC" /\ moneda_por_defecto p = "MXN"
  | BBVAParser =>
      (moneda_por_defecto p = "MXN" \/ moneda_por_defecto p = "USD")
      /\ match cuenta_por_defecto p with
         | None => True
         | Some c => cuatro_digitos c
         end
  end.
Proof.
  unfold get_parser_for_file. cbv zeta.
  destruct (Py.contains "BBVA" (Py.upper nombre_archivo)); [|discriminate].
  destruct (_nombre_indica_tc (Py.upper nombre_archivo)
            || _es_bbva_tc_por_contenido contenido).
  - intros H. injection H as <-. now split.
  - destruct (search rx_moneda (Py.upper nombre_archivo)) as [mm|] eqn:Hm.
    2:{ intros H. injection H as <-. split; [now left|exact I]. }
    destruct (search rx_cuenta (Py.upper nombre_archivo)) as [mc|] eqn:Hk.
    2:{ intros H. injection H as <-. split; [now left|exact I]. }
    intros H. injection H as <-.
    destruct (search_moneda _ _ Hm) as [Hval _].
    destruct (search_cuenta _ _ Hk) as [Hdig _].
    cbn [nuevo clase cuenta_por_defecto moneda_por_defecto].
    split; [|exact Hdig].
    destruct Hval as [-> | ->]; [now left|now right].
Qed.

(** X16, [get_parser_for_file]: there is no parser exactly when the upper-case
    file name does not hold BBVA.  The card parser is chosen exactly when the
    name or the first page says so, always with account TC and currency MXN.
    Otherwise the account parser is chosen, either without an account and
    with currency MXN, or with an account of four digits and a currency MXN
    or USD that both stand in the name between characters that are not word
    characters (an underscore is a word character). *)
Theorem get_parser_caracterizado (nombre_archivo : string)
  (contenido : option string) :
  match get_parser_for_file nombre_archivo contenido with
  | None => Py.contains "BBVA" (Py.upper nombre_archivo) = false
  | Some p =>
      Py.contains "BBVA" (Py.upper nombre_archivo) = true
      /\ match clase p with
         | BBVATCParser =>
             cuenta_por_defecto p = Some "TC" /\ moneda_por_defecto p = "MXN"
             /\ (_nombre_indica_tc (Py.upper nombre_archivo) = true
                 \/ _es_bbva_tc_por_contenido contenido = true)
         | BBVAParser =>
             _nombre_indica_tc (Py.upper nombre_archivo) = false
             /\ _es_bbva_tc_por_contenido contenido = false
             /\ match cuenta_por_defecto p with
                | None => moneda_por_defecto p = "MXN"
                | Some c =>
                    cuatro_digitos c
                    /\ delimitada c (Py.upper nombre_archivo)
                    /\ (moneda_por_defecto p = "MXN"
                        \/ moneda_por_defecto p = "USD")
                    /\ delimitada (moneda_por_defecto p)
                                  (Py.upper nombre_archivo)
                end
         end
  end.
Proof.
  unfold get_parser_for_file. cbv zeta.
  destruct (Py.contains "BBVA" (Py.upper nombre_archivo)); [|reflexivity].
  destruct (_nombre_indica_tc (Py.upper nombre_archivo)) eqn:Hn.
  - cbn [orb]. cbv iota.
    cbn [nuevo clase cuenta_por_defecto moneda_por_defecto Py.is_empty].
    repeat split. now left.
  - destruct (_es_bbva_tc_por_contenido contenido) eqn:Hc.
    + cbn [orb]. cbv iota.
      cbn [nuevo clase cuenta_por_defecto moneda_por_defecto Py.is_empty].
      repeat split. now right.
    + cbn [orb]. cbv iota.
      destruct (search rx_moneda (Py.upper nombre_archivo)) as [mm|] eqn:Hm.
      2:{ cbn [nuevo clase cuenta_por_defecto moneda_por_defecto].
          repeat split. }
      destruct (search rx_cuenta (Py.upper nombre_archivo)) as [mc|] eqn:Hk.
      2:{ cbn [nuevo clase cuenta_por_defecto moneda_por_defecto].
          repeat split. }
      destruct (search_moneda _ _ Hm) as [Hval Hdel].
      destruct (search_cuenta _ _ Hk) as [Hdig Hdelc].
      cbn [nuevo clase cuenta_por_defecto moneda_por_defecto].
      assert (Hne : Py.is_empty (Re.group "1" mm) = false)
        by (destruct Hval as [-> | ->]; reflexivity).
      rewrite Hne. repeat split; assumption.
Qed.

End Detector_Props.

(* ================================================================= *)
(** ** The chosen parser at work *)

Module Lector_Props.
Import ReB Detector Lector Pred_Detector Pred_Paginas Pred_TC Paginas_Props TC_Props Detector_Props BBVATC_Props.

(** X17, [get_parser_for_file] followed by [parse_movimientos]: with the card
    parser every row has account TC and currency MXN; with the account
    parser every record has currency MXN or USD and, as account, four digits
    or the stem of the file name; all bear the file name. *)
Theorem registros_del_parser_elegido
  (pd_to_datetime : bool -> string -> option BBVATC.Timestamp)
  (nombre_archivo stem : string) (contenido : option string) (p : Parser) :
  get_parser_for_file nombre_archivo contenido = Some p ->
  match clase p with
  | BBVATCParser =>
      forall pages,
        Forall (fun r => cuenta (BBVATC.fila_mov r) = "TC"
                         /\ moneda (BBVATC.fila_mov r) = "MXN"
                         /\ origen_pdf (BBVATC.fila_mov r) = nombre_archivo)
               (BBVATC.parse_movimientos pd_to_datetime
                  (documento_de p stem nombre_archivo) pages)
  | BBVAParser =>
      forall pages movs,
        BBVA.parse_movimientos (documento_de p stem nombre_archivo) pages
        = Some movs ->
        Forall (fun m => (moneda m = "MXN" \/ moneda m = "USD")
                         /\ (cuenta m = stem \/ cuatro_digitos (cuenta m))
                         /\ origen_pdf m = nombre_archivo)
               movs
  end.
Proof.
  intros Hp. pose proof (get_parser_campos nombre_archivo contenido p Hp) as H.
  destruct p as [cl cta mon].
  cbn [clase cuenta_por_defecto moneda_por_defecto] in *.
  destruct cl.
  - destruct H as [Hmon Hcta]. intros pages movs Hm.
    destruct pages as [|portada resto]; [discriminate|].
    unfold BBVA.parse_movimientos in Hm. injection Hm as <-.
    rewrite procesar_paginas_concat. cbn [app].
    destruct (registros_por_pagina_Forall
                (documento_de (mkParser BBVAParser cta mon) stem nombre_archivo)
                (BBVA._obtener_anio_desde_portada (BBVA.texto portada))
                (portada :: resto) 1) as [HF _].
    eapply Forall_impl; [|exact HF].
    intros m [(Hc & Hmo & Ho) _]. rewrite Hc, Hmo, Ho.
    unfold documento_de.
    cbn [doc_cuenta doc_moneda doc_nombre cuenta_por_defecto
         moneda_por_defecto BBVATC.py_or].
    split; [exact Hmon|]. split; [|reflexivity].
    destruct cta as [c|]; [|now left]. right.
    destruct Hcta as (a & b & c' & e & -> & Hd). cbn [Py.is_empty].
    exists a, b, c', e. now split.
  - destruct H as [-> ->]. intros pages.
    apply Forall_forall. intros r Hr. unfold BBVATC.parse_movimientos in Hr.
    apply tabla_In in Hr. destruct Hr as (mv & Hin & ->).
    pose proof (extraer_registros pd_to_datetime
                  (documento_de (mkParser BBVATCParser (Some "TC") "MXN")
                                stem nombre_archivo) pages) as He.
    rewrite Forall_forall in He.
    destruct (He mv Hin) as [(_ & _ & _ & (Hc & Hmo & Ho) & _) _].
    cbn [BBVATC.fila_mov BBVATC.a_fila]. rewrite Hc, Hmo, Ho.
    now repeat split.
Qed.

End Lector_Props.

(* ================================================================= *)
(** ** Table names *)

Module Nombres_Props.
Import ReB UI Pred_Nombres.

Lemma sub_runs_forallb (P cls : ascii -> bool) (repl : string) (s : string) :
  forallb P (list_ascii_of_string repl) = true ->
  (forall c, cls c = false -> In c (list_ascii_of_string s) -> P c = true) ->
  forall b, forallb P (list_ascii_of_string (sub_runs cls repl b s)) = true.
Proof.
  intros Hr. induction s as [|c s IH]; intros Hs b; [reflexivity|].
  cbn [sub_runs list_ascii_of_string] in *.
  assert (IH' : forall b', forallb P (list_ascii_of_string
                                        (sub_runs cls repl b' s)) = true).
  { apply IH. intros x Hx Hin. apply Hs; [exact Hx|now right]. }
  destruct (cls c) eqn:Hc.
  - destruct b; [apply IH'|].
    rewrite Lineas_Props.chars_app, forallb_app, Hr. apply IH'.
  - cbn [list_ascii_of_string forallb]. rewrite IH'.
    rewrite (Hs c Hc); [reflexivity|now left].
Qed.

Lemma sub_guion_sin_dobles (s : string) :
  forall b,
    sin_guiones_dobles (sub_runs guion "_" b s) = true
    /\ (b = true -> primero guion (sub_runs guion "_" b s) = false).
Proof.
  induction s as [|c s IH]; intros b; cbn [sub_runs].
  - split; reflexivity.
  - destruct (guion c) eqn:Hc.
    + destruct (IH true) as [H1 H2]. destruct b.
      * split; [exact H1|exact H2].
      * split; [|discriminate].
        cbn [String.append sin_guiones_dobles].
        rewrite (H2 eq_refl), H1, andb_false_r. reflexivity.
    + destruct (IH false) as [H1 _].
      split; [|intros _; exact Hc].
      cbn [sin_guiones_dobles]. now rewrite Hc, H1.
Qed.

Lemma lstrip_de_facts (P : ascii -> bool) (s : string) :
  forallb P (list_ascii_of_string s) = true ->
  sin_guiones_dobles s = true ->
  forallb P (list_ascii_of_string (lstrip_de guion s)) = true
  /\ sin_guiones_dobles (lstrip_de guion s) = true
  /\ primero guion (lstrip_de guion s) = false.
Proof.
  induction s as [|c s IH]; intros Hp Hd; [now repeat split|].
  cbn [lstrip_de]. cbn [list_ascii_of_string forallb sin_guiones_dobles] in *.
  apply andb_true_iff in Hp, Hd. destruct Hp as [Hc Hp], Hd as [_ Hd].
  destruct (guion c) eqn:Hg; [now apply IH|].
  cbn [list_ascii_of_string forallb sin_guiones_dobles primero].
  rewrite Hc, Hp, Hg, Hd. now repeat split.
Qed.

Lemma primero_rstrip_de (s : string) :
  primero guion s = false -> primero guion (rstrip_de guion s) = false.
Proof.
  destruct s as [|c s]; [reflexivity|]. cbn [primero rstrip_de]. intros Hc.
  destruct (rstrip_de guion s); [rewrite Hc|]; exact Hc.
Qed.

Lemma rstrip_de_facts (P : ascii -> bool) (s : string) :
  forallb P (list_ascii_of_string s) = true ->
  sin_guiones_dobles s = true ->
  forallb P (list_ascii_of_string (rstrip_de guion s)) = true
  /\ sin_guiones_dobles (rstrip_de guion s) = true
  /\ ultimo guion (rstrip_de guion s) = false
  /\ (primero guion (rstrip_de guion s) = true -> primero guion s = true).
Proof.
  induction s as [|c s IH]; intros Hp Hd; [now repeat split|].
  cbn [list_ascii_of_string forallb sin_guiones_dobles] in Hp, Hd.
  apply andb_true_iff in Hp, Hd. destruct Hp as [Hc Hp], Hd as [Hcd Hd].
  destruct (IH Hp Hd) as (I1 & I2 & I3 & I4).
  cbn [rstrip_de]. destruct (rstrip_de guion s) as [|r0 r] eqn:Hr.
  - destruct (guion c) eqn:Hg; [now repeat split|].
    cbn [list_ascii_of_string forallb sin_guiones_dobles ultimo primero].
    rewrite Hc, Hg. now repeat split.
  - cbn [list_ascii_of_string forallb]. rewrite Hc.
    split; [exact I1|]. split; [|split; [exact I3|intros H; exact H]].
    cbn [sin_guiones_dobles] in I2 |- *. rewrite I2, andb_true_r.
    destruct (guion c) eqn:Hg; [|reflexivity]. cbn [andb] in *.
    destruct (primero guion (String r0 r)) eqn:Hp0; [|reflexivity].
    rewrite (I4 eq_refl) in Hcd. discriminate.
Qed.

Lemma sub_runs_sin_clase (cls : ascii -> bool) (repl s : string) :
  forallb (fun c => negb (cls c)) (list_ascii_of_string s) = true ->
  forall b, sub_runs cls repl b s = s.
Proof.
  induction s as [|c s IH]; intros H b; [reflexivity|].
  cbn [list_ascii_of_string forallb] in H. apply andb_true_iff in H.
  destruct H as [Hc H]. apply negb_true_iff in Hc.
  cbn [sub_runs]. now rewrite Hc, IH.
Qed.

Lemma sub_guion_fijo (s : string) :
  sin_guiones_dobles s = true ->
  sub_runs guion "_" false s = s
  /\ (primero guion s = false -> sub_runs guion "_" true s = s).
Proof.
  induction s as [|c s IH]; intros Hd; [now split|].
  cbn [sin_guiones_dobles] in Hd. apply andb_true_iff in Hd.
  destruct Hd as [Hcd Hd]. destruct (IH Hd) as [I1 I2].
  cbn [sub_runs primero]. destruct (guion c) eqn:Hg.
  - split; [|discriminate]. cbn [andb] in Hcd. apply negb_true_iff in Hcd.
    rewrite (I2 Hcd). unfold guion in Hg. apply Ascii.eqb_eq in Hg.
    now subst c.
  - rewrite I1. now split.
Qed.

Lemma lstrip_de_fijo (s : string) :
  primero guion s = false -> lstrip_de guion s = s.
Proof.
  destruct s as [|c s]; [reflexivity|]. cbn [primero lstrip_de].
  now intros ->.
Qed.

Lemma rstrip_de_fijo (s : string) :
  ultimo guion s = false -> rstrip_de guion s = s.
Proof.
  induction s as [|c s IH]; [reflexivity|]. cbn [ultimo rstrip_de].
  destruct s as [|c' s'].
  - cbn [rstrip_de]. now intros ->.
  - intros H. rewrite (IH H). reflexivity.
Qed.

Lemma safe_sql_seguro (name : string) :
  nombre_seguro (safe_sql_table_name name) = true.
Proof.
  unfold safe_sql_table_name, sub, strip_de. cbv zeta.
  set (s1 := sub_runs (fun c => negb (seguro c)) "_" false name).
  set (s2 := sub_runs guion "_" false s1).
  assert (H1 : forallb seguro (list_ascii_of_string s1) = true).
  { apply sub_runs_forallb; [reflexivity|].
    intros c Hc _. now apply negb_false_iff in Hc. }
  assert (H2 : forallb seguro (list_ascii_of_string s2) = true).
  { apply sub_runs_forallb; [reflexivity|].
    intros c _ Hin. rewrite forallb_forall in H1. now apply H1. }
  destruct (sub_guion_sin_dobles s1 false) as [H3 _]. fold s2 in H3.
  destruct (lstrip_de_facts seguro s2 H2 H3) as (L1 & L2 & L3).
  destruct (rstrip_de_facts seguro _ L1 L2) as (R1 & R2 & R3 & _).
  pose proof (primero_rstrip_de _ L3) as R4.
  destruct (rstrip_de guion (lstrip_de guion s2)) as [|c r] eqn:Hr;
    [reflexivity|].
  cbn [Py.is_empty]. unfold nombre_seguro. cbn [Py.is_empty negb andb].
  now rewrite R1, R2, R3, R4.
Qed.

Lemma safe_sql_fijo (s : string) :
  nombre_seguro s = true -> safe_sql_table_name s = s.
Proof.
  unfold nombre_seguro. intros H.
  repeat (apply andb_true_iff in H; destruct H as [H ?]).
  apply negb_true_iff in H, H0, H1.
  unfold safe_sql_table_name, sub, strip_de. cbv zeta.
  rewrite (sub_runs_sin_clase (fun c => negb (seguro c))).
  2:{ apply forallb_forall. intros c Hc. rewrite forallb_forall in H3.
      cbv beta. now rewrite negb_involutive, (H3 c Hc). }
  rewrite (proj1 (sub_guion_fijo s H2)).
  rewrite (lstrip_de_fijo s H1), (rstrip_de_fijo s H0). now rewrite H.
Qed.

(** X18, [safe_sql_table_name]: the result is never empty, is made of ASCII
    letters, digits and underscores, has no underscore at either end and no
    two underscores side by side; the names of that form are exactly those
    the function leaves unchanged, so applying it twice is applying it
    once. *)
Theorem safe_sql_table_name_normaliza (name s : string) :
  nombre_seguro (safe_sql_table_name name) = true
  /\ (safe_sql_table_name s = s <-> nombre_seguro s = true)
  /\ safe_sql_table_name (safe_sql_table_name name) = safe_sql_table_name name.
Proof.
  split; [apply safe_sql_seguro|]. split.
  - split; [intros <-; apply safe_sql_seguro|apply safe_sql_fijo].
  - apply safe_sql_fijo, safe_sql_seguro.
Qed.

End Nombres_Props.

(* ================================================================= *)
(** ** The two amount normalizers *)

Module Acuerdo_Props.
Import Py Py_Props Lineas_Props.

Local Abbreviation sin c s :=
  (Forall (fun x => Ascii.eqb x c = false) (list_ascii_of_string s)).

Lemma lstrip_Forall (P : ascii -> Prop) (s : string) :
  Forall P (list_ascii_of_string s) ->
  Forall P (list_ascii_of_string (lstrip s)).
Proof.
  induction s as [|c s IH]; intros H; [exact H|].
  cbn [lstrip]. destruct (isspace c); [|exact H].
  apply IH. exact (Forall_inv_tail H).
Qed.

Lemma rstrip_Forall (P : ascii -> Prop) (s : string) :
  Forall P (list_ascii_of_string s) ->
  Forall P (list_ascii_of_string (rstrip s)).
Proof.
  induction s as [|c s IH]; intros H; [exact H|].
  cbn [list_ascii_of_string] in H.
  pose proof (IH (Forall_inv_tail H)) as IH'.
  cbn [rstrip]. destruct (rstrip s) as [|r0 r].
  - destruct (isspace c); [constructor|].
    constructor; [exact (Forall_inv H)|constructor].
  - cbn [list_ascii_of_string] in *. constructor; [exact (Forall_inv H)|exact IH'].
Qed.

Lemma replace_Forall (P : ascii -> Prop) (c : ascii) (new s : string) :
  Forall P (list_ascii_of_string new) ->
  Forall P (list_ascii_of_string s) ->
  Forall P (list_ascii_of_string (replace c new s)).
Proof.
  intros Hn. induction s as [|x s IH]; intros H; [exact H|].
  cbn [list_ascii_of_string] in H. cbn [replace].
  destruct (Ascii.eqb x c).
  - rewrite chars_app. apply Forall_app. split; [exact Hn|].
    apply IH. exact (Forall_inv_tail H).
  - cbn [list_ascii_of_string]. constructor; [exact (Forall_inv H)|].
    apply IH. exact (Forall_inv_tail H).
Qed.

(** X19, the two [_limpiar_monto]: on a text without a minus sign the
    normalizer of [bbva.py] and that of [bbva_tc.py] give the same answer,
    the same number or nothing; they can differ on a minus sign only. *)
Theorem limpiar_monto_acuerdo (txt : string) :
  contains "-" txt = false ->
  BBVA._limpiar_monto txt = BBVATC._limpiar_monto txt.
Proof.
  intros H. rewrite contains_caracter in H.
  apply existsb_false_Forall in H.
  assert (H0 : sin "-"%char (strip txt)).
  { unfold strip. now apply rstrip_Forall, lstrip_Forall. }
  unfold BBVA._limpiar_monto, BBVATC._limpiar_monto. cbv zeta.
  set (s := replace " " "" (replace "$" "" (strip txt))).
  assert (Hs : sin "-"%char s).
  { unfold s. apply replace_Forall; [constructor|].
    apply replace_Forall; [constructor|exact H0]. }
  set (s' := if contains "," s && contains "." s then replace "," "" s
             else if contains "," s && negb (contains "." s)
                  then replace "," "." (replace "." "" s) else s).
  assert (Hs' : sin "-"%char s').
  { unfold s'. destruct (contains "," s && contains "." s);
      [apply replace_Forall; [constructor|exact Hs]|].
    destruct (contains "," s && negb (contains "." s)); [|exact Hs].
    apply replace_Forall; [repeat constructor|].
    apply replace_Forall; [constructor|exact Hs]. }
  rewrite (count_ausente _ _ Hs'). cbn [Nat.eqb andb].
  assert (Hm : String.eqb (strip txt) "-" = false).
  { destruct (String.eqb (strip txt) "-") eqn:E; [|reflexivity].
    apply String.eqb_eq in E. rewrite E in H0. apply Forall_inv in H0.
    discriminate H0. }
  rewrite Hm, orb_false_r.
  destruct (String.eqb (strip txt) "") eqn:E.
  - apply String.eqb_eq in E. unfold s. now rewrite E.
  - destruct (is_empty s) eqn:Hes; [|reflexivity].
    destruct s; [|discriminate]. reflexivity.
Qed.

End Acuerdo_Props.

(* ================================================================= *)
(** ** Further examples *)

Module Casos_Extra.
Import Ejemplos Ejemplos_Extra.

(** X2 on three words at the offsets 0.1, 2.1 and 4.2 with the tolerance 2:
    the first two share a row, their computed distance being 2.0. *)
Lemma agrupar_filas_tolerancia_decimos :
  Py.es_doble 2 = true
  /\ BBVA._agrupar_filas palabras_decimos 2
     = [[W "A" 0 1 top_0_1; W "B" 2 3 top_2_1]; [W "C" 0 1 top_4_2]]
  /\ Sorted (Pred_Filas.filas_distantes 2)
            (BBVA._agrupar_filas palabras_decimos 2).
Proof.
  assert (Hd : Py.es_doble 2 = true) by (vm_compute; reflexivity).
  split; [exact Hd|]. split; [vm_compute; reflexivity|].
  exact (proj2 (proj2 (Filas_Props.agrupar_filas_tolerancia
                         palabras_decimos 2)) Hd).
Defined.

(** X3 on two centres at the same computed distance from [x]: the first of
    the dictionary is returned. *)
Lemma columna_por_x_mas_cercana_empate :
  BBVA._columna_por_x x_empate centros_empate = Some "CARGOS"
  /\ exists c antes despues,
       centros_empate = antes ++ ("CARGOS", c) :: despues
       /\ Forall (fun kv => Py.ltb (BBVA.distancia x_empate c)
                                   (BBVA.distancia x_empate (snd kv))
                            = true) antes
       /\ Forall (fun kv => Py.ltb (BBVA.distancia x_empate (snd kv))
                                   (BBVA.distancia x_empate c)
                            = false) despues.
Proof.
  assert (Hn : forallb (fun kv => negb (Py.es_nan
                                          (BBVA.distancia x_empate (snd kv))))
                       centros_empate = true)
    by (vm_compute; reflexivity).
  assert (Hc : BBVA._columna_por_x x_empate centros_empate = Some "CARGOS")
    by (vm_compute; reflexivity).
  split; [exact Hc|].
  pose proof (Columna_Props.columna_por_x_mas_cercana
                x_empate centros_empate Hn) as H.
  rewrite Hc in H. exact H.
Defined.

(** X5 on the page that repeats the labels in its totals block. *)
Lemma grupos_de_separados_ejemplo :
  Py.es_doble BBVA.tol_fila_defecto = true
  /\ map Pred_Grupos.ancla
         (BBVA.grupos_de (encabezado_totales ++ encabezado)
                         BBVA.tol_fila_defecto)
     = [10; 200]
  /\ ForallOrdPairs (fun a b => (a + BBVA.tol_fila_defecto < b)%Q)
       (map Pred_Grupos.ancla
            (BBVA.grupos_de (encabezado_totales ++ encabezado)
                            BBVA.tol_fila_defecto)).
Proof.
  assert (Hd : Py.es_doble BBVA.tol_fila_defecto = true)
    by (vm_compute; reflexivity).
  split; [exact Hd|]. split; [vm_compute; reflexivity|].
  exact (Grupos_Props.grupos_de_separados
           (encabezado_totales ++ encabezado) BBVA.tol_fila_defecto Hd).
Defined.

(** X4 on the header row of the example page. *)
Lemma detectar_cuatro_columnas_ejemplo :
  BBVA._detectar_columnas_montos encabezado BBVA.tol_fila_defecto
  = Some centros_encabezado
  /\ NoDup (map fst centros_encabezado)
  /\ (forall k, In k (map fst centros_encabezado) <-> In k BBVA.objetivos)
  /\ List.length centros_encabezado = 4%nat.
Proof.
  assert (H : BBVA._detectar_columnas_montos encabezado BBVA.tol_fila_defecto
              = Some centros_encabezado)
    by (vm_compute; reflexivity).
  split; [exact H|].
  exact (Resolver_Props.detectar_cuatro_columnas _ _ _ H).
Defined.

(** X6 on a page whose totals row stands between two transaction rows. *)
Lemma filas_tras_el_total_ejemplo :
  BBVA.es_total (BBVA.texto_de_fila fila_total) = true
  /\ BBVA.procesar_filas doc_cta None 1 centros_encabezado
       ([fila_mov_ej] ++ fila_total :: [fila_mov_ej; fila_detalle_ej]) [] None
     = BBVA.procesar_filas doc_cta None 1 centros_encabezado
         [fila_mov_ej] [] None.
Proof.
  assert (H : BBVA.es_total (BBVA.texto_de_fila fila_total) = true)
    by (vm_compute; reflexivity).
  split; [exact H|].
  exact (Paginas_Props.filas_tras_el_total doc_cta None 1%nat
           centros_encabezado [fila_mov_ej] [fila_mov_ej; fila_detalle_ej]
           fila_total [] None H).
Defined.

(** X8 on the two-page account statement. *)
Lemma parse_movimientos_paginas_ejemplo :
  BBVA.parse_movimientos doc_cta [pagina_cta_1; pagina_cta_2] = Some [mov_cta]
  /\ Forall (fun m => Pred_Paginas.del_documento doc_cta m
                      /\ (1 <= pagina m
                          <= List.length [pagina_cta_1; pagina_cta_2])%nat)
            [mov_cta]
  /\ StronglySorted (fun a b => (pagina a <= pagina b)%nat) [mov_cta].
Proof.
  assert (H : BBVA.parse_movimientos doc_cta [pagina_cta_1; pagina_cta_2]
              = Some [mov_cta])
    by (vm_compute; reflexivity).
  split; [exact H|].
  exact (Paginas_Props.parse_movimientos_paginas _ _ _ H).
Defined.

(** X9 on the payment line. *)
Lemma linea_coincidente_se_emite_pago :
  BBVATC.coincidir linea_pago = Some campos_pago
  /\ exists neg q monto,
       (0 <= q)%Q
       /\ monto = Py.de_magnitud neg q
       /\ (monto = Py.PyInf neg
           \/ exists r, (0 <= r)%Q /\ monto = Py.PyFin neg r)
       /\ BBVATC._limpiar_monto (BBVATC.monto_txt campos_pago) = Some monto
       /\ BBVATC.procesar_linea BBVATC.to_datetime_ref doc_tc 1 linea_pago
          = BBVATC.Emitido
              (BBVATC.movimiento_de BBVATC.to_datetime_ref doc_tc 1
                                    campos_pago monto).
Proof.
  assert (Hc : BBVATC.es_corte (Py.upper linea_pago) = false)
    by (vm_compute; reflexivity).
  assert (Ho : BBVATC.es_omitida (Py.upper linea_pago) = false)
    by (vm_compute; reflexivity).
  assert (Hm : BBVATC.coincidir linea_pago = Some campos_pago)
    by (vm_compute; reflexivity).
  split; [exact Hm|].
  exact (TC_Props.linea_coincidente_se_emite
           BBVATC.to_datetime_ref doc_tc 1%nat linea_pago campos_pago
           Hc Ho Hm).
Defined.

(** X11 on a cover that names the period. *)
Lemma obtener_anio_cuatro_digitos_ejemplo :
  BBVA._obtener_anio_desde_portada portada_periodo = Some "2025"
  /\ exists a b c e,
       "2025" = String a (String b (String c (String e "")))
       /\ Py.isdigit a = true /\ Py.isdigit b = true
       /\ Py.isdigit c = true /\ Py.isdigit e = true.
Proof.
  assert (H : BBVA._obtener_anio_desde_portada portada_periodo = Some "2025")
    by (vm_compute; reflexivity).
  split; [exact H|].
  exact (Anio_Props.obtener_anio_cuatro_digitos _ _ H).
Defined.

(** X12 on the token 01/JUL and the year 2025. *)
Lemma parse_fecha_de_token_ejemplo :
  BBVA.coincide BBVA.PATRON_FECHA "01/JUL" = true
  /\ exists a b m1 m2 m3,
       "01/JUL" = string_of_list_ascii [a; b; "/"%char; m1; m2; m3]
       /\ Py.isdigit a = true /\ Py.isdigit b = true
       /\ BBVA._parse_fecha "01/JUL" (Some "2025")
          = (Fechas.anio_efectivo (Some "2025") ++ "-"
             ++ BBVA._mes_str_a_num (string_of_list_ascii [m1; m2; m3])
             ++ "-" ++ string_of_list_ascii [a; b])%string
       /\ Fechas._fecha_ddmes_a_iso "01/JUL"
            (Fechas.anio_efectivo (Some "2025"))
          = BBVA._parse_fecha "01/JUL" (Some "2025")
       /\ Fechas.fecha_iso (Fechas.anio_efectivo (Some "2025"))
                           (BBVA._parse_fecha "01/JUL" (Some "2025")).
Proof.
  assert (H : BBVA.coincide BBVA.PATRON_FECHA "01/JUL" = true)
    by (vm_compute; reflexivity).
  split; [exact H|].
  exact (Fechas_Props.parse_fecha_de_token "01/JUL" (Some "2025") H).
Defined.

(** X13 on the two-page account statement, whose cover names no period. *)
Lemma parse_movimientos_fechas_iso_ejemplo :
  BBVA.parse_movimientos doc_cta (pagina_cta_1 :: [pagina_cta_2])
  = Some [mov_cta]
  /\ Forall (fun m =>
               Fechas.fecha_iso
                 (Fechas.anio_efectivo
                    (BBVA._obtener_anio_desde_portada
                       (BBVA.texto pagina_cta_1)))
                 (fecha_operacion m)
               /\ Fechas.fecha_iso
                    (Fechas.anio_efectivo
                       (BBVA._obtener_anio_desde_portada
                          (BBVA.texto pagina_cta_1)))
                    (fecha_liquidacion m))
            [mov_cta].
Proof.
  assert (H : BBVA.parse_movimientos doc_cta (pagina_cta_1 :: [pagina_cta_2])
              = Some [mov_cta])
    by (vm_compute; reflexivity).
  split; [exact H|].
  exact (Fechas_Props.parse_movimientos_fechas_iso _ _ _ _ H).
Defined.

(** X15 on the charge of the example row. *)
Lemma montos_de_procedencia_ejemplo :
  In "CARGOS" BBVA.objetivos
  /\ (forall v,
        Pred_Montos.campo "CARGOS"
          (BBVA.montos_de centros_encabezado fila_mov_ej) = Some v ->
        exists w, In w fila_mov_ej
                  /\ Pred_Montos.monto_en centros_encabezado "CARGOS" w
                  /\ BBVA._limpiar_monto (BBVA.text w) = Some v)
  /\ ((exists w, In w fila_mov_ej
                 /\ Pred_Montos.monto_en centros_encabezado "CARGOS" w) ->
      Pred_Montos.campo "CARGOS"
        (BBVA.montos_de centros_encabezado fila_mov_ej) <> None).
Proof.
  assert (H : In "CARGOS" BBVA.objetivos) by (left; reflexivity).
  split; [exact H|].
  exact (Montos_Props.montos_de_procedencia centros_encabezado fila_mov_ej
           "CARGOS" H).
Defined.

(** X17 on a file name that holds the account and the currency. *)
Lemma registros_del_parser_elegido_ejemplo :
  Detector.get_parser_for_file nombre_5516 (Some "") = Some parser_5516
  /\ forall pages movs,
       BBVA.parse_movimientos
         (Lector.documento_de parser_5516 "BBVA 5516 USD" nombre_5516) pages
       = Some movs ->
       Forall (fun m => (moneda m = "MXN" \/ moneda m = "USD")
                        /\ (cuenta m = "BBVA 5516 USD"
                            \/ Pred_Detector.cuatro_digitos (cuenta m))
                        /\ origen_pdf m = nombre_5516)
              movs.
Proof.
  assert (H : Detector.get_parser_for_file nombre_5516 (Some "")
              = Some parser_5516)
    by (vm_compute; reflexivity).
  split; [exact H|].
  exact (Lector_Props.registros_del_parser_elegido BBVATC.to_datetime_ref
           nombre_5516 "BBVA 5516 USD" (Some "") parser_5516 H).
Defined.

(** X19 on an amount with a thousands separator. *)
Lemma limpiar_monto_acuerdo_ejemplo :
  Py.contains "-" "1,234.56" = false
  /\ BBVA._limpiar_monto "1,234.56" = BBVATC._limpiar_monto "1,234.56".
Proof.
  assert (H : Py.contains "-" "1,234.56" = false) by (vm_compute; reflexivity).
  split; [exact H|].
  exact (Acuerdo_Props.limpiar_monto_acuerdo "1,234.56" H).
Defined.

End Casos_Extra.
